(** * Autocomplete: a shallow embedding of the combobox component

    The component is a React class: props supplied by the parent, a state
    record updated through [setState], and a handful of private instance
    fields.  The embedding keeps that shape.

    - Numbers that serve as indexes and key codes are integers ([Z]); the
      JavaScript remainder [%] is [Z.rem].
    - A JavaScript string is held as the bytes of its UTF-8 encoding.  Being
      a prefix is the same on the bytes as on the characters; the length in
      UTF-16 code units is computed from the bytes; lower-casing is the
      engine's, a parameter ([Engine]).
    - [props.items] is an array shared with the caller.  [getFilteredItems]
      returns, next to the view, the props as the call leaves them, and
      every caller threads them on.
    - [setState] queues an update; the queue is applied when the handler has
      returned, then the component renders, [componentDidUpdate] runs and
      the completion callbacks are called.
    - Calls that leave the component (the caller's callbacks, DOM methods of
      the input element, window scrolling) are recorded as a list of
      [Effect]s in the order in which they happen.  What the caller's
      functions return is given by the functions held in the props.
    - [step] is an event handled by the component's own handler, followed by
      the update; [fire] is the event as the rendered elements deliver it,
      with the caller's [onKeyDown] or [onClick] composed in.  The two leave
      the same instance, and [fire] makes the calls of [step] with the
      caller's call in between ([fire_fst], [fire_calls]).  [fire_batched]
      is an event during which the caller changes the props, applied by
      React in one update.
    - "The menu is closed" in a statement about the state means that the
      state field [isOpen] is false; whether the menu is shown is
      [isOpen ()], which the caller's [open] prop overrides. *)

From Stdlib Require Import ZArith List Bool Lia String Ascii Permutation.
Import ListNotations.
Local Open Scope Z_scope.

(** ** JavaScript values used as items

    [ItemT] is [unknown] in the source: any JavaScript value can be an item.
    The component tests items for truthiness and reads past the end of the
    array, which yields [undefined]. *)

Inductive ItemT : Type :=
| IUndefined
| INull
| IBool (b : bool)
| INum (n : Z)
| IStr (s : string)
| IObj (fields : list (string * string)).

(** JavaScript truthiness (ToBoolean). *)
Definition truthy (v : ItemT) : bool :=
  match v with
  | IUndefined => false
  | INull => false
  | IBool b => b
  | INum n => negb (n =? 0)
  | IStr s => negb (s =? "")%string
  | IObj _ => true
  end.

Definition is_undefined (v : ItemT) : bool :=
  match v with IUndefined => true | _ => false end.

(** [items[p]]: an index outside the array reads [undefined]. *)
Definition item_at (items : list ItemT) (p : Z) : ItemT :=
  if p <? 0 then IUndefined else nth (Z.to_nat p) items IUndefined.

(** [items.length] *)
Definition len (items : list ItemT) : Z := Z.of_nat (List.length items).

(** ** Strings *)

(** [String.prototype.toLowerCase] belongs to the engine: its Unicode case
    mapping is no part of this code.  The component is modelled over any
    such function. *)
Class Engine : Type := { toLowerCase : string -> string }.

(** The mapping on the letters A to Z, with which every engine agrees on
    ASCII strings; the examples run on it. *)
Definition lower_ascii (c : ascii) : ascii :=
  let n := nat_of_ascii c in
  if (65 <=? n)%nat && (n <=? 90)%nat then ascii_of_nat (n + 32) else c.

Fixpoint ascii_toLowerCase (s : string) : string :=
  match s with
  | EmptyString => EmptyString
  | String c s' => String (lower_ascii c) (ascii_toLowerCase s')
  end.

Definition ascii_engine : Engine := {| toLowerCase := ascii_toLowerCase |}.

(** [s.length] counts UTF-16 code units.  On the UTF-8 bytes: one for each
    byte that starts a character of up to three bytes, two for a byte that
    starts a character of four bytes, none for a continuation byte. *)
Definition utf16_units (c : ascii) : Z :=
  let n := nat_of_ascii c in
  if (n <? 128)%nat then 1
  else if (n <? 192)%nat then 0
  else if (n <? 240)%nat then 1
  else 2.

Fixpoint utf16_length (s : string) : Z :=
  match s with
  | EmptyString => 0
  | String c s' => utf16_units c + utf16_length s'
  end.

(** [s.indexOf(search)]: position of the first occurrence, [-1] if none. *)
Fixpoint indexOf (s search : string) : Z :=
  if prefix search s then 0
  else match s with
       | EmptyString => -1
       | String _ s' =>
           let r := indexOf s' search in
           if r <? 0 then -1 else r + 1
       end.

(** ** Array.prototype.sort

    The sort is stable; [undefined] elements go to the end and the comparator
    is never called on them.  For a comparator that is a consistent ordering
    every conforming engine returns the list computed here. *)

Section Sort.
Variable cmp : ItemT -> ItemT -> Z.

Fixpoint sort_insert (x : ItemT) (l : list ItemT) : list ItemT :=
  match l with
  | [] => [x]
  | y :: t => if cmp x y <=? 0 then x :: y :: t else y :: sort_insert x t
  end.

Fixpoint stable_sort (l : list ItemT) : list ItemT :=
  match l with
  | [] => []
  | x :: t => sort_insert x (stable_sort t)
  end.

Definition js_sort (l : list ItemT) : list ItemT :=
  stable_sort (filter (fun v => negb (is_undefined v)) l)
    ++ filter is_undefined l.
End Sort.

(** ** Props, state and the component instance *)

Module Props.
Record t : Type := mk {
  items : list ItemT;
  value : string;
  shouldItemRender : option (ItemT -> string -> bool);
  isItemSelectable : ItemT -> bool;
  sortItems : option (ItemT -> ItemT -> string -> Z);
  getItemValue : ItemT -> string;
  autoHighlight : bool;
  selectOnBlur : bool;
  (** [Some b] when ["open" in props] *)
  open : option bool;
  (** whether [inputProps.onBlur] / [inputProps.onFocus] are supplied *)
  inputProps_onBlur : bool;
  inputProps_onFocus : bool;
  (** whether [inputProps.onKeyDown] / [inputProps.onClick] are supplied *)
  inputProps_onKeyDown : bool;
  inputProps_onClick : bool
}.

(** The array [props.items] after an in-place update. *)
Definition with_items (l : list ItemT) (p : t) : t :=
  mk l (value p) (shouldItemRender p) (isItemSelectable p) (sortItems p)
     (getItemValue p) (autoHighlight p) (selectOnBlur p) (open p)
     (inputProps_onBlur p) (inputProps_onFocus p)
     (inputProps_onKeyDown p) (inputProps_onClick p).
End Props.

Module State.
Record t : Type := mk {
  isOpen : bool;
  highlightedIndex : option Z;
  menuTop : option Z;
  menuLeft : option Z;
  menuWidth : option Z
}.

Definition set_isOpen (b : bool) (s : t) : t :=
  mk b (highlightedIndex s) (menuTop s) (menuLeft s) (menuWidth s).
Definition set_highlightedIndex (h : option Z) (s : t) : t :=
  mk (isOpen s) h (menuTop s) (menuLeft s) (menuWidth s).
Definition set_menu (top left width : Z) (s : t) : t :=
  mk (isOpen s) (highlightedIndex s) (Some top) (Some left) (Some width).
End State.

(** What the handlers read from the browser. *)
Record Dom : Type := {
  rect_bottom : Z;
  rect_left : Z;
  rect_width : Z;
  marginBottom : Z;
  marginLeft : Z;
  marginRight : Z;
  pageXOffset : Z;
  pageYOffset : Z;
  inputIsFocused : bool
}.

Record Autocomplete : Type := {
  props : Props.t;
  state : State.t;
  _ignoreBlur : bool;
  _ignoreFocus : bool;
  _scrollOffset : option (Z * Z);
  _scrollTimer : option (Z * Z);
  (** [this.refs]: the items of the menu as last rendered, each with the
      handlers attached to it then; [None] while no menu is rendered *)
  refs_menu : option (list ItemT)
}.

Definition with_props (p : Props.t) (this : Autocomplete) : Autocomplete :=
  Build_Autocomplete p (state this) (_ignoreBlur this) (_ignoreFocus this)
    (_scrollOffset this) (_scrollTimer this) (refs_menu this).
Definition with_state (s : State.t) (this : Autocomplete) : Autocomplete :=
  Build_Autocomplete (props this) s (_ignoreBlur this) (_ignoreFocus this)
    (_scrollOffset this) (_scrollTimer this) (refs_menu this).
Definition with_ignoreFocus (b : bool) (this : Autocomplete) : Autocomplete :=
  Build_Autocomplete (props this) (state this) (_ignoreBlur this) b
    (_scrollOffset this) (_scrollTimer this) (refs_menu this).
Definition with_scrollOffset (o : option (Z * Z)) (this : Autocomplete)
  : Autocomplete :=
  Build_Autocomplete (props this) (state this) (_ignoreBlur this)
    (_ignoreFocus this) o (_scrollTimer this) (refs_menu this).
Definition with_refs_menu (m : option (list ItemT)) (this : Autocomplete)
  : Autocomplete :=
  Build_Autocomplete (props this) (state this) (_ignoreBlur this)
    (_ignoreFocus this) (_scrollOffset this) (_scrollTimer this) m.
Definition with_scrollTimer (o : option (Z * Z)) (this : Autocomplete)
  : Autocomplete :=
  Build_Autocomplete (props this) (state this) (_ignoreBlur this)
    (_ignoreFocus this) (_scrollOffset this) o (refs_menu this).

(** Calls that leave the component. *)
Inductive Effect : Type :=
| OnSelect (value : string) (item : ItemT)
| OnChange (value : string)
| OnMenuVisibilityChange (isOpen : bool)
| InputOnBlur
| InputOnFocus
| InputOnKeyDown
| InputOnClick
| PreventDefault
| InputFocus
| InputSelect
| InputSetSelectionRange (a b : Z)
| ScrollTo (x y : Z)
| ScrollItemIntoView (index : Z)
| ClearTimeout
| SetTimeout
| ThrowTypeError.

Definition is_OnSelect (e : Effect) : bool :=
  match e with OnSelect _ _ => true | _ => false end.

Section Component.
Context {engine : Engine}.

(** ** getFilteredItems

    [items] starts as an alias of [props.items]; [filter] allocates a new
    array, [sort] works in place on whatever [items] points to.  The second
    component is [props] as the call leaves it. *)

Definition getFilteredItems (props : Props.t) : list ItemT * Props.t :=
  let items := Props.items props in
  match Props.shouldItemRender props with
  | Some f =>
      let items := filter (fun item => f item (Props.value props)) items in
      match Props.sortItems props with
      | Some cmp =>
          (js_sort (fun a b => cmp a b (Props.value props)) items, props)
      | None => (items, props)
      end
  | None =>
      match Props.sortItems props with
      | Some cmp =>
          let sorted := js_sort (fun a b => cmp a b (Props.value props)) items in
          (sorted, Props.with_items sorted props)
      | None => (items, props)
      end
  end.

(** ** setState

    [setState] only queues: the handler keeps seeing the old [this.state]
    until it returns.  An update is an updater function, called later with
    the state and props of that moment, and the calls made by the optional
    completion callback.  The callbacks of this component close over values
    computed before [setState] is called, so they are plain lists of calls. *)

Definition Updater : Type := State.t -> Props.t -> State.t * Props.t.

Record Update : Type := {
  updater : Updater;
  callback : list Effect
}.

(** [setState({...})]: the object is merged into the state. *)
Definition merge (f : State.t -> State.t) : Updater := fun s p => (f s, p).

(** What a handler leaves when it returns: the instance with its fields as
    assigned, the queued [setState] calls and the calls made. *)
Record Outcome : Type := {
  self : Autocomplete;
  queue : list Update;
  effects : list Effect
}.

Definition done (this : Autocomplete) (effs : list Effect) : Outcome :=
  {| self := this; queue := []; effects := effs |}.

Definition setState (f : State.t -> State.t) (cb : list Effect)
  (this : Autocomplete) (effs : list Effect) : Outcome :=
  {| self := this;
     queue := [{| updater := merge f; callback := cb |}];
     effects := effs |}.

(** ** Methods *)

Definition isOpen (this : Autocomplete) : bool :=
  match Props.open (props this) with
  | Some b => b
  | None => State.isOpen (state this)
  end.

Definition setIgnoreBlur (ignore : bool) (this : Autocomplete) : Autocomplete :=
  Build_Autocomplete (props this) (state this) ignore (_ignoreFocus this)
    (_scrollOffset this) (_scrollTimer this) (refs_menu this).

(** [index !== highlightedIndex], a number against a number or [null]. *)
Definition same_index (index : Z) (h : option Z) : bool :=
  match h with
  | Some h => index =? h
  | None => false
  end.

(** In a comparison [null] counts as 0. *)
Definition to_number (h : option Z) : Z :=
  match h with
  | Some h => h
  | None => 0
  end.

Definition ensureHighlightedIndex : Updater := fun state props =>
  let (items, props) := getFilteredItems props in
  if to_number (State.highlightedIndex state) >=? len items
  then (State.set_highlightedIndex None state, props)
  else (state, props).

(** The loop of [maybeAutoCompleteText]; [n] counts the iterations left. *)
Fixpoint autoComplete_loop (selectable : ItemT -> bool) (items : list ItemT)
  (index : Z) (n : nat) : Z :=
  match n with
  | O => index
  | S n' =>
      if selectable (item_at items index) then index
      else autoComplete_loop selectable items (Z.rem (index + 1) (len items)) n'
  end.

Definition maybeAutoCompleteText : Updater := fun state props =>
  let highlightedIndex := State.highlightedIndex state in
  let value := Props.value props in
  let getItemValue := Props.getItemValue props in
  let index := match highlightedIndex with None => 0 | Some h => h end in
  let (items, props) := getFilteredItems props in
  let index :=
    autoComplete_loop (Props.isItemSelectable props) items index
      (List.length items) in
  let matchedItem :=
    if truthy (item_at items index)
       && Props.isItemSelectable props (item_at items index)
    then Some (item_at items index)
    else None in
  match matchedItem with
  | Some matched =>
      if negb (value =? "")%string then
        let itemValue := getItemValue matched in
        let itemValueDoesMatch :=
          indexOf (toLowerCase itemValue) (toLowerCase value) =? 0 in
        if itemValueDoesMatch
        then (State.set_highlightedIndex (Some index) state, props)
        else (State.set_highlightedIndex None state, props)
      else (State.set_highlightedIndex None state, props)
  | None => (State.set_highlightedIndex None state, props)
  end.

Definition componentWillReceiveProps (nextProps : Props.t)
  (this : Autocomplete) : Outcome :=
  let q1 :=
    match State.highlightedIndex (state this) with
    | Some _ => [{| updater := ensureHighlightedIndex; callback := [] |}]
    | None => []
    end in
  let q2 :=
    if Props.autoHighlight nextProps
       && (negb (Props.value (props this) =? Props.value nextProps)%string
           || match State.highlightedIndex (state this) with
              | None => true
              | Some _ => false
              end)
    then [{| updater := maybeAutoCompleteText; callback := [] |}]
    else [] in
  {| self := this; queue := q1 ++ q2; effects := [] |}.

(** *** Keyboard *)

(** The loop of [ArrowDown]; [n] counts the iterations left. *)
Fixpoint arrowDown_loop (selectable : ItemT -> bool) (items : list ItemT)
  (index i : Z) (n : nat) : Z :=
  match n with
  | O => index
  | S n' =>
      let p := Z.rem (index + i + 1) (len items) in
      if selectable (item_at items p) then p
      else arrowDown_loop selectable items index (i + 1) n'
  end.

Definition ArrowDown (this : Autocomplete) : Outcome :=
  let (items, props') := getFilteredItems (props this) in
  let this := with_props props' this in
  if len items =? 0 then done this [PreventDefault] else
  let highlightedIndex := State.highlightedIndex (state this) in
  let index := match highlightedIndex with None => -1 | Some h => h end in
  let index :=
    arrowDown_loop (Props.isItemSelectable (props this)) items index 0
      (List.length items) in
  if (index >? -1) && negb (same_index index highlightedIndex)
  then setState
         (fun s => State.set_isOpen true
                     (State.set_highlightedIndex (Some index) s))
         [] this [PreventDefault]
  else done this [PreventDefault].

(** The loop of [ArrowUp]. *)
Fixpoint arrowUp_loop (selectable : ItemT -> bool) (items : list ItemT)
  (index i : Z) (n : nat) : Z :=
  match n with
  | O => index
  | S n' =>
      let p := Z.rem (index - (1 + i) + len items) (len items) in
      if selectable (item_at items p) then p
      else arrowUp_loop selectable items index (i + 1) n'
  end.

Definition ArrowUp (this : Autocomplete) : Outcome :=
  let (items, props') := getFilteredItems (props this) in
  let this := with_props props' this in
  if len items =? 0 then done this [PreventDefault] else
  let highlightedIndex := State.highlightedIndex (state this) in
  let index :=
    match highlightedIndex with None => len items | Some h => h end in
  let index :=
    arrowUp_loop (Props.isItemSelectable (props this)) items index 0
      (List.length items) in
  if negb (index =? len items)
  then setState
         (fun s => State.set_isOpen true
                     (State.set_highlightedIndex (Some index) s))
         [] this [PreventDefault]
  else done this [PreventDefault].

Definition Enter (keyCode : Z) (this : Autocomplete) : Outcome :=
  if negb (keyCode =? 13) then done this [] else
  let this := setIgnoreBlur false this in
  if negb (isOpen this) then done this []
  else
    match State.highlightedIndex (state this) with
    | None => setState (State.set_isOpen false) [InputSelect] this []
    | Some h =>
        let (items, props') := getFilteredItems (props this) in
        let this := with_props props' this in
        let item := item_at items h in
        let value := Props.getItemValue (props this) item in
        let n := utf16_length value in
        setState
          (fun s => State.set_highlightedIndex None (State.set_isOpen false s))
          [InputSetSelectionRange n n; OnSelect value item]
          this [PreventDefault]
    end.

Definition Escape (this : Autocomplete) : Outcome :=
  let this := setIgnoreBlur false this in
  setState (fun s => State.set_isOpen false (State.set_highlightedIndex None s))
    [] this [].

Definition Tab (this : Autocomplete) : Outcome :=
  done (setIgnoreBlur false this) [].

(** [event.key] is taken to be the name of a key.  For the names the object
    [keyDownHandlers] inherits from [Object.prototype] the lookup is not
    empty in JavaScript; no keyboard reports one of them, and the
    statements about keys without a handler exclude them
    ([is_inherited_name]). *)
Definition handleKeyDown (key : string) (keyCode : Z) (this : Autocomplete)
  : Outcome :=
  if (key =? "ArrowDown")%string then ArrowDown this
  else if (key =? "ArrowUp")%string then ArrowUp this
  else if (key =? "Enter")%string then Enter keyCode this
  else if (key =? "Escape")%string then Escape this
  else if (key =? "Tab")%string then Tab this
  else if negb (isOpen this) then setState (State.set_isOpen true) [] this []
  else done this [].

Definition handleChange (v : string) (this : Autocomplete) : Outcome :=
  done this [OnChange v].

(** *** Mouse *)

Definition highlightItemFromMouse (index : Z) (this : Autocomplete) : Outcome :=
  setState (State.set_highlightedIndex (Some index)) [] this [].

Definition selectItemFromMouse (item : ItemT) (this : Autocomplete) : Outcome :=
  let value := Props.getItemValue (props this) item in
  let this := setIgnoreBlur false this in
  setState (fun s => State.set_highlightedIndex None (State.set_isOpen false s))
    [OnSelect value item] this [].

(** *** Focus and blur *)

Definition getScrollOffset (dom : Dom) : Z * Z :=
  (pageXOffset dom, pageYOffset dom).

Definition handleInputBlur (dom : Dom) (this : Autocomplete) : Outcome :=
  if _ignoreBlur this then
    let this := with_ignoreFocus true this in
    let this := with_scrollOffset (Some (getScrollOffset dom)) this in
    done this [InputFocus]
  else
    let highlightedIndex := State.highlightedIndex (state this) in
    let '(this, setStateCallback) :=
      match highlightedIndex with
      | Some h =>
          if Props.selectOnBlur (props this) then
            let (items, props') := getFilteredItems (props this) in
            let this := with_props props' this in
            let item := item_at items h in
            let value := Props.getItemValue (props this) item in
            (this, [OnSelect value item])
          else (this, [])
      | None => (this, [])
      end in
    setState
      (fun s => State.set_highlightedIndex None (State.set_isOpen false s))
      setStateCallback this
      (if Props.inputProps_onBlur (props this) then [InputOnBlur] else []).

Definition handleInputFocus (this : Autocomplete) : Outcome :=
  if _ignoreFocus this then
    let this := with_ignoreFocus false this in
    match _scrollOffset this with
    | None => done this [ThrowTypeError]
    | Some (x, y) =>
        let this := with_scrollOffset None this in
        let this := with_scrollTimer (Some (x, y)) this in
        done this [ScrollTo x y; ClearTimeout; SetTimeout]
    end
  else
    setState (State.set_isOpen true) [] this
      (if Props.inputProps_onFocus (props this) then [InputOnFocus] else []).

Definition handleInputClick (dom : Dom) (this : Autocomplete) : Outcome :=
  if inputIsFocused dom && negb (isOpen this)
  then setState (State.set_isOpen true) [] this []
  else done this [].

(** The deferred callback installed by [handleInputFocus]. *)
Definition scrollTimerCallback (this : Autocomplete) : Outcome :=
  match _scrollTimer this with
  | Some (x, y) => done (with_scrollTimer None this) [ScrollTo x y]
  | None => done this []
  end.

(** ** Rendering and the update cycle *)

(** [render]: the menu is rendered only while [isOpen()]; [renderMenu] calls
    [getFilteredItems] on [this.props]. *)
Definition render (this : Autocomplete) : Autocomplete :=
  if isOpen this then
    let (items, props') := getFilteredItems (props this) in
    with_refs_menu (Some items) (with_props props' this)
  else with_refs_menu None this.

Definition setMenuPositions (dom : Dom) (s : State.t) : State.t :=
  State.set_menu (rect_bottom dom + marginBottom dom)
    (rect_left dom + marginLeft dom)
    (rect_width dom + marginLeft dom + marginRight dom) s.

Definition maybeScrollItemIntoView (this : Autocomplete) : list Effect :=
  if isOpen this then
    match State.highlightedIndex (state this) with
    | Some h => [ScrollItemIntoView h]
    | None => []
    end
  else [].

(** ["open" in this.props && this.props.open && !prevProps.open] *)
Definition open_forced_now (prevProps p : Props.t) : bool :=
  match Props.open p with
  | Some true =>
      negb (match Props.open prevProps with Some b => b | None => false end)
  | _ => false
  end.

Definition applyQueue (q : list Update) (s : State.t) (p : Props.t)
  : State.t * Props.t :=
  fold_left (fun sp u => updater u (fst sp) (snd sp)) q (s, p).

(** One update of the mounted component: the queued updaters run in order on
    the state and on the props of this render, the component renders,
    [componentDidUpdate] runs, then the [setState] callbacks.  When
    [componentDidUpdate] calls [setMenuPositions], its [setState] gives a
    second render; in the [componentDidUpdate] of that one neither
    condition for [setMenuPositions] holds and [isOpen] has not changed. *)
Definition update (dom : Dom) (prevProps : Props.t) (q : list Update)
  (this : Autocomplete) : Autocomplete * list Effect :=
  let prevState := state this in
  let (s, p) := applyQueue q prevState (props this) in
  let this := render (with_state s (with_props p this)) in
  let effs :=
    maybeScrollItemIntoView this
    ++ (if Bool.eqb (State.isOpen prevState) (State.isOpen (state this))
        then [] else [OnMenuVisibilityChange (State.isOpen (state this))])
    ++ flat_map callback q in
  if (State.isOpen (state this) && negb (State.isOpen prevState))
     || open_forced_now prevProps (props this)
  then
    let this := render (with_state (setMenuPositions dom (state this)) this) in
    (this, effs ++ maybeScrollItemIntoView this)
  else (this, effs).

(** A handler that queued nothing causes no render. *)
Definition run (dom : Dom) (o : Outcome) : Autocomplete * list Effect :=
  match queue o with
  | [] => (self o, effects o)
  | q =>
      let (this, effs) := update dom (props (self o)) q (self o) in
      (this, effects o ++ effs)
  end.

(** Constructor, [componentWillMount], first render, [componentDidMount]. *)
Definition mount (dom : Dom) (p : Props.t) : Autocomplete * list Effect :=
  let this :=
    {| props := p;
       state := State.mk false None None None None;
       _ignoreBlur := false;
       _ignoreFocus := false;
       _scrollOffset := None;
       _scrollTimer := None;
       refs_menu := None |} in
  let this := render this in
  if isOpen this then
    let this := render (with_state (setMenuPositions dom (state this)) this) in
    (this, maybeScrollItemIntoView this)
  else (this, []).

(** ** Events

    Events on the menu and on its items can only come from a rendered menu,
    and an item has a mouse handler only if it was selectable when
    rendered. *)

Inductive Event : Type :=
| ReceiveProps (nextProps : Props.t)
| KeyDown (key : string) (keyCode : Z)
| Focus
| Blur
| Change (v : string)
| Click
| MenuTouchStart
| MenuMouseEnter
| MenuMouseLeave
| ItemMouseEnter (index : Z)
| ItemClick (index : Z)
| ScrollTimer.

Definition in_range (index : Z) (items : list ItemT) : bool :=
  (0 <=? index) && (index <? len items).

Definition step (dom : Dom) (e : Event) (this : Autocomplete)
  : Autocomplete * list Effect :=
  match e with
  | ReceiveProps nextProps =>
      let o := componentWillReceiveProps nextProps this in
      let (this', effs) :=
        update dom (props this) (queue o) (with_props nextProps (self o)) in
      (this', effects o ++ effs)
  | KeyDown key keyCode => run dom (handleKeyDown key keyCode this)
  | Focus => run dom (handleInputFocus this)
  | Blur => run dom (handleInputBlur dom this)
  | Change v => run dom (handleChange v this)
  | Click => run dom (handleInputClick dom this)
  | MenuTouchStart | MenuMouseEnter =>
      match refs_menu this with
      | Some _ => (setIgnoreBlur true this, [])
      | None => (this, [])
      end
  | MenuMouseLeave =>
      match refs_menu this with
      | Some _ => (setIgnoreBlur false this, [])
      | None => (this, [])
      end
  | ItemMouseEnter index =>
      match refs_menu this with
      | Some items =>
          if in_range index items
             && Props.isItemSelectable (props this) (item_at items index)
          then run dom (highlightItemFromMouse index this)
          else (this, [])
      | None => (this, [])
      end
  | ItemClick index =>
      match refs_menu this with
      | Some items =>
          if in_range index items
             && Props.isItemSelectable (props this) (item_at items index)
          then run dom (selectItemFromMouse (item_at items index) this)
          else (this, [])
      | None => (this, [])
      end
  | ScrollTimer => run dom (scrollTimerCallback this)
  end.

(** The instances of a mounted component when every event and every change
    of props has an update of its own. *)
Inductive reachable : Autocomplete -> Prop :=
| reachable_mount (dom : Dom) (p : Props.t) :
    reachable (fst (mount dom p))
| reachable_step (dom : Dom) (e : Event) (this : Autocomplete) :
    reachable this -> reachable (fst (step dom e this)).

(** The filtered view of the items for the current props. *)
Definition view (this : Autocomplete) : list ItemT :=
  fst (getFilteredItems (props this)).

(** [highlightedIndex], if present, indexes into the current view. *)
Definition highlight_in_view (this : Autocomplete) : Prop :=
  match State.highlightedIndex (state this) with
  | None => True
  | Some h => 0 <= h < len (view this)
  end.

(** ** The handlers as [render] wires them

    [render] passes [onKeyDown] and [onClick] through
    [composeEventHandlers]: the caller's handler from [inputProps], if there
    is one, runs right after the component's, before the update. *)

Definition composeEventHandlers (internal : Autocomplete -> Outcome)
  (external : option Effect) : Autocomplete -> Outcome :=
  match external with
  | Some call => fun this =>
      let o := internal this in
      {| self := self o; queue := queue o; effects := effects o ++ [call] |}
  | None => internal
  end.

(** The handler the rendered elements have for an event. *)
Definition handler (dom : Dom) (e : Event) (this : Autocomplete) : Outcome :=
  match e with
  | ReceiveProps _ => done this []
  | KeyDown key keyCode =>
      composeEventHandlers (handleKeyDown key keyCode)
        (if Props.inputProps_onKeyDown (props this)
         then Some InputOnKeyDown else None) this
  | Focus => handleInputFocus this
  | Blur => handleInputBlur dom this
  | Change v => handleChange v this
  | Click =>
      composeEventHandlers (handleInputClick dom)
        (if Props.inputProps_onClick (props this)
         then Some InputOnClick else None) this
  | MenuTouchStart | MenuMouseEnter =>
      match refs_menu this with
      | Some _ => done (setIgnoreBlur true this) []
      | None => done this []
      end
  | MenuMouseLeave =>
      match refs_menu this with
      | Some _ => done (setIgnoreBlur false this) []
      | None => done this []
      end
  | ItemMouseEnter index =>
      match refs_menu this with
      | Some items =>
          if in_range index items
             && Props.isItemSelectable (props this) (item_at items index)
          then highlightItemFromMouse index this
          else done this []
      | None => done this []
      end
  | ItemClick index =>
      match refs_menu this with
      | Some items =>
          if in_range index items
             && Props.isItemSelectable (props this) (item_at items index)
          then selectItemFromMouse (item_at items index) this
          else done this []
      | None => done this []
      end
  | ScrollTimer => scrollTimerCallback this
  end.

(** The call of the caller's handler that [render] composes with the
    component's handler for the event. *)
Definition composed_call (e : Event) (this : Autocomplete) : list Effect :=
  match e with
  | KeyDown _ _ =>
      if Props.inputProps_onKeyDown (props this) then [InputOnKeyDown] else []
  | Click =>
      if Props.inputProps_onClick (props this) then [InputOnClick] else []
  | _ => []
  end.

(** An event as the browser delivers it: the wired handler with the
    caller's composed one, then the update. *)
Definition fire (dom : Dom) (e : Event) (this : Autocomplete)
  : Autocomplete * list Effect :=
  match e with
  | ReceiveProps _ => step dom e this
  | _ => run dom (handler dom e this)
  end.

(** An event during which the caller changes the props, in its composed
    handler or in a handler of its own for the same event: React applies
    the [setState] of the component's handler and the new props in one
    update.  [componentWillReceiveProps] runs before the queue is applied
    and so reads [this.state] as it was before the handler's [setState];
    what it queues comes after what the handler queued. *)
Definition fire_batched (dom : Dom) (e : Event) (nextProps : Props.t)
  (this : Autocomplete) : Autocomplete * list Effect :=
  let o := handler dom e this in
  let o' := componentWillReceiveProps nextProps (self o) in
  let (this', effs) :=
    update dom (props (self o)) (queue o ++ queue o')
      (with_props nextProps (self o)) in
  (this', effects o ++ effs).

(** The instances of a mounted component when props may also change within
    an event. *)
Inductive reaches : Autocomplete -> Prop :=
| reaches_mount (dom : Dom) (p : Props.t) :
    reaches (fst (mount dom p))
| reaches_fire (dom : Dom) (e : Event) (this : Autocomplete) :
    reaches this -> reaches (fst (fire dom e this))
| reaches_batched (dom : Dom) (e : Event) (nextProps : Props.t)
    (this : Autocomplete) :
    reaches this -> reaches (fst (fire_batched dom e nextProps this)).

(** The same, except that props which change within an event have
    [autoHighlight] set whenever there was no highlight before the event.
    With a highlight before the event [componentWillReceiveProps] queues
    [ensureHighlightedIndex], with [autoHighlight] and no highlight it queues
    [maybeAutoCompleteText]; with neither it queues nothing. *)
Inductive settled : Autocomplete -> Prop :=
| settled_mount (dom : Dom) (p : Props.t) :
    settled (fst (mount dom p))
| settled_fire (dom : Dom) (e : Event) (this : Autocomplete) :
    settled this -> settled (fst (fire dom e this))
| settled_batched (dom : Dom) (e : Event) (nextProps : Props.t)
    (this : Autocomplete) :
    settled this ->
    Props.autoHighlight nextProps = true
    \/ State.highlightedIndex (state this) <> None ->
    settled (fst (fire_batched dom e nextProps this)).

(** ** The filtered view as the specification words it

    [Kept keep l v]: [v] is [l] with exactly the items that fail [keep]
    removed, the others in the order they have in [l]. *)

Inductive Kept (keep : ItemT -> bool) : list ItemT -> list ItemT -> Prop :=
| Kept_nil : Kept keep [] []
| Kept_take (x : ItemT) (l v : list ItemT) :
    keep x = true -> Kept keep l v -> Kept keep (x :: l) (x :: v)
| Kept_drop (x : ItemT) (l v : list ItemT) :
    keep x = false -> Kept keep l v -> Kept keep (x :: l) v.

(** The predicate [getFilteredItems] applies: [shouldItemRender] at the
    current value, or keep everything. *)
Definition keeps (p : Props.t) : ItemT -> bool :=
  match Props.shouldItemRender p with
  | Some f => fun item => f item (Props.value p)
  | None => fun _ => true
  end.

(** ** The invariant of the mounted component *)

(** [highlightedIndex] of [s] indexes into the view computed from [p]. *)
Definition hl_ok (s : State.t) (p : Props.t) : Prop :=
  match State.highlightedIndex s with
  | None => True
  | Some h => 0 <= h < len (fst (getFilteredItems p))
  end.

(** The rendered menu has as many items as the current view. *)
Definition menu_matches (this : Autocomplete) : Prop :=
  match refs_menu this with
  | Some m => len m = len (view this)
  | None => True
  end.

Definition Inv (this : Autocomplete) : Prop :=
  highlight_in_view this /\ menu_matches this.

(** What a handler must leave for the invariant to hold after the update. *)
Definition post (o : Outcome) : Prop :=
  menu_matches (self o)
  /\ hl_ok (fst (applyQueue (queue o) (state (self o)) (props (self o))))
           (snd (applyQueue (queue o) (state (self o)) (props (self o)))).

(** ** Running the component on examples *)

(** The instance after mounting with [p] and receiving [events] in order. *)
Definition after (dom : Dom) (p : Props.t) (events : list Event) : Autocomplete :=
  fold_left (fun this e => fst (step dom e this)) events (fst (mount dom p)).

Definition dom0 : Dom :=
  {| rect_bottom := 40; rect_left := 8; rect_width := 200;
     marginBottom := 0; marginLeft := 0; marginRight := 0;
     pageXOffset := 0; pageYOffset := 120; inputIsFocused := true |}.

(** Items [{v: name}] with [getItemValue = item => item.v]. *)
Definition fruit (name : string) : ItemT := IObj [("v"%string, name)].

Definition item_v (item : ItemT) : string :=
  match item with
  | IObj fields =>
      match find (fun f => (fst f =? "v")%string) fields with
      | Some f => snd f
      | None => ""%string
      end
  | _ => ""%string
  end.

Definition fruits : list ItemT :=
  [fruit "apple"; fruit "banana"; fruit "cherry"].

Definition fruit_props (items : list ItemT) (value : string)
  (open : option bool) : Props.t :=
  Props.mk items value None (fun _ => true) None item_v true false open
    false false false false.

(** [shouldItemRender]: the display value starts with the typed text. *)
Definition starts_with (item : ItemT) (value : string) : bool :=
  prefix (toLowerCase value) (toLowerCase (item_v item)).

Definition filtering_props (value : string) : Props.t :=
  Props.mk fruits value (Some starts_with) (fun _ => true) None item_v true
    false None false false false false.

(** An item the caller marks as not selectable. *)
Definition not_banana (item : ItemT) : bool :=
  negb (item_v item =? "banana")%string.

Definition picky_props (items : list ItemT) : Props.t :=
  Props.mk items ""%string None not_banana None item_v true false None
    false false false false.

(** Numbers as items, shown in decimal, ordered by a numeric comparator. *)
Definition number_of (item : ItemT) : Z :=
  match item with
  | INum n => n
  | _ => 0
  end.

Definition digit_of (item : ItemT) : string :=
  match item with
  | INum 0 => "0"%string
  | INum 1 => "1"%string
  | INum 2 => "2"%string
  | _ => "?"%string
  end.

Definition ascending (a b : ItemT) (value : string) : Z :=
  number_of a - number_of b.

Definition number_props (items : list ItemT) (value : string)
  (sort : option (ItemT -> ItemT -> string -> Z)) : Props.t :=
  Props.mk items value None (fun _ => true) sort digit_of true false None
    false false false false.

(** The fruit menu with [selectOnBlur] and an [onBlur] handler of the
    caller. *)
Definition blur_props : Props.t :=
  Props.mk fruits ""%string None (fun _ => true) None item_v true true None
    true false false false.

(** The fruit menu without auto-highlight, the caller listening to
    [onKeyDown] and [onClick] on the input. *)
Definition manual_props (items : list ItemT) (value : string) : Props.t :=
  Props.mk items value None (fun _ => true) None item_v false false None
    false false true true.

(** The word "cafe" with an acute accent on the "e", which UTF-8 holds in
    the two bytes 195 and 169 and UTF-16 in one code unit. *)
Definition cafe : string :=
  ("caf" ++ String (ascii_of_nat 195) (String (ascii_of_nat 169) ""))%string.

(** ** Order of the sorted view *)

(** Each item of [l] is at or before its successor by [cmp]. *)
Fixpoint ordered (cmp : ItemT -> ItemT -> Z) (l : list ItemT) : bool :=
  match l with
  | a :: (b :: _) as t => (cmp a b <=? 0) && ordered cmp t
  | _ => true
  end.

(** A comparator that never puts each of two items after the other. *)
Definition total (cmp : ItemT -> ItemT -> Z) : Prop :=
  forall a b, 0 < cmp a b -> cmp b a <= 0.

(** A consistent comparator as ECMAScript defines it: being equal by it
    ([cmp a b = 0]) is reflexive, symmetric and transitive, and being
    before ([cmp a b < 0]) and being after ([0 < cmp a b]) are
    transitive. *)
Definition consistent (cmp : ItemT -> ItemT -> Z) : Prop :=
  (forall a, cmp a a = 0)
  /\ (forall a b, cmp a b = 0 -> cmp b a = 0)
  /\ (forall a b c, cmp a b = 0 -> cmp b c = 0 -> cmp a c = 0)
  /\ (forall a b c, cmp a b < 0 -> cmp b c < 0 -> cmp a c < 0)
  /\ (forall a b c, 0 < cmp a b -> 0 < cmp b c -> 0 < cmp a c).

(** ** Notions for properties of every event *)

(** The menu geometry held in the state, and the one [setMenuPositions]
    measures. *)
Definition geometry (s : State.t) : option Z * option Z * option Z :=
  (State.menuTop s, State.menuLeft s, State.menuWidth s).

Definition measured (dom : Dom) : option Z * option Z * option Z :=
  (Some (rect_bottom dom + marginBottom dom),
   Some (rect_left dom + marginLeft dom),
   Some (rect_width dom + marginLeft dom + marginRight dom)).

Definition is_visibility (e : Effect) : bool :=
  match e with OnMenuVisibilityChange _ => true | _ => false end.

Definition is_throw (e : Effect) : bool :=
  match e with ThrowTypeError => true | _ => false end.

Definition is_scroll (e : Effect) : bool :=
  match e with ScrollTo _ _ => true | _ => false end.

(** The menu is rendered exactly when [isOpen ()] holds. *)
Definition rendered_iff_open (this : Autocomplete) : Prop :=
  isOpen this = match refs_menu this with Some _ => true | None => false end.

(** While the next focus is to be ignored a scroll offset is on record. *)
Definition scroll_recorded (this : Autocomplete) : Prop :=
  _ignoreFocus this = true -> _scrollOffset this <> None.

(** The events whose handlers can call [onSelect]. *)
Definition selects (e : Event) : bool :=
  match e with
  | KeyDown key keyCode => (key =? "Enter")%string && (keyCode =? 13)
  | ItemClick _ => true
  | Blur => true
  | _ => false
  end.

(** The props for which [getFilteredItems] sorts a fresh array or does not
    sort at all. *)
Definition sorts_a_copy (p : Props.t) : Prop :=
  Props.shouldItemRender p <> None \/ Props.sortItems p = None.

(** [p'] is [p] with [items] reordered, and [p] itself when
    [getFilteredItems] does not sort [props.items] in place. *)
Definition changed_items (p p' : Props.t) : Prop :=
  p' = Props.with_items (Props.items p') p
  /\ Permutation (Props.items p) (Props.items p')
  /\ (sorts_a_copy p -> p' = p).

(** An updater that leaves the menu geometry alone and at most reorders
    [props.items]. *)
Definition calm (u : Update) : Prop :=
  forall s p,
    geometry (fst (updater u s p)) = geometry s
    /\ changed_items p (snd (updater u s p)).

(** What every handler but [componentWillReceiveProps] leaves behind. *)
Definition shape (this : Autocomplete) (o : Outcome) : Prop :=
  state (self o) = state this
  /\ refs_menu (self o) = refs_menu this
  /\ changed_items (props this) (props (self o))
  /\ Forall calm (queue o)
  /\ (List.length
        (filter is_OnSelect (effects o ++ flat_map callback (queue o))) <= 1)%nat
  /\ filter is_visibility (effects o ++ flat_map callback (queue o)) = []
  /\ filter is_throw (flat_map callback (queue o)) = []
  /\ (scroll_recorded this ->
      scroll_recorded (self o) /\ filter is_throw (effects o) = []).

(** The calls that go to functions supplied by the caller. *)
Definition is_caller_callback (e : Effect) : bool :=
  match e with
  | OnSelect _ _ | OnChange _ | OnMenuVisibilityChange _
  | InputOnBlur | InputOnFocus | InputOnKeyDown | InputOnClick => true
  | _ => false
  end.

(** The keys [keyDownHandlers] has an entry for. *)
Definition is_handled_key (key : string) : bool :=
  (key =? "ArrowDown")%string || (key =? "ArrowUp")%string
  || (key =? "Enter")%string || (key =? "Escape")%string
  || (key =? "Tab")%string.

(** The names the object literal [keyDownHandlers] inherits from
    [Object.prototype]: the lookup [keyDownHandlers[event.key]] is not empty
    for them.  No key of a keyboard reports one of these as [event.key]. *)
Definition is_inherited_name (key : string) : bool :=
  existsb (fun name => (key =? name)%string)
    ["constructor"; "hasOwnProperty"; "isPrototypeOf"; "propertyIsEnumerable";
     "toLocaleString"; "toString"; "valueOf"; "__proto__";
     "__defineGetter__"; "__defineSetter__"; "__lookupGetter__";
     "__lookupSetter__"]%string.

(** A handler outcome that never calls [onSelect]. *)
Definition quiet (o : Outcome) : Prop :=
  filter is_OnSelect (effects o ++ flat_map callback (queue o)) = [].

(** The props a step works on: the new ones for [ReceiveProps]. *)
Definition base_props (e : Event) (this : Autocomplete) : Props.t :=
  match e with
  | ReceiveProps nextProps => nextProps
  | _ => props this
  end.


(** ** Sorting: length and content *)

Lemma sort_insert_perm (cmp : ItemT -> ItemT -> Z) (x : ItemT) (l : list ItemT) :
  Permutation (x :: l) (sort_insert cmp x l).
Proof.
  induction l as [|y t IH]; simpl.
  - apply Permutation_refl.
  - destruct (cmp x y <=? 0).
    + apply Permutation_refl.
    + eapply perm_trans; [apply perm_swap|].
      apply perm_skip, IH.
Qed.

Lemma stable_sort_perm (cmp : ItemT -> ItemT -> Z) (l : list ItemT) :
  Permutation l (stable_sort cmp l).
Proof.
  induction l as [|x t IH]; simpl.
  - apply perm_nil.
  - eapply perm_trans; [apply perm_skip, IH|].
    apply sort_insert_perm.
Qed.

Lemma filter_split_perm (f : ItemT -> bool) (l : list ItemT) :
  Permutation l (filter (fun v => negb (f v)) l ++ filter f l).
Proof.
  induction l as [|x t IH]; simpl.
  - apply perm_nil.
  - destruct (f x); simpl.
    + apply Permutation_cons_app, IH.
    + apply perm_skip, IH.
Qed.

Lemma js_sort_perm (cmp : ItemT -> ItemT -> Z) (l : list ItemT) :
  Permutation l (js_sort cmp l).
Proof.
  unfold js_sort.
  eapply perm_trans; [apply (filter_split_perm is_undefined)|].
  apply Permutation_app_tail, stable_sort_perm.
Qed.

Lemma js_sort_len (cmp : ItemT -> ItemT -> Z) (l : list ItemT) :
  len (js_sort cmp l) = len l.
Proof.
  unfold len. f_equal. symmetry. apply Permutation_length, js_sort_perm.
Qed.

(** ** What [getFilteredItems] does to [props] *)

Lemma getFilteredItems_only_items (p : Props.t) :
  snd (getFilteredItems p) = Props.with_items (Props.items (snd (getFilteredItems p))) p.
Proof.
  unfold getFilteredItems.
  destruct p as [its v sh sel so gv ah sb op ob ofc okd ocl]; simpl.
  destruct sh; destruct so; reflexivity.
Qed.

Lemma getFilteredItems_frame (p : Props.t) :
  Props.shouldItemRender p <> None \/ Props.sortItems p = None ->
  snd (getFilteredItems p) = p.
Proof.
  unfold getFilteredItems. intros [H|H].
  - destruct (Props.shouldItemRender p); [|congruence].
    destruct (Props.sortItems p); reflexivity.
  - rewrite H. destruct (Props.shouldItemRender p); reflexivity.
Qed.

(** With a comparator and no predicate the view and [props.items] are one
    array, sorted. *)
Lemma getFilteredItems_sorts_in_place (p : Props.t)
  (cmp : ItemT -> ItemT -> string -> Z) :
  Props.shouldItemRender p = None -> Props.sortItems p = Some cmp ->
  Props.items (snd (getFilteredItems p)) = fst (getFilteredItems p)
  /\ fst (getFilteredItems p)
     = js_sort (fun a b => cmp a b (Props.value p)) (Props.items p).
Proof.
  intros Hf Hs. unfold getFilteredItems. rewrite Hf, Hs. split; reflexivity.
Qed.

(** Sorting [props.items] in place leaves the length of the view as it was. *)
Lemma view_len_stable (p : Props.t) :
  len (fst (getFilteredItems (snd (getFilteredItems p))))
  = len (fst (getFilteredItems p)).
Proof.
  unfold getFilteredItems.
  destruct p as [its v sh sel so gv ah sb op ob ofc okd ocl]; simpl.
  destruct sh; destruct so; simpl; try reflexivity.
  rewrite !js_sort_len. reflexivity.
Qed.

Lemma getFilteredItems_selectable (p : Props.t) :
  Props.isItemSelectable (snd (getFilteredItems p)) = Props.isItemSelectable p.
Proof. rewrite getFilteredItems_only_items. reflexivity. Qed.

Lemma Kept_filter (keep : ItemT -> bool) (l : list ItemT) :
  Kept keep l (filter keep l).
Proof.
  induction l as [|x t IH]; simpl.
  - constructor.
  - destruct (keep x) eqn:E.
    + apply Kept_take; assumption.
    + apply Kept_drop; assumption.
Qed.

Lemma Kept_all (l : list ItemT) : Kept (fun _ => true) l l.
Proof. induction l; constructor; auto. Qed.

Lemma Kept_unique (keep : ItemT -> bool) (l v w : list ItemT) :
  Kept keep l v -> Kept keep l w -> v = w.
Proof.
  intros Hv. revert w.
  induction Hv as [|x l v Hx _ IH|x l v Hx _ IH]; intros w Hw;
    inversion Hw; subst; try congruence.
  - f_equal. apply IH. assumption.
  - apply IH. assumption.
Qed.

Lemma Kept_In (keep : ItemT -> bool) (l v : list ItemT) :
  Kept keep l v -> forall x, In x v <-> In x l /\ keep x = true.
Proof.
  induction 1 as [|y l v Hy _ IH|y l v Hy _ IH]; intros x; simpl.
  - tauto.
  - rewrite IH. split.
    + intros [->|[? ?]]; auto.
    + intros [[->|?] ?]; auto.
  - rewrite IH. split.
    + intros [? ?]; auto.
    + intros [[->|?] ?]; [congruence|auto].
Qed.

(** C2: without a [sortItems] comparator the view returned by
    [getFilteredItems] holds exactly the items of [props.items] for which
    [shouldItemRender item value] is true (every item when the predicate is
    absent), in the order they have in [props.items]; it is the only list
    that does, and membership in it is membership in [props.items] together
    with the predicate. *)
Theorem C2_getFilteredItems_keeps_in_order (p : Props.t) :
  Props.sortItems p = None ->
  Kept (keeps p) (Props.items p) (fst (getFilteredItems p))
  /\ (forall v, Kept (keeps p) (Props.items p) v -> v = fst (getFilteredItems p))
  /\ (forall x, In x (fst (getFilteredItems p))
                <-> In x (Props.items p) /\ keeps p x = true).
Proof.
  intros Hsort.
  assert (K : Kept (keeps p) (Props.items p) (fst (getFilteredItems p))).
  { unfold getFilteredItems, keeps. rewrite Hsort.
    destruct (Props.shouldItemRender p) as [f|]; simpl.
    - apply Kept_filter.
    - apply Kept_all. }
  split; [exact K|]. split.
  - intros v Hv. eapply Kept_unique; eassumption.
  - apply Kept_In. exact K.
Qed.

(** ** The invariant is kept *)

Lemma len_nonneg (l : list ItemT) : 0 <= len l.
Proof. unfold len. lia. Qed.

Lemma item_at_truthy_in_range (items : list ItemT) (i : Z) :
  truthy (item_at items i) = true -> 0 <= i < len items.
Proof.
  unfold item_at, len. destruct (Z.ltb_spec i 0) as [Hi|Hi]; simpl.
  - discriminate.
  - intros H. split; [lia|].
    destruct (Z.ltb_spec i (Z.of_nat (List.length items))) as [|Hge]; [assumption|].
    rewrite nth_overflow in H by lia. discriminate.
Qed.

Lemma hl_ok_sorted (s : State.t) (p : Props.t) :
  hl_ok s p -> hl_ok s (snd (getFilteredItems p)).
Proof.
  unfold hl_ok. destruct (State.highlightedIndex s); [|trivial].
  rewrite view_len_stable. trivial.
Qed.

Lemma render_Inv (this : Autocomplete) :
  hl_ok (state this) (props this) -> Inv (render this).
Proof.
  intros H. unfold render.
  destruct (isOpen this).
  - destruct (getFilteredItems (props this)) as [items p'] eqn:E.
    assert (Hp : p' = snd (getFilteredItems (props this))) by (rewrite E; reflexivity).
    assert (Hi : items = fst (getFilteredItems (props this))) by (rewrite E; reflexivity).
    split.
    + unfold highlight_in_view, view; simpl. subst p'.
      apply hl_ok_sorted in H. exact H.
    + unfold menu_matches, view; simpl. subst. symmetry. apply view_len_stable.
  - split; [exact H | exact I].
Qed.

Lemma update_Inv (dom : Dom) (prevProps : Props.t) (q : list Update)
  (this : Autocomplete) :
  hl_ok (fst (applyQueue q (state this) (props this)))
        (snd (applyQueue q (state this) (props this))) ->
  Inv (fst (update dom prevProps q this)).
Proof.
  intros H. unfold update.
  destruct (applyQueue q (state this) (props this)) as [s p]; simpl in H.
  set (this1 := render (with_state s (with_props p this))).
  assert (I1 : Inv this1) by (apply render_Inv; exact H).
  destruct ((State.isOpen (state this1) && negb (State.isOpen (state this)))
            || open_forced_now prevProps (props this1)); simpl.
  - apply render_Inv. destruct I1 as [I1 _]. exact I1.
  - exact I1.
Qed.

Lemma run_Inv (dom : Dom) (o : Outcome) : post o -> Inv (fst (run dom o)).
Proof.
  intros [Hm Hh]. unfold run.
  destruct (queue o) as [|u q] eqn:E.
  - simpl in *. split; assumption.
  - pose proof (update_Inv dom (props (self o)) (u :: q) (self o) Hh) as HI.
    destruct (update dom (props (self o)) (u :: q) (self o)). exact HI.
Qed.

Lemma arrowDown_loop_range (sel : ItemT -> bool) (items : list ItemT) (n : nat) :
  forall index i, 0 < len items -> -1 <= index -> 0 <= i ->
    arrowDown_loop sel items index i n = index
    \/ 0 <= arrowDown_loop sel items index i n < len items.
Proof.
  induction n as [|n IH]; intros index i Hlen Hidx Hi;
    cbn [arrowDown_loop]; cbv zeta.
  - left. reflexivity.
  - destruct (sel (item_at items (Z.rem (index + i + 1) (len items)))).
    + right. apply Z.rem_bound_pos; lia.
    + apply IH; lia.
Qed.

Lemma arrowUp_loop_range (sel : ItemT -> bool) (items : list ItemT) (n : nat) :
  forall index i, 0 < len items -> 0 <= index -> 0 <= i ->
    i + Z.of_nat n <= len items ->
    arrowUp_loop sel items index i n = index
    \/ 0 <= arrowUp_loop sel items index i n < len items.
Proof.
  induction n as [|n IH]; intros index i Hlen Hidx Hi Hn;
    cbn [arrowUp_loop]; cbv zeta.
  - left. reflexivity.
  - destruct (sel (item_at items (Z.rem (index - (1 + i) + len items) (len items)))).
    + right. apply Z.rem_bound_pos; lia.
    + apply IH; lia.
Qed.

Lemma sorted_menu_matches (this : Autocomplete) :
  menu_matches this ->
  menu_matches (with_props (snd (getFilteredItems (props this))) this).
Proof.
  unfold menu_matches, view; simpl.
  destruct (refs_menu this); [|trivial].
  rewrite view_len_stable. trivial.
Qed.

Lemma post_done_sorted (this : Autocomplete) (effs : list Effect) :
  Inv this ->
  post (done (with_props (snd (getFilteredItems (props this))) this) effs).
Proof.
  intros [Hh Hm]. split; simpl.
  - apply sorted_menu_matches, Hm.
  - apply hl_ok_sorted. exact Hh.
Qed.

Lemma post_done (this this' : Autocomplete) (effs : list Effect) :
  props this' = props this -> state this' = state this ->
  refs_menu this' = refs_menu this ->
  Inv this -> post (done this' effs).
Proof.
  intros Hp Hs Hr [Hh Hm]. split; simpl.
  - unfold menu_matches, view in *. rewrite Hr, Hp. exact Hm.
  - unfold hl_ok, highlight_in_view, view in *. rewrite Hs, Hp. exact Hh.
Qed.

(** A [setState] that clears the highlight or leaves it as it is. *)
Lemma post_setState_keep (f : State.t -> State.t) (cb effs : list Effect)
  (this this' : Autocomplete) :
  props this' = props this -> state this' = state this ->
  refs_menu this' = refs_menu this ->
  (forall s, State.highlightedIndex (f s) = None
             \/ State.highlightedIndex (f s) = State.highlightedIndex s) ->
  Inv this -> post (setState f cb this' effs).
Proof.
  intros Hp Hs Hr Hf [Hh Hm]. split; simpl.
  - unfold menu_matches, view in *. rewrite Hr, Hp. exact Hm.
  - unfold hl_ok, highlight_in_view, view in *. rewrite Hs, Hp.
    destruct (Hf (state this)) as [E|E]; rewrite E; [exact I|exact Hh].
Qed.

Lemma post_setState_keep_sorted (f : State.t -> State.t) (cb effs : list Effect)
  (this : Autocomplete) (b : bool) :
  (forall s, State.highlightedIndex (f s) = None
             \/ State.highlightedIndex (f s) = State.highlightedIndex s) ->
  Inv this ->
  post (setState f cb
          (with_props (snd (getFilteredItems (props (setIgnoreBlur b this))))
             (setIgnoreBlur b this)) effs).
Proof.
  intros Hf [Hh Hm]. split; simpl.
  - apply (sorted_menu_matches this), Hm.
  - unfold hl_ok. simpl.
    destruct (Hf (state this)) as [E|E]; rewrite E; [exact I|].
    apply (hl_ok_sorted (state this)). exact Hh.
Qed.

Lemma ArrowDown_post (this : Autocomplete) : Inv this -> post (ArrowDown this).
Proof.
  intros HI. unfold ArrowDown.
  destruct (getFilteredItems (props this)) as [items p'] eqn:E.
  assert (Hp : p' = snd (getFilteredItems (props this))) by (rewrite E; reflexivity).
  assert (Hi : items = fst (getFilteredItems (props this))) by (rewrite E; reflexivity).
  destruct (Z.eqb_spec (len items) 0) as [Hz|Hz].
  - subst p'. apply post_done_sorted, HI.
  - cbv zeta.
    set (hl := State.highlightedIndex (state (with_props p' this))).
    set (start := match hl with None => -1 | Some h => h end).
    set (r := arrowDown_loop _ items start 0 (List.length items)).
    destruct ((r >? -1) && negb (same_index r hl)) eqn:T.
    + apply andb_true_iff in T. destruct T as [T1 T2].
      apply negb_true_iff in T2.
      destruct HI as [Hh Hm]. split; simpl.
      * subst p'. apply sorted_menu_matches, Hm.
      * unfold hl_ok; simpl. subst p'. rewrite view_len_stable. rewrite <- Hi.
        assert (Hs : -1 <= start).
        { unfold start, hl; simpl. unfold highlight_in_view in Hh.
          destruct (State.highlightedIndex (state this)); lia. }
        pose proof (len_nonneg items) as Hl.
        assert (Hpos : 0 < len items) by lia.
        destruct (arrowDown_loop_range
                    (Props.isItemSelectable
                       (props (with_props (snd (getFilteredItems (props this))) this)))
                    items (List.length items) start 0 Hpos Hs (Z.le_refl 0))
          as [Hr|Hr].
        -- fold r in Hr. exfalso.
           unfold start in Hr. destruct hl as [h|].
           ++ simpl in T2. rewrite Hr, Z.eqb_refl in T2. discriminate.
           ++ rewrite Hr in T1. discriminate.
        -- exact Hr.
    + subst p'. apply post_done_sorted, HI.
Qed.

Lemma ArrowUp_post (this : Autocomplete) : Inv this -> post (ArrowUp this).
Proof.
  intros HI. unfold ArrowUp.
  destruct (getFilteredItems (props this)) as [items p'] eqn:E.
  assert (Hp : p' = snd (getFilteredItems (props this))) by (rewrite E; reflexivity).
  assert (Hi : items = fst (getFilteredItems (props this))) by (rewrite E; reflexivity).
  destruct (Z.eqb_spec (len items) 0) as [Hz|Hz].
  - subst p'. apply post_done_sorted, HI.
  - cbv zeta.
    set (hl := State.highlightedIndex (state (with_props p' this))).
    set (start := match hl with None => len items | Some h => h end).
    set (r := arrowUp_loop _ items start 0 (List.length items)).
    destruct (negb (r =? len items)) eqn:T.
    + apply negb_true_iff in T. apply Z.eqb_neq in T.
      destruct HI as [Hh Hm]. split; simpl.
      * subst p'. apply sorted_menu_matches, Hm.
      * unfold hl_ok; simpl. subst p'. rewrite view_len_stable. rewrite <- Hi.
        pose proof (len_nonneg items) as Hl.
        assert (Hpos : 0 < len items) by lia.
        assert (Hs : 0 <= start /\ (start = len items \/ start < len items)).
        { unfold start, hl; simpl. unfold highlight_in_view, view in Hh.
          rewrite <- Hi in Hh.
          destruct (State.highlightedIndex (state this)); lia. }
        assert (Hn : 0 + Z.of_nat (List.length items) <= len items)
          by (unfold len; lia).
        destruct (arrowUp_loop_range
                    (Props.isItemSelectable
                       (props (with_props (snd (getFilteredItems (props this))) this)))
                    items (List.length items) start 0 Hpos (proj1 Hs)
                    (Z.le_refl 0) Hn) as [Hr|Hr].
        -- fold r in Hr. lia.
        -- exact Hr.
    + subst p'. apply post_done_sorted, HI.
Qed.

Lemma Enter_post (keyCode : Z) (this : Autocomplete) :
  Inv this -> post (Enter keyCode this).
Proof.
  intros HI. unfold Enter.
  destruct (negb (keyCode =? 13)).
  - apply (post_done this); auto.
  - cbv zeta. destruct (negb (isOpen (setIgnoreBlur false this))).
    + apply (post_done this); auto.
    + simpl State.highlightedIndex.
      destruct (State.highlightedIndex (state this)) as [h|] eqn:Eh.
      * destruct (getFilteredItems (props (setIgnoreBlur false this)))
          as [items p'] eqn:E.
        assert (Hp : p' = snd (getFilteredItems (props (setIgnoreBlur false this))))
          by (rewrite E; reflexivity).
        subst p'. apply post_setState_keep_sorted; [|exact HI].
        intros s. left. reflexivity.
      * apply (post_setState_keep _ _ _ this); auto.
Qed.

Lemma Escape_post (this : Autocomplete) : Inv this -> post (Escape this).
Proof.
  intros HI. unfold Escape. apply (post_setState_keep _ _ _ this); auto.
Qed.

Lemma Tab_post (this : Autocomplete) : Inv this -> post (Tab this).
Proof. intros HI. unfold Tab. apply (post_done this); auto. Qed.

Lemma handleKeyDown_post (key : string) (keyCode : Z) (this : Autocomplete) :
  Inv this -> post (handleKeyDown key keyCode this).
Proof.
  intros HI. unfold handleKeyDown.
  destruct (key =? "ArrowDown")%string; [apply ArrowDown_post, HI|].
  destruct (key =? "ArrowUp")%string; [apply ArrowUp_post, HI|].
  destruct (key =? "Enter")%string; [apply Enter_post, HI|].
  destruct (key =? "Escape")%string; [apply Escape_post, HI|].
  destruct (key =? "Tab")%string; [apply Tab_post, HI|].
  destruct (negb (isOpen this)).
  - apply (post_setState_keep _ _ _ this); auto.
  - apply (post_done this); auto.
Qed.

Lemma handleInputFocus_post (this : Autocomplete) :
  Inv this -> post (handleInputFocus this).
Proof.
  intros HI. unfold handleInputFocus.
  destruct (_ignoreFocus this).
  - cbv zeta. simpl _scrollOffset.
    destruct (_scrollOffset this) as [[x y]|].
    + apply (post_done this); auto.
    + apply (post_done this); auto.
  - apply (post_setState_keep _ _ _ this); auto.
Qed.

Lemma handleInputBlur_post (dom : Dom) (this : Autocomplete) :
  Inv this -> post (handleInputBlur dom this).
Proof.
  intros HI. unfold handleInputBlur.
  destruct (_ignoreBlur this).
  - apply (post_done this); auto.
  - cbv zeta.
    destruct (State.highlightedIndex (state this)) as [h|].
    + destruct (Props.selectOnBlur (props this)).
      * destruct (getFilteredItems (props this)) as [items p'] eqn:E.
        assert (Hp : p' = snd (getFilteredItems (props this)))
          by (rewrite E; reflexivity).
        subst p'. destruct HI as [Hh Hm]. split; simpl.
        -- apply sorted_menu_matches, Hm.
        -- exact I.
      * apply (post_setState_keep _ _ _ this); auto.
    + apply (post_setState_keep _ _ _ this); auto.
Qed.

Lemma handleInputClick_post (dom : Dom) (this : Autocomplete) :
  Inv this -> post (handleInputClick dom this).
Proof.
  intros HI. unfold handleInputClick.
  destruct (inputIsFocused dom && negb (isOpen this)).
  - apply (post_setState_keep _ _ _ this); auto.
  - apply (post_done this); auto.
Qed.

Lemma scrollTimerCallback_post (this : Autocomplete) :
  Inv this -> post (scrollTimerCallback this).
Proof.
  intros HI. unfold scrollTimerCallback.
  destruct (_scrollTimer this) as [[x y]|]; apply (post_done this); auto.
Qed.

Lemma selectItemFromMouse_post (item : ItemT) (this : Autocomplete) :
  Inv this -> post (selectItemFromMouse item this).
Proof.
  intros HI. unfold selectItemFromMouse.
  apply (post_setState_keep _ _ _ this); auto.
Qed.

Lemma highlightItemFromMouse_post (index : Z) (items : list ItemT)
  (this : Autocomplete) :
  refs_menu this = Some items -> in_range index items = true ->
  Inv this -> post (highlightItemFromMouse index this).
Proof.
  intros Hr Hin [Hh Hm]. split; simpl.
  - exact Hm.
  - unfold hl_ok; simpl. unfold menu_matches in Hm. rewrite Hr in Hm.
    unfold view in Hm. rewrite <- Hm.
    unfold in_range in Hin. apply andb_true_iff in Hin. lia.
Qed.

Lemma ensureHighlightedIndex_ok (s : State.t) (p : Props.t) :
  (forall h, State.highlightedIndex s = Some h -> 0 <= h) ->
  hl_ok (fst (ensureHighlightedIndex s p)) (snd (ensureHighlightedIndex s p)).
Proof.
  intros Hnn. unfold ensureHighlightedIndex.
  destruct (getFilteredItems p) as [items p'] eqn:E.
  assert (Hp : p' = snd (getFilteredItems p)) by (rewrite E; reflexivity).
  assert (Hi : items = fst (getFilteredItems p)) by (rewrite E; reflexivity).
  destruct (Z.geb_spec (to_number (State.highlightedIndex s)) (len items)) as [Hge|Hlt];
    simpl.
  - exact I.
  - unfold hl_ok. subst p'. rewrite view_len_stable, <- Hi.
    destruct (State.highlightedIndex s) as [h|] eqn:Eh; [|exact I].
    simpl in Hlt. specialize (Hnn h eq_refl). lia.
Qed.

Lemma maybeAutoCompleteText_ok (s : State.t) (p : Props.t) :
  hl_ok (fst (maybeAutoCompleteText s p)) (snd (maybeAutoCompleteText s p)).
Proof.
  unfold maybeAutoCompleteText.
  destruct (getFilteredItems p) as [items p'] eqn:E.
  assert (Hp : p' = snd (getFilteredItems p)) by (rewrite E; reflexivity).
  assert (Hi : items = fst (getFilteredItems p)) by (rewrite E; reflexivity).
  cbv zeta.
  set (index := autoComplete_loop _ items _ _).
  destruct (truthy (item_at items index)
            && Props.isItemSelectable p' (item_at items index)) eqn:T;
    [|exact I].
  destruct (negb (Props.value p =? "")%string); [|exact I].
  destruct (indexOf _ _ =? 0); [|exact I].
  unfold hl_ok; simpl. subst p'. rewrite view_len_stable, <- Hi.
  apply andb_true_iff in T. apply item_at_truthy_in_range. tauto.
Qed.

Lemma componentWillReceiveProps_ok (nextProps : Props.t) (this : Autocomplete) :
  Inv this ->
  let o := componentWillReceiveProps nextProps this in
  hl_ok (fst (applyQueue (queue o) (state this) nextProps))
        (snd (applyQueue (queue o) (state this) nextProps)).
Proof.
  intros [Hh _]. unfold componentWillReceiveProps; cbv zeta; simpl queue.
  unfold highlight_in_view in Hh.
  destruct (State.highlightedIndex (state this)) as [h|] eqn:Eh.
  - assert (Hnn : forall h', State.highlightedIndex (state this) = Some h' -> 0 <= h').
    { intros h' Eh'. rewrite Eh in Eh'. inversion Eh'; subst. lia. }
    destruct (Props.autoHighlight nextProps && _); simpl.
    + apply maybeAutoCompleteText_ok.
    + apply ensureHighlightedIndex_ok, Hnn.
  - destruct (Props.autoHighlight nextProps && _); simpl.
    + apply maybeAutoCompleteText_ok.
    + unfold hl_ok. rewrite Eh. exact I.
Qed.

Lemma mount_Inv (dom : Dom) (p : Props.t) : Inv (fst (mount dom p)).
Proof.
  unfold mount. cbv zeta.
  set (this0 := Build_Autocomplete _ _ _ _ _ _ _).
  assert (I0 : Inv (render this0)) by (apply render_Inv; exact I).
  destruct (isOpen (render this0)); simpl.
  - apply render_Inv. destruct I0 as [I0 _]. exact I0.
  - exact I0.
Qed.

Lemma step_Inv (dom : Dom) (e : Event) (this : Autocomplete) :
  Inv this -> Inv (fst (step dom e this)).
Proof.
  intros HI. destruct e; simpl.
  - pose proof (componentWillReceiveProps_ok nextProps this HI) as H.
    cbv zeta in H.
    pose proof (update_Inv dom (props this)
                  (queue (componentWillReceiveProps nextProps this))
                  (with_props nextProps this) H) as HU.
    change (self (componentWillReceiveProps nextProps this)) with this.
    destruct (update dom (props this) _ (with_props nextProps this)). exact HU.
  - apply run_Inv, handleKeyDown_post, HI.
  - apply run_Inv, handleInputFocus_post, HI.
  - apply run_Inv, handleInputBlur_post, HI.
  - exact HI.
  - apply run_Inv, handleInputClick_post, HI.
  - destruct (refs_menu this); exact HI.
  - destruct (refs_menu this); exact HI.
  - destruct (refs_menu this); exact HI.
  - destruct (refs_menu this) as [items|] eqn:Er; [|exact HI].
    destruct (in_range index items && _) eqn:G; [|exact HI].
    apply andb_true_iff in G.
    apply run_Inv. eapply highlightItemFromMouse_post; [exact Er|tauto|exact HI].
  - destruct (refs_menu this) as [items|] eqn:Er; [|exact HI].
    destruct (in_range index items && _) eqn:G; [|exact HI].
    apply run_Inv, selectItemFromMouse_post, HI.
  - apply run_Inv, scrollTimerCallback_post, HI.
Qed.

Lemma reachable_Inv (this : Autocomplete) : reachable this -> Inv this.
Proof.
  induction 1 as [dom p|dom e this _ IH].
  - apply mount_Inv.
  - apply step_Inv, IH.
Qed.

(** ** The wired handlers, and props that change within an event *)

(** The caller's composed handler changes neither the instance nor the
    queue. *)
Lemma fire_fst (dom : Dom) (e : Event) (this : Autocomplete) :
  fst (fire dom e this) = fst (step dom e this).
Proof.
  assert (C : forall h ext,
             fst (run dom (composeEventHandlers h ext this))
             = fst (run dom (h this))).
  { intros h [call|]; [|reflexivity].
    unfold run, composeEventHandlers; cbn [self queue effects].
    destruct (queue (h this)); [reflexivity|].
    destruct (update dom (props (self (h this))) (u :: l) (self (h this))).
    reflexivity. }
  destruct e; cbn [fire handler step]; try reflexivity; try apply C.
  - destruct (refs_menu this); reflexivity.
  - destruct (refs_menu this); reflexivity.
  - destruct (refs_menu this); reflexivity.
  - destruct (refs_menu this) as [items|]; [|reflexivity].
    destruct (in_range index items && _); reflexivity.
  - destruct (refs_menu this) as [items|]; [|reflexivity].
    destruct (in_range index items && _); reflexivity.
Qed.

(** The calls of a delivered event are those of the component's own
    handler and of the update, with the caller's composed call between
    them. *)
Lemma fire_calls (dom : Dom) (e : Event) (this : Autocomplete) :
  exists before later,
    snd (step dom e this) = before ++ later
    /\ snd (fire dom e this) = before ++ composed_call e this ++ later.
Proof.
  assert (C : forall h (b : bool) call,
             exists before later,
               snd (run dom (h this)) = before ++ later
               /\ snd (run dom (composeEventHandlers h
                                  (if b then Some call else None) this))
                  = before ++ (if b then [call] else []) ++ later).
  { intros h b call. unfold run.
    destruct b; cbn [composeEventHandlers self queue effects].
    - destruct (queue (h this)) as [|u q].
      + exists (effects (h this)), []. cbn [snd]. rewrite !app_nil_r.
        split; reflexivity.
      + destruct (update dom (props (self (h this))) (u :: q) (self (h this)))
          as [this' effs].
        exists (effects (h this)), effs. cbn [snd]. rewrite <- app_assoc.
        split; reflexivity.
    - exists (snd (match queue (h this) with
                   | [] => (self (h this), effects (h this))
                   | u :: q =>
                       let (this', effs) :=
                         update dom (props (self (h this))) (u :: q)
                           (self (h this)) in
                       (this', effects (h this) ++ effs)
                   end)), [].
      rewrite !app_nil_r. split; reflexivity. }
  assert (N : forall r : Autocomplete * list Effect,
             exists before later,
               snd r = before ++ later /\ snd r = before ++ [] ++ later).
  { intros r. exists (snd r), []. rewrite !app_nil_r. split; reflexivity. }
  destruct e; cbn [fire handler step composed_call];
    try apply C; try apply N.
  - destruct (refs_menu this); apply N.
  - destruct (refs_menu this); apply N.
  - destruct (refs_menu this); apply N.
  - destruct (refs_menu this) as [items|]; [|apply N].
    destruct (in_range index items && _); apply N.
  - destruct (refs_menu this) as [items|]; [|apply N].
    destruct (in_range index items && _); apply N.
Qed.


Lemma settled_reaches (this : Autocomplete) : settled this -> reaches this.
Proof.
  induction 1 as [dom p|dom e this _ IH|dom e nextProps this _ IH _].
  - apply reaches_mount.
  - apply reaches_fire, IH.
  - apply reaches_batched, IH.
Qed.








(** ** What an update keeps and what it calls *)

Lemma render_state (this : Autocomplete) : state (render this) = state this.
Proof.
  unfold render. destruct (isOpen this); [|reflexivity].
  destruct (getFilteredItems (props this)); reflexivity.
Qed.

Lemma render_fields (this : Autocomplete) :
  _ignoreBlur (render this) = _ignoreBlur this
  /\ _ignoreFocus (render this) = _ignoreFocus this
  /\ _scrollOffset (render this) = _scrollOffset this
  /\ _scrollTimer (render this) = _scrollTimer this.
Proof.
  unfold render. destruct (isOpen this); [|repeat split].
  destruct (getFilteredItems (props this)); repeat split.
Qed.

Lemma scroll_no_OnSelect (this : Autocomplete) :
  filter is_OnSelect (maybeScrollItemIntoView this) = [].
Proof.
  unfold maybeScrollItemIntoView. destruct (isOpen this); [|reflexivity].
  destruct (State.highlightedIndex (state this)); reflexivity.
Qed.

Lemma update_state (dom : Dom) (prevProps : Props.t) (q : list Update)
  (this : Autocomplete) :
  State.isOpen (state (fst (update dom prevProps q this)))
  = State.isOpen (fst (applyQueue q (state this) (props this)))
  /\ State.highlightedIndex (state (fst (update dom prevProps q this)))
     = State.highlightedIndex (fst (applyQueue q (state this) (props this))).
Proof.
  unfold update.
  destruct (applyQueue q (state this) (props this)) as [s p]; simpl.
  set (this1 := render (with_state s (with_props p this))).
  assert (E1 : state this1 = s) by (unfold this1; rewrite render_state; reflexivity).
  destruct ((State.isOpen (state this1) && negb (State.isOpen (state this)))
            || open_forced_now prevProps (props this1)); simpl.
  - rewrite render_state. simpl. rewrite E1. split; reflexivity.
  - rewrite E1. split; reflexivity.
Qed.

Lemma update_fields (dom : Dom) (prevProps : Props.t) (q : list Update)
  (this : Autocomplete) :
  _ignoreBlur (fst (update dom prevProps q this)) = _ignoreBlur this
  /\ _ignoreFocus (fst (update dom prevProps q this)) = _ignoreFocus this
  /\ _scrollOffset (fst (update dom prevProps q this)) = _scrollOffset this.
Proof.
  unfold update.
  destruct (applyQueue q (state this) (props this)) as [s p]; simpl.
  set (this1 := render (with_state s (with_props p this))).
  destruct (render_fields (with_state s (with_props p this))) as (B & F & O & _).
  fold this1 in B, F, O. simpl in B, F, O.
  destruct ((State.isOpen (state this1) && negb (State.isOpen (state this)))
            || open_forced_now prevProps (props this1)); simpl.
  - destruct (render_fields (with_state (setMenuPositions dom (state this1)) this1))
      as (B' & F' & O' & _).
    simpl in B', F', O'. rewrite B', F', O'. auto.
  - auto.
Qed.

Lemma update_OnSelect (dom : Dom) (prevProps : Props.t) (q : list Update)
  (this : Autocomplete) :
  filter is_OnSelect (snd (update dom prevProps q this))
  = filter is_OnSelect (flat_map callback q).
Proof.
  unfold update.
  destruct (applyQueue q (state this) (props this)) as [s p].
  set (this1 := render (with_state s (with_props p this))).
  assert (V : forall b b' : bool,
             filter is_OnSelect
               (if Bool.eqb b b' then [] else [OnMenuVisibilityChange b']) = []).
  { intros b b'. destruct (Bool.eqb b b'); reflexivity. }
  destruct ((State.isOpen (state this1) && negb (State.isOpen (state this)))
            || open_forced_now prevProps (props this1)); simpl;
    rewrite ?filter_app, ?scroll_no_OnSelect, ?V, ?app_nil_r; reflexivity.
Qed.

(** A single [setState] of a handler, seen after the update. *)
Lemma run_setState (dom : Dom) (f : State.t -> State.t) (cb effs : list Effect)
  (this : Autocomplete) :
  let r := run dom (setState f cb this effs) in
  State.isOpen (state (fst r)) = State.isOpen (f (state this))
  /\ State.highlightedIndex (state (fst r))
     = State.highlightedIndex (f (state this))
  /\ _ignoreBlur (fst r) = _ignoreBlur this
  /\ filter is_OnSelect (snd r) = filter is_OnSelect (effs ++ cb).
Proof.
  unfold run, setState; simpl queue; cbv iota beta.
  cbn [self effects].
  set (q := [{| updater := merge f; callback := cb |}]).
  pose proof (update_state dom (props this) q this) as [HO HH].
  pose proof (update_fields dom (props this) q this) as (HB & _ & _).
  pose proof (update_OnSelect dom (props this) q this) as HS.
  destruct (update dom (props this) q this) as [this' effs']; simpl in *.
  rewrite HO, HH, HB. repeat split.
  rewrite !filter_app, HS, app_nil_r. reflexivity.
Qed.

(** ** Escape, the mouse click and the ignored blur *)

(** C9: whatever the interaction state was, closed, open without highlight
    or open with any highlighted index, the Escape key leaves [isOpen] false
    and [highlightedIndex] null, and the ignore-blur flag released. *)
Theorem C9_Escape_closes_and_clears (dom : Dom) (keyCode : Z)
  (this : Autocomplete) :
  let this' := fst (step dom (KeyDown "Escape" keyCode) this) in
  State.isOpen (state this') = false
  /\ State.highlightedIndex (state this') = None
  /\ _ignoreBlur this' = false.
Proof.
  cbv zeta. change (step dom (KeyDown "Escape" keyCode) this)
    with (run dom (Escape this)).
  unfold Escape.
  destruct (run_setState dom
              (fun s => State.set_isOpen false (State.set_highlightedIndex None s))
              [] [] (setIgnoreBlur false this)) as (HO & HH & HB & _).
  rewrite HO, HH, HB. repeat split.
Qed.

(** C7: with the menu rendered, a click on an item of it that is selectable
    calls [onSelect] exactly once, with the item's display value and the
    item, and leaves [isOpen] false, [highlightedIndex] null and the
    ignore-blur flag released. *)
Theorem C7_click_selects_item (dom : Dom) (this : Autocomplete)
  (items : list ItemT) (index : Z) :
  refs_menu this = Some items ->
  in_range index items = true ->
  Props.isItemSelectable (props this) (item_at items index) = true ->
  let item := item_at items index in
  let r := step dom (ItemClick index) this in
  filter is_OnSelect (snd r)
  = [OnSelect (Props.getItemValue (props this) item) item]
  /\ State.isOpen (state (fst r)) = false
  /\ State.highlightedIndex (state (fst r)) = None
  /\ _ignoreBlur (fst r) = false.
Proof.
  intros Hm Hin Hsel. cbv zeta. simpl step. rewrite Hm, Hin, Hsel. simpl andb.
  cbv iota. unfold selectItemFromMouse.
  destruct (run_setState dom
              (fun s => State.set_highlightedIndex None (State.set_isOpen false s))
              [OnSelect (Props.getItemValue (props this) (item_at items index))
                 (item_at items index)]
              [] (setIgnoreBlur false this)) as (HO & HH & HB & HS).
  rewrite HO, HH, HB, HS. repeat split.
Qed.

(** C8: a blur while the ignore-blur flag is set leaves the state, the props
    and the rendered menu as they are; the only call made is [focus()] on
    the input, so neither [onSelect] nor the caller's [onBlur] runs; the
    ignore-focus flag is set and the scroll offset of that moment is
    recorded. *)
Theorem C8_blur_ignored (dom : Dom) (this : Autocomplete) :
  _ignoreBlur this = true ->
  let r := step dom Blur this in
  state (fst r) = state this
  /\ props (fst r) = props this
  /\ refs_menu (fst r) = refs_menu this
  /\ isOpen (fst r) = isOpen this
  /\ snd r = [InputFocus]
  /\ _ignoreFocus (fst r) = true
  /\ _scrollOffset (fst r) = Some (pageXOffset dom, pageYOffset dom)
  /\ _ignoreBlur (fst r) = true.
Proof.
  intros Hb. cbv zeta. simpl step. unfold handleInputBlur. rewrite Hb.
  simpl. repeat split. exact Hb.
Qed.

(** ** Enter *)

Lemma getFilteredItems_getItemValue (p : Props.t) :
  Props.getItemValue (snd (getFilteredItems p)) = Props.getItemValue p.
Proof. rewrite getFilteredItems_only_items. reflexivity. Qed.

(** C4: the Enter key.  With the menu open and item [h] highlighted, key
    code 13 calls [onSelect] exactly once, with the display value of the
    highlighted item of the view and that item, and leaves [isOpen] false
    and [highlightedIndex] null.  With the menu open and no highlight it
    closes the menu and [onSelect] is not called.  With a key code other
    than 13 nothing changes and nothing is called.  With key code 13 and the
    menu closed the state, the props and the rendered menu stay as they are
    and nothing is called, but the ignore-blur flag is released. *)
Theorem C4_Enter (dom : Dom) (keyCode : Z) (this : Autocomplete) :
  let r := step dom (KeyDown "Enter" keyCode) this in
  (keyCode <> 13 -> r = (this, []))
  /\ (keyCode = 13 -> isOpen this = false ->
      r = (setIgnoreBlur false this, []))
  /\ (keyCode = 13 -> isOpen this = true ->
      State.highlightedIndex (state this) = None ->
      filter is_OnSelect (snd r) = []
      /\ State.isOpen (state (fst r)) = false
      /\ State.highlightedIndex (state (fst r)) = None)
  /\ (keyCode = 13 -> isOpen this = true ->
      forall h, State.highlightedIndex (state this) = Some h ->
      let item := item_at (view this) h in
      filter is_OnSelect (snd r)
      = [OnSelect (Props.getItemValue (props this) item) item]
      /\ State.isOpen (state (fst r)) = false
      /\ State.highlightedIndex (state (fst r)) = None).
Proof.
  cbv zeta.
  change (step dom (KeyDown "Enter" keyCode) this)
    with (run dom (Enter keyCode this)).
  unfold Enter. split; [|split; [|split]].
  - intros H. apply Z.eqb_neq in H. rewrite H. reflexivity.
  - intros -> H0. simpl negb. cbv iota zeta.
    change (isOpen (setIgnoreBlur false this)) with (isOpen this).
    rewrite H0. reflexivity.
  - intros -> H0 H1. simpl negb. cbv iota zeta.
    change (isOpen (setIgnoreBlur false this)) with (isOpen this).
    rewrite H0. simpl negb. cbv iota. simpl State.highlightedIndex.
    rewrite H1.
    destruct (run_setState dom (State.set_isOpen false) [InputSelect] []
                (setIgnoreBlur false this)) as (HO & HH & _ & HS).
    rewrite HO, HH, HS. simpl. auto.
  - intros -> H0 h H1. simpl negb. cbv iota zeta.
    change (isOpen (setIgnoreBlur false this)) with (isOpen this).
    rewrite H0. simpl negb. cbv iota. simpl State.highlightedIndex.
    rewrite H1. change (props (setIgnoreBlur false this)) with (props this).
    unfold view.
    destruct (getFilteredItems (props this)) as [items p'] eqn:E.
    assert (Hp : p' = snd (getFilteredItems (props this))) by (rewrite E; reflexivity).
    cbn [fst props with_props].
    match goal with
    | |- context [run dom (setState ?f ?cb ?t ?e)] =>
        destruct (run_setState dom f cb e t) as (HO & HH & _ & HS)
    end.
    rewrite HO, HH, HS. rewrite Hp, getFilteredItems_getItemValue.
    simpl. auto.
Qed.

(** ** The arrow keys *)

Lemma item_at_In (items : list ItemT) (p : Z) :
  0 <= p < len items -> In (item_at items p) items.
Proof.
  unfold item_at, len. intros Hp.
  destruct (Z.ltb_spec p 0); [lia|].
  apply nth_In. lia.
Qed.

Lemma arrowDown_loop_none (sel : ItemT -> bool) (items : list ItemT) (n : nat) :
  forall index i,
    (forall j, i <= j < i + Z.of_nat n ->
       sel (item_at items (Z.rem (index + j + 1) (len items))) = false) ->
    arrowDown_loop sel items index i n = index.
Proof.
  induction n as [|n IH]; intros index i Hno; cbn [arrowDown_loop]; cbv zeta.
  - reflexivity.
  - rewrite (Hno i) by lia. apply IH. intros j Hj. apply Hno. lia.
Qed.

Lemma arrowDown_loop_first (sel : ItemT -> bool) (items : list ItemT) (n : nat) :
  forall index i k,
    i <= k < i + Z.of_nat n ->
    sel (item_at items (Z.rem (index + k + 1) (len items))) = true ->
    (forall j, i <= j < k ->
       sel (item_at items (Z.rem (index + j + 1) (len items))) = false) ->
    arrowDown_loop sel items index i n = Z.rem (index + k + 1) (len items).
Proof.
  induction n as [|n IH]; intros index i k Hk Hyes Hno;
    cbn [arrowDown_loop]; cbv zeta.
  - lia.
  - destruct (Z.eq_dec i k) as [->|Hne].
    + rewrite Hyes. reflexivity.
    + rewrite (Hno i) by lia. apply IH; [lia|assumption|].
      intros j Hj. apply Hno. lia.
Qed.

Lemma arrowUp_loop_none (sel : ItemT -> bool) (items : list ItemT) (n : nat) :
  forall index i,
    (forall j, i <= j < i + Z.of_nat n ->
       sel (item_at items (Z.rem (index - (1 + j) + len items) (len items)))
       = false) ->
    arrowUp_loop sel items index i n = index.
Proof.
  induction n as [|n IH]; intros index i Hno; cbn [arrowUp_loop]; cbv zeta.
  - reflexivity.
  - rewrite (Hno i) by lia. apply IH. intros j Hj. apply Hno. lia.
Qed.

Lemma arrowUp_loop_first (sel : ItemT -> bool) (items : list ItemT) (n : nat) :
  forall index i k,
    i <= k < i + Z.of_nat n ->
    sel (item_at items (Z.rem (index - (1 + k) + len items) (len items))) = true ->
    (forall j, i <= j < k ->
       sel (item_at items (Z.rem (index - (1 + j) + len items) (len items)))
       = false) ->
    arrowUp_loop sel items index i n
    = Z.rem (index - (1 + k) + len items) (len items).
Proof.
  induction n as [|n IH]; intros index i k Hk Hyes Hno;
    cbn [arrowUp_loop]; cbv zeta.
  - lia.
  - destruct (Z.eq_dec i k) as [->|Hne].
    + rewrite Hyes. reflexivity.
    + rewrite (Hno i) by lia. apply IH; [lia|assumption|].
      intros j Hj. apply Hno. lia.
Qed.

(** [ArrowDown] with the destructuring of [getFilteredItems] resolved. *)
Lemma ArrowDown_unfold (this : Autocomplete) :
  let items := view this in
  let this' := with_props (snd (getFilteredItems (props this))) this in
  let hl := State.highlightedIndex (state this) in
  let r := arrowDown_loop (Props.isItemSelectable (props this)) items
             (match hl with None => -1 | Some h => h end) 0 (List.length items) in
  ArrowDown this =
    if len items =? 0 then done this' [PreventDefault]
    else if (r >? -1) && negb (same_index r hl)
         then setState
                (fun s => State.set_isOpen true
                            (State.set_highlightedIndex (Some r) s))
                [] this' [PreventDefault]
         else done this' [PreventDefault].
Proof.
  cbv zeta. unfold ArrowDown, view.
  destruct (getFilteredItems (props this)) as [items p'] eqn:E.
  assert (Hp : p' = snd (getFilteredItems (props this))) by (rewrite E; reflexivity).
  cbn [fst snd props state with_props]. subst p'.
  rewrite getFilteredItems_selectable. reflexivity.
Qed.

Lemma ArrowUp_unfold (this : Autocomplete) :
  let items := view this in
  let this' := with_props (snd (getFilteredItems (props this))) this in
  let hl := State.highlightedIndex (state this) in
  let r := arrowUp_loop (Props.isItemSelectable (props this)) items
             (match hl with None => len items | Some h => h end) 0
             (List.length items) in
  ArrowUp this =
    if len items =? 0 then done this' [PreventDefault]
    else if negb (r =? len items)
         then setState
                (fun s => State.set_isOpen true
                            (State.set_highlightedIndex (Some r) s))
                [] this' [PreventDefault]
         else done this' [PreventDefault].
Proof.
  cbv zeta. unfold ArrowUp, view.
  destruct (getFilteredItems (props this)) as [items p'] eqn:E.
  assert (Hp : p' = snd (getFilteredItems (props this))) by (rewrite E; reflexivity).
  cbn [fst snd props state with_props]. subst p'.
  rewrite getFilteredItems_selectable. reflexivity.
Qed.

(** An arrow key that finds nothing to move to leaves the state alone. *)
Lemma ArrowDown_nothing (dom : Dom) (this : Autocomplete) :
  highlight_in_view this ->
  (forall x, In x (view this) -> Props.isItemSelectable (props this) x = false) ->
  state (fst (run dom (ArrowDown this))) = state this.
Proof.
  intros Hh Hno. rewrite ArrowDown_unfold. cbv zeta.
  destruct (Z.eqb_spec (len (view this)) 0) as [Hz|Hz]; [reflexivity|].
  pose proof (len_nonneg (view this)) as Hl.
  rewrite arrowDown_loop_none.
  - unfold highlight_in_view in Hh.
    destruct (State.highlightedIndex (state this)) as [h|]; simpl.
    + rewrite Z.eqb_refl. simpl. rewrite andb_false_r. reflexivity.
    + reflexivity.
  - intros j Hj. apply Hno, item_at_In. apply Z.rem_bound_pos; [|lia].
    unfold highlight_in_view in Hh.
    destruct (State.highlightedIndex (state this)); lia.
Qed.

(** C5: the ArrowDown key, in a state whose highlight indexes the view.
    Counting positions circularly from the one after the highlight (from
    the first item when there is no highlight), let [k] be the number of
    non-selectable items passed before the first selectable one.  The
    highlight becomes the position [(s + 1 + k) mod length]; if that is a
    new position the menu is opened, if it is the highlighted position
    itself the state is unchanged.  With no selectable item, in particular
    with an empty view, the state is unchanged. *)
Theorem C5_ArrowDown_next_selectable (dom : Dom) (keyCode : Z)
  (this : Autocomplete) :
  highlight_in_view this ->
  let items := view this in
  let sel := Props.isItemSelectable (props this) in
  let hl := State.highlightedIndex (state this) in
  let s := match hl with None => -1 | Some h => h end in
  let this' := fst (step dom (KeyDown "ArrowDown" keyCode) this) in
  (items = [] -> state this' = state this)
  /\ ((forall x, In x items -> sel x = false) -> state this' = state this)
  /\ (forall k, 0 <= k < len items ->
        sel (item_at items ((s + 1 + k) mod len items)) = true ->
        (forall j, 0 <= j < k ->
           sel (item_at items ((s + 1 + j) mod len items)) = false) ->
        (hl = Some ((s + 1 + k) mod len items) -> state this' = state this)
        /\ (hl <> Some ((s + 1 + k) mod len items) ->
            State.highlightedIndex (state this') = Some ((s + 1 + k) mod len items)
            /\ State.isOpen (state this') = true))
  /\ (hl = None ->
      forall k, 0 <= k < len items ->
        sel (item_at items k) = true ->
        (forall j, 0 <= j < k -> sel (item_at items j) = false) ->
        State.highlightedIndex (state this') = Some k
        /\ State.isOpen (state this') = true).
Proof.
  intros Hh. cbv zeta.
  change (step dom (KeyDown "ArrowDown" keyCode) this)
    with (run dom (ArrowDown this)).
  assert (Main : forall k, 0 <= k < len (view this) ->
    Props.isItemSelectable (props this)
      (item_at (view this)
         ((match State.highlightedIndex (state this) with
           | None => -1 | Some h => h end + 1 + k) mod len (view this))) = true ->
    (forall j, 0 <= j < k ->
       Props.isItemSelectable (props this)
         (item_at (view this)
            ((match State.highlightedIndex (state this) with
              | None => -1 | Some h => h end + 1 + j) mod len (view this))) = false) ->
    (State.highlightedIndex (state this)
     = Some ((match State.highlightedIndex (state this) with
              | None => -1 | Some h => h end + 1 + k) mod len (view this)) ->
     state (fst (run dom (ArrowDown this))) = state this)
    /\ (State.highlightedIndex (state this)
        <> Some ((match State.highlightedIndex (state this) with
                  | None => -1 | Some h => h end + 1 + k) mod len (view this)) ->
        State.highlightedIndex (state (fst (run dom (ArrowDown this))))
        = Some ((match State.highlightedIndex (state this) with
                 | None => -1 | Some h => h end + 1 + k) mod len (view this))
        /\ State.isOpen (state (fst (run dom (ArrowDown this)))) = true)).
  { intros k Hk Hyes Hno.
    set (s := match State.highlightedIndex (state this) with
              | None => -1 | Some h => h end) in *.
    assert (Hs : -1 <= s).
    { unfold s. unfold highlight_in_view in Hh.
      destruct (State.highlightedIndex (state this)); lia. }
    assert (R : forall j, 0 <= j ->
              Z.rem (s + j + 1) (len (view this)) = (s + 1 + j) mod len (view this)).
    { intros j Hj. rewrite Z.rem_mod_nonneg by lia. f_equal. lia. }
    assert (L : arrowDown_loop (Props.isItemSelectable (props this)) (view this)
                  s 0 (List.length (view this))
                = (s + 1 + k) mod len (view this)).
    { rewrite <- R by lia. apply arrowDown_loop_first.
      - unfold len in Hk. lia.
      - rewrite R by lia. exact Hyes.
      - intros j Hj. rewrite R by lia. apply Hno. lia. }
    assert (B : 0 <= (s + 1 + k) mod len (view this)).
    { apply Z.mod_pos_bound. lia. }
    rewrite ArrowDown_unfold. cbv zeta. fold s. rewrite L.
    destruct (Z.eqb_spec (len (view this)) 0) as [Hz|Hz]; [lia|].
    replace ((s + 1 + k) mod len (view this) >? -1) with true
      by (symmetry; apply Z.gtb_lt; lia).
    split.
    - intros E. rewrite E. simpl. rewrite Z.eqb_refl. reflexivity.
    - intros NE.
      assert (T : same_index ((s + 1 + k) mod len (view this))
                    (State.highlightedIndex (state this)) = false).
      { destruct (State.highlightedIndex (state this)) as [h|]; simpl; [|reflexivity].
        apply Z.eqb_neq. intros E. apply NE. rewrite E. reflexivity. }
      rewrite T. simpl andb. cbv iota.
      match goal with
      | |- context [run dom (setState ?f ?cb ?t ?e)] =>
          destruct (run_setState dom f cb e t) as (HO & HH & _ & _)
      end.
      rewrite HO, HH. simpl. auto. }
  split; [|split; [|split]].
  - intros E. apply ArrowDown_nothing; [exact Hh|]. rewrite E. intros x [].
  - intros Hno. apply ArrowDown_nothing; assumption.
  - exact Main.
  - intros E k Hk Hyes Hno.
    specialize (Main k Hk). rewrite E in Main.
    replace ((-1 + 1 + k) mod len (view this)) with k in Main
      by (symmetry; apply Z.mod_small; lia).
    destruct Main as [_ M].
    + exact Hyes.
    + intros j Hj.
      replace ((-1 + 1 + j) mod len (view this)) with j
        by (symmetry; apply Z.mod_small; lia).
      apply Hno, Hj.
    + apply M. discriminate.
Qed.

(** From no highlight [ArrowUp] visits the positions from the last one down. *)
Lemma arrowUp_position (items : list ItemT) (i : Z) :
  0 <= i < len items ->
  Z.rem (len items - (1 + i) + len items) (len items) = len items - 1 - i.
Proof.
  intros Hi. rewrite Z.rem_mod_nonneg by lia.
  symmetry. apply (Z.mod_unique _ _ 1); lia.
Qed.

(** C10: the ArrowUp key pressed while there is no highlight.  If the view
    has a selectable item, the highlight becomes the last selectable
    position of the view (every item after it is non-selectable) and the
    menu is opened.  If no item is selectable, in particular if the view is
    empty, the state is unchanged. *)
Theorem C10_ArrowUp_from_no_highlight (dom : Dom) (keyCode : Z)
  (this : Autocomplete) :
  State.highlightedIndex (state this) = None ->
  let items := view this in
  let sel := Props.isItemSelectable (props this) in
  let this' := fst (step dom (KeyDown "ArrowUp" keyCode) this) in
  (items = [] -> state this' = state this)
  /\ ((forall x, In x items -> sel x = false) -> state this' = state this)
  /\ (forall m, 0 <= m < len items ->
        sel (item_at items m) = true ->
        (forall j, m < j < len items -> sel (item_at items j) = false) ->
        State.highlightedIndex (state this') = Some m
        /\ State.isOpen (state this') = true).
Proof.
  intros Hn. cbv zeta.
  change (step dom (KeyDown "ArrowUp" keyCode) this)
    with (run dom (ArrowUp this)).
  rewrite ArrowUp_unfold. cbv zeta. rewrite Hn.
  pose proof (len_nonneg (view this)) as Hl.
  assert (Nothing :
    (forall x, In x (view this) -> Props.isItemSelectable (props this) x = false) ->
    state (fst (run dom
      (if len (view this) =? 0
       then done (with_props (snd (getFilteredItems (props this))) this)
              [PreventDefault]
       else if negb (arrowUp_loop (Props.isItemSelectable (props this))
                       (view this) (len (view this)) 0
                       (List.length (view this)) =? len (view this))
            then setState
                   (fun s => State.set_isOpen true
                      (State.set_highlightedIndex
                         (Some (arrowUp_loop (Props.isItemSelectable (props this))
                                  (view this) (len (view this)) 0
                                  (List.length (view this)))) s))
                   [] (with_props (snd (getFilteredItems (props this))) this)
                   [PreventDefault]
            else done (with_props (snd (getFilteredItems (props this))) this)
                   [PreventDefault]))) = state this).
  { intros Hno.
    destruct (Z.eqb_spec (len (view this)) 0) as [Hz|Hz]; [reflexivity|].
    rewrite arrowUp_loop_none.
    - rewrite Z.eqb_refl. reflexivity.
    - intros j Hj.
      rewrite arrowUp_position by (unfold len; lia).
      apply Hno, item_at_In. unfold len in *. lia. }
  split; [|split].
  - intros E. apply Nothing. rewrite E. intros x [].
  - exact Nothing.
  - intros m Hm Hyes Hno.
    destruct (Z.eqb_spec (len (view this)) 0) as [Hz|Hz]; [lia|].
    assert (L : arrowUp_loop (Props.isItemSelectable (props this)) (view this)
                  (len (view this)) 0 (List.length (view this)) = m).
    { transitivity
        (Z.rem (len (view this) - (1 + (len (view this) - 1 - m)) + len (view this))
           (len (view this))).
      - apply arrowUp_loop_first.
        + unfold len in *. lia.
        + rewrite arrowUp_position by lia.
          replace (len (view this) - 1 - (len (view this) - 1 - m)) with m by lia.
          exact Hyes.
        + intros j Hj. rewrite arrowUp_position by lia. apply Hno. lia.
      - rewrite arrowUp_position by lia. lia. }
    rewrite L.
    replace (m =? len (view this)) with false by (symmetry; apply Z.eqb_neq; lia).
    simpl negb. cbv iota.
    match goal with
    | |- context [run dom (setState ?f ?cb ?t ?e)] =>
        destruct (run_setState dom f cb e t) as (HO & HH & _ & _)
    end.
    rewrite HO, HH. simpl. auto.
Qed.

(** ** Auto-highlight *)

Lemma indexOf_zero_prefix (s search : string) :
  (indexOf s search =? 0) = prefix search s.
Proof.
  destruct s as [|c s']; cbn [indexOf];
    destruct (prefix search _) eqn:P; try reflexivity.
  destruct (Z.ltb_spec (indexOf s' search) 0) as [Hlt|Hge]; [reflexivity|].
  apply Z.eqb_neq. lia.
Qed.

Lemma autoComplete_loop_first (sel : ItemT -> bool) (items : list ItemT) (n : nat) :
  forall index k,
    0 <= index < len items ->
    0 <= k < Z.of_nat n ->
    sel (item_at items ((index + k) mod len items)) = true ->
    (forall j, 0 <= j < k -> sel (item_at items ((index + j) mod len items)) = false) ->
    autoComplete_loop sel items index n = (index + k) mod len items.
Proof.
  induction n as [|n IH]; intros index k Hi Hk Hyes Hno;
    cbn [autoComplete_loop].
  - lia.
  - destruct (Z.eq_dec k 0) as [->|Hne].
    + rewrite Z.add_0_r, Z.mod_small in Hyes by lia.
      rewrite Hyes. rewrite Z.add_0_r, Z.mod_small by lia. reflexivity.
    + pose proof (Hno 0) as H0.
      rewrite Z.add_0_r, Z.mod_small in H0 by lia.
      rewrite H0 by lia.
      rewrite Z.rem_mod_nonneg by lia.
      assert (Sh : forall j, ((index + 1) mod len items + (j - 1)) mod len items
                             = (index + j) mod len items).
      { intros j. rewrite Zplus_mod_idemp_l. f_equal. lia. }
      rewrite <- (Sh k). apply IH.
      * apply Z.mod_pos_bound. lia.
      * lia.
      * rewrite Sh. exact Hyes.
      * intros j Hj. replace j with ((j + 1) - 1) by lia. rewrite Sh.
        apply Hno. lia.
Qed.

(** [maybeAutoCompleteText] with the destructuring resolved. *)
Lemma maybeAutoCompleteText_unfold (s : State.t) (p : Props.t) :
  let items := fst (getFilteredItems p) in
  let index :=
    autoComplete_loop (Props.isItemSelectable p) items
      (match State.highlightedIndex s with None => 0 | Some h => h end)
      (List.length items) in
  let item := item_at items index in
  fst (maybeAutoCompleteText s p) =
    State.set_highlightedIndex
      (if truthy item && Props.isItemSelectable p item
          && negb (Props.value p =? "")%string
          && prefix (toLowerCase (Props.value p))
               (toLowerCase (Props.getItemValue p item))
       then Some index else None) s.
Proof.
  cbv zeta. unfold maybeAutoCompleteText.
  destruct (getFilteredItems p) as [items p'] eqn:E.
  assert (Hp : p' = snd (getFilteredItems p)) by (rewrite E; reflexivity).
  cbn [fst]. cbv zeta. subst p'. rewrite getFilteredItems_selectable.
  set (index := autoComplete_loop _ items _ _).
  destruct (truthy (item_at items index)
            && Props.isItemSelectable p (item_at items index)); [|reflexivity].
  simpl andb.
  destruct (negb (Props.value p =? "")%string); [|reflexivity].
  simpl andb. rewrite indexOf_zero_prefix.
  destruct (prefix _ _); reflexivity.
Qed.

Lemma ReceiveProps_no_OnSelect (dom : Dom) (nextProps : Props.t)
  (this : Autocomplete) :
  filter is_OnSelect (snd (step dom (ReceiveProps nextProps) this)) = [].
Proof.
  cbn [step].
  set (o := componentWillReceiveProps nextProps this).
  pose proof (update_OnSelect dom (props this) (queue o)
                (with_props nextProps (self o))) as HS.
  destruct (update dom (props this) (queue o) (with_props nextProps (self o)))
    as [this' effs].
  cbn [snd] in *. rewrite filter_app, HS.
  unfold o, componentWillReceiveProps; cbn [queue effects].
  destruct (State.highlightedIndex (state this));
    destruct (Props.autoHighlight nextProps && _); reflexivity.
Qed.

(** The auto-highlight recomputation [maybeAutoCompleteText], for a
    state whose highlight indexes the view.  Counting positions circularly
    from the highlighted one (from 0 when there is no highlight), let [k] be
    the number of non-selectable items passed before the first selectable
    one, at position [(start + k) mod length].  That position becomes the
    highlight exactly when the value is not empty, the item there is a
    truthy JavaScript value and the lower-cased value is a prefix of its
    lower-cased display value; otherwise the highlight is null.  It is null
    too when the value is empty and when no item is selectable.  Nothing
    else of the state changes, and a change of props never calls
    [onSelect]. *)
Theorem maybeAutoCompleteText_first_selectable (s : State.t) (p : Props.t) :
  hl_ok s p ->
  let items := fst (getFilteredItems p) in
  let sel := Props.isItemSelectable p in
  let value := Props.value p in
  let start := match State.highlightedIndex s with None => 0 | Some h => h end in
  let s' := fst (maybeAutoCompleteText s p) in
  (value = ""%string -> State.highlightedIndex s' = None)
  /\ ((forall x, In x items -> sel x = false) -> State.highlightedIndex s' = None)
  /\ (forall k, 0 <= k < len items ->
        sel (item_at items ((start + k) mod len items)) = true ->
        (forall j, 0 <= j < k ->
           sel (item_at items ((start + j) mod len items)) = false) ->
        let index := (start + k) mod len items in
        let item := item_at items index in
        State.highlightedIndex s' =
          if negb (value =? "")%string && truthy item
             && prefix (toLowerCase value) (toLowerCase (Props.getItemValue p item))
          then Some index else None)
  /\ s' = State.set_highlightedIndex (State.highlightedIndex s') s
  /\ (forall dom nextProps this,
        filter is_OnSelect (snd (step dom (ReceiveProps nextProps) this)) = []).
Proof.
  intros Hok. cbv zeta. rewrite maybeAutoCompleteText_unfold. cbv zeta.
  set (items := fst (getFilteredItems p)).
  set (start := match State.highlightedIndex s with None => 0 | Some h => h end).
  set (index := autoComplete_loop (Props.isItemSelectable p) items start
                  (List.length items)).
  split; [|split; [|split; [|split]]].
  - intros E. rewrite E. simpl. rewrite andb_false_r. reflexivity.
  - intros Hno. simpl.
    destruct (truthy (item_at items index)) eqn:T; [|reflexivity].
    apply item_at_truthy_in_range in T.
    rewrite (Hno _ (item_at_In items index T)). reflexivity.
  - intros k Hk Hyes Hno. simpl State.highlightedIndex.
    assert (Hs : 0 <= start < len items).
    { unfold start. unfold hl_ok in Hok. fold items in Hok.
      destruct (State.highlightedIndex s); lia. }
    assert (L : index = (start + k) mod len items).
    { unfold index. apply autoComplete_loop_first; assumption. }
    rewrite L, Hyes.
    destruct (truthy _); destruct (negb _); destruct (prefix _ _); reflexivity.
  - reflexivity.
  - intros dom nextProps this. apply ReceiveProps_no_OnSelect.
Qed.

Lemma prefix_refl (s : string) : prefix s s = true.
Proof.
  induction s as [|c s IH]; simpl; [reflexivity|].
  destruct (Ascii.ascii_dec c c); [exact IH|contradiction].
Qed.

(** C6, at the single item [0] shown as "0", with auto-highlight on and the
    value "0".  The item is selectable, the value is not empty and it is a
    prefix of the item's display value in any letter case; yet
    [maybeAutoCompleteText] leaves no highlight, also when it runs for a
    change of the value from "" to "0": it tests [items[index]] for
    truthiness, and [0] is falsy.  The item [1] shown as "1" is highlighted
    by the value "1".  The keyboard takes [0] for an item like any other:
    ArrowDown highlights it and Enter selects it. *)
Theorem C6_falsy_item_not_auto_highlighted :
  let p := number_props [INum 0] "0" None in
  let fresh := State.mk false None None None None in
  let item := item_at (fst (getFilteredItems p)) 0 in
  Props.autoHighlight p = true
  /\ item = INum 0
  /\ Props.isItemSelectable p item = true
  /\ (Props.value p =? "")%string = false
  /\ prefix (toLowerCase (Props.value p))
        (toLowerCase (Props.getItemValue p item)) = true
  /\ State.highlightedIndex (fst (maybeAutoCompleteText fresh p)) = None
  /\ State.highlightedIndex
       (state (after dom0 (number_props [INum 0] "" None) [ReceiveProps p]))
     = None
  /\ State.highlightedIndex
       (fst (maybeAutoCompleteText fresh (number_props [INum 1] "1" None)))
     = Some 0
  /\ State.highlightedIndex (state (after dom0 p [KeyDown "ArrowDown" 40]))
     = Some 0
  /\ snd (step dom0 (KeyDown "Enter" 13)
            (after dom0 p [Focus; KeyDown "ArrowDown" 40]))
     = [PreventDefault; OnMenuVisibilityChange false;
        InputSetSelectionRange 1 1; OnSelect "0" (INum 0)].
Proof.
  cbv zeta.
  split; [reflexivity|]. split; [reflexivity|]. split; [reflexivity|].
  split; [reflexivity|]. split; [apply prefix_refl|].
  split; [reflexivity|]. split; [reflexivity|].
  split; [|split; reflexivity].
  pose proof (maybeAutoCompleteText_first_selectable
                (State.mk false None None None None)
                (number_props [INum 1] "1" None) I) as H.
  cbv zeta in H. destruct H as (_ & _ & H & _).
  specialize (H 0). rewrite H.
  - cbn. rewrite prefix_refl. reflexivity.
  - cbn. lia.
  - reflexivity.
  - intros j Hj. lia.
Qed.

(** ** The highlight indexes the view *)

Lemma after_reachable (dom : Dom) (p : Props.t) (events : list Event) :
  reachable (after dom p events).
Proof.
  unfold after.
  assert (G : forall es this, reachable this ->
                reachable (fold_left (fun t e => fst (step dom e t)) es this)).
  { induction es as [|e es IH]; intros this Hr; simpl.
    - exact Hr.
    - apply IH. apply reachable_step, Hr. }
  apply G, reachable_mount.
Qed.


(** C3, at [items = [2, 1]] with a numeric [sortItems] and no
    [shouldItemRender]: [getFilteredItems] leaves [props.items] as [[1, 2]],
    and so does the first render of an open menu; with a
    [shouldItemRender] the same comparator leaves [props.items] alone. *)
Theorem C3_sort_reorders_props_items :
  Props.items (number_props [INum 2; INum 1] "" (Some ascending))
  = [INum 2; INum 1]
  /\ Props.items
       (snd (getFilteredItems
               (number_props [INum 2; INum 1] "" (Some ascending))))
     = [INum 1; INum 2]
  /\ Props.items
       (props (after dom0 (number_props [INum 2; INum 1] "" (Some ascending))
                 [Focus]))
     = [INum 1; INum 2]
  /\ Props.items
       (snd (getFilteredItems
               (Props.mk [INum 2; INum 1] "" (Some (fun _ _ => true))
                  (fun _ => true) (Some ascending) digit_of true false None
                  false false false false)))
     = [INum 2; INum 1].
Proof. repeat split. Qed.

(** ** Every event: what the handlers and an update keep *)

Lemma changed_items_refl (p : Props.t) : changed_items p p.
Proof.
  split; [destruct p; reflexivity|]. split; [apply Permutation_refl|].
  reflexivity.
Qed.

Lemma changed_items_trans (p q r : Props.t) :
  changed_items p q -> changed_items q r -> changed_items p r.
Proof.
  intros (E1 & P1 & F1) (E2 & P2 & F2). split; [|split].
  - rewrite E2 at 1. rewrite E1. destruct p; reflexivity.
  - eapply perm_trans; eassumption.
  - intros F. specialize (F1 F). subst q. apply F2, F.
Qed.

Lemma changed_items_sorted (p : Props.t) :
  changed_items p (snd (getFilteredItems p)).
Proof.
  split; [apply getFilteredItems_only_items|].
  split; [|apply getFilteredItems_frame].
  unfold getFilteredItems.
  destruct (Props.shouldItemRender p); destruct (Props.sortItems p); simpl;
    try apply Permutation_refl.
  apply js_sort_perm.
Qed.

Lemma changed_items_open (p p' : Props.t) :
  changed_items p p' -> Props.open p' = Props.open p.
Proof. intros (E & _). rewrite E. reflexivity. Qed.

Lemma calm_merge (f : State.t -> State.t) (cb : list Effect) :
  (forall s, geometry (f s) = geometry s) ->
  calm {| updater := merge f; callback := cb |}.
Proof. intros Hf s p. split; [apply Hf|apply changed_items_refl]. Qed.

Lemma calm_ensureHighlightedIndex :
  calm {| updater := ensureHighlightedIndex; callback := [] |}.
Proof.
  intros s p. cbn [updater]. unfold ensureHighlightedIndex.
  pose proof (changed_items_sorted p) as C.
  destruct (getFilteredItems p) as [items p'].
  destruct (to_number (State.highlightedIndex s) >=? len items); split;
    try reflexivity; exact C.
Qed.

Lemma calm_maybeAutoCompleteText :
  calm {| updater := maybeAutoCompleteText; callback := [] |}.
Proof.
  intros s p. cbn [updater]. unfold maybeAutoCompleteText.
  pose proof (changed_items_sorted p) as C.
  destruct (getFilteredItems p) as [items p']. cbv zeta.
  destruct (truthy _ && _); [|split; [reflexivity|exact C]].
  destruct (negb _); [|split; [reflexivity|exact C]].
  destruct (_ =? 0); split; try reflexivity; exact C.
Qed.

Lemma applyQueue_calm (q : list Update) :
  Forall calm q ->
  forall s p,
    geometry (fst (applyQueue q s p)) = geometry s
    /\ changed_items p (snd (applyQueue q s p)).
Proof.
  unfold applyQueue.
  induction 1 as [|u q Hu _ IH]; intros s p; simpl.
  - split; [reflexivity|apply changed_items_refl].
  - destruct (Hu s p) as [G C].
    destruct (IH (fst (updater u s p)) (snd (updater u s p))) as [G' C'].
    rewrite <- surjective_pairing in G', C'.
    split; [congruence|eapply changed_items_trans; eassumption].
Qed.

Lemma render_changed_items (this : Autocomplete) :
  changed_items (props this) (props (render this)).
Proof.
  unfold render. destruct (isOpen this); [|apply changed_items_refl].
  pose proof (changed_items_sorted (props this)) as C.
  destruct (getFilteredItems (props this)). exact C.
Qed.

Lemma render_rendered_iff_open (this : Autocomplete) :
  rendered_iff_open (render this).
Proof.
  unfold rendered_iff_open, render.
  destruct (isOpen this) eqn:E.
  - pose proof (changed_items_open _ _ (changed_items_sorted (props this))) as O.
    destruct (getFilteredItems (props this)) as [items p']. simpl in *.
    unfold isOpen in *. simpl. rewrite O. exact E.
  - simpl. exact E.
Qed.

Lemma open_forced_now_items (prev p p' : Props.t) :
  Props.open p' = Props.open p ->
  open_forced_now prev p' = open_forced_now prev p.
Proof. intros E. unfold open_forced_now. rewrite E. reflexivity. Qed.

Lemma update_geometry (dom : Dom) (prevProps : Props.t) (q : list Update)
  (this : Autocomplete) :
  Forall calm q ->
  let this' := fst (update dom prevProps q this) in
  geometry (state this') =
    if (State.isOpen (state this') && negb (State.isOpen (state this)))
       || open_forced_now prevProps (props this')
    then measured dom else geometry (state this).
Proof.
  intros Hq. cbv zeta. unfold update.
  destruct (applyQueue_calm q Hq (state this) (props this)) as [G _].
  destruct (applyQueue q (state this) (props this)) as [s p]; cbn [fst snd] in *.
  set (this1 := render (with_state s (with_props p this))).
  assert (E1 : state this1 = s) by (unfold this1; rewrite render_state; reflexivity).
  destruct ((State.isOpen (state this1) && negb (State.isOpen (state this)))
            || open_forced_now prevProps (props this1)) eqn:C; cbn [fst].
  - rewrite render_state. cbn [state with_state].
    rewrite (open_forced_now_items prevProps (props this1)).
    + change (State.isOpen (setMenuPositions dom (state this1)))
        with (State.isOpen (state this1)).
      rewrite C. reflexivity.
    + apply changed_items_open.
      apply (render_changed_items
               (with_state (setMenuPositions dom (state this1)) this1)).
  - rewrite C. rewrite E1. exact G.
Qed.

Lemma update_props (dom : Dom) (prevProps : Props.t) (q : list Update)
  (this : Autocomplete) :
  Forall calm q ->
  changed_items (props this) (props (fst (update dom prevProps q this))).
Proof.
  intros Hq. unfold update.
  destruct (applyQueue_calm q Hq (state this) (props this)) as [_ C].
  destruct (applyQueue q (state this) (props this)) as [s p]; cbn [fst snd] in *.
  set (this1 := render (with_state s (with_props p this))).
  assert (C1 : changed_items (props this) (props this1)).
  { eapply changed_items_trans; [exact C|].
    apply (render_changed_items (with_state s (with_props p this))). }
  destruct ((State.isOpen (state this1) && negb (State.isOpen (state this)))
            || open_forced_now prevProps (props this1)); cbn [fst].
  - eapply changed_items_trans; [exact C1|].
    apply (render_changed_items
             (with_state (setMenuPositions dom (state this1)) this1)).
  - exact C1.
Qed.

Lemma update_rendered (dom : Dom) (prevProps : Props.t) (q : list Update)
  (this : Autocomplete) :
  rendered_iff_open (fst (update dom prevProps q this)).
Proof.
  unfold update.
  destruct (applyQueue q (state this) (props this)) as [s p].
  set (this1 := render (with_state s (with_props p this))).
  destruct ((State.isOpen (state this1) && negb (State.isOpen (state this)))
            || open_forced_now prevProps (props this1)); cbn [fst];
    apply render_rendered_iff_open.
Qed.

Lemma scroll_no_visibility (this : Autocomplete) :
  filter is_visibility (maybeScrollItemIntoView this) = []
  /\ filter is_throw (maybeScrollItemIntoView this) = []
  /\ filter is_scroll (maybeScrollItemIntoView this) = [].
Proof.
  unfold maybeScrollItemIntoView. destruct (isOpen this); [|auto].
  destruct (State.highlightedIndex (state this)); auto.
Qed.

Lemma update_visibility (dom : Dom) (prevProps : Props.t) (q : list Update)
  (this : Autocomplete) :
  let r := update dom prevProps q this in
  filter is_visibility (snd r) =
    (if Bool.eqb (State.isOpen (state this)) (State.isOpen (state (fst r)))
     then [] else [OnMenuVisibilityChange (State.isOpen (state (fst r)))])
    ++ filter is_visibility (flat_map callback q).
Proof.
  cbv zeta. unfold update.
  destruct (applyQueue q (state this) (props this)) as [s p].
  set (this1 := render (with_state s (with_props p this))).
  destruct ((State.isOpen (state this1) && negb (State.isOpen (state this)))
            || open_forced_now prevProps (props this1)); cbn [fst snd];
    rewrite ?render_state; cbn [state with_state];
    change (State.isOpen (setMenuPositions dom (state this1)))
      with (State.isOpen (state this1));
    rewrite ?filter_app;
    rewrite ?(proj1 (scroll_no_visibility _));
    destruct (Bool.eqb (State.isOpen (state this)) (State.isOpen (state this1)));
    cbn [filter is_visibility app]; rewrite ?app_nil_r; reflexivity.
Qed.

Lemma update_throw (dom : Dom) (prevProps : Props.t) (q : list Update)
  (this : Autocomplete) :
  filter is_throw (snd (update dom prevProps q this))
  = filter is_throw (flat_map callback q).
Proof.
  unfold update.
  destruct (applyQueue q (state this) (props this)) as [s p].
  set (this1 := render (with_state s (with_props p this))).
  assert (V : forall b b' : bool,
             filter is_throw
               (if Bool.eqb b b' then [] else [OnMenuVisibilityChange b']) = []).
  { intros b b'. destruct (Bool.eqb b b'); reflexivity. }
  destruct ((State.isOpen (state this1) && negb (State.isOpen (state this)))
            || open_forced_now prevProps (props this1)); cbn [fst snd];
    rewrite ?filter_app, ?V, ?(proj1 (proj2 (scroll_no_visibility _))),
      ?app_nil_r; reflexivity.
Qed.

Lemma update_scrollTimer (dom : Dom) (prevProps : Props.t) (q : list Update)
  (this : Autocomplete) :
  _scrollTimer (fst (update dom prevProps q this)) = _scrollTimer this.
Proof.
  unfold update.
  destruct (applyQueue q (state this) (props this)) as [s p]; simpl.
  set (this1 := render (with_state s (with_props p this))).
  destruct (render_fields (with_state s (with_props p this))) as (_ & _ & _ & T).
  fold this1 in T. simpl in T.
  destruct ((State.isOpen (state this1) && negb (State.isOpen (state this)))
            || open_forced_now prevProps (props this1)); simpl.
  - destruct (render_fields (with_state (setMenuPositions dom (state this1)) this1))
      as (_ & _ & _ & T').
    simpl in T'. rewrite T'. exact T.
  - exact T.
Qed.

Lemma shape_done (this this' : Autocomplete) (effs : list Effect) :
  state this' = state this ->
  refs_menu this' = refs_menu this ->
  changed_items (props this) (props this') ->
  filter is_OnSelect effs = [] ->
  filter is_visibility effs = [] ->
  (scroll_recorded this -> scroll_recorded this' /\ filter is_throw effs = []) ->
  shape this (done this' effs) /\ quiet (done this' effs).
Proof.
  intros Hs Hr Hp He Hv Ht. unfold shape, quiet; cbn [self queue effects done].
  cbn [flat_map]. rewrite !app_nil_r. rewrite He, Hv.
  split; [|reflexivity].
  split; [exact Hs|]. split; [exact Hr|]. split; [exact Hp|].
  split; [constructor|]. split; [simpl; lia|].
  split; [reflexivity|]. split; [reflexivity|]. exact Ht.
Qed.

Lemma shape_setState (this this' : Autocomplete) (f : State.t -> State.t)
  (cb effs : list Effect) :
  state this' = state this ->
  refs_menu this' = refs_menu this ->
  changed_items (props this) (props this') ->
  (forall s, geometry (f s) = geometry s) ->
  (List.length (filter is_OnSelect (effs ++ cb)) <= 1)%nat ->
  filter is_visibility (effs ++ cb) = [] ->
  filter is_throw cb = [] ->
  (scroll_recorded this -> scroll_recorded this' /\ filter is_throw effs = []) ->
  shape this (setState f cb this' effs).
Proof.
  intros Hs Hr Hp Hf Ho Hv Hc Ht.
  unfold shape; cbn [self queue effects setState flat_map callback].
  rewrite !app_nil_r.
  split; [exact Hs|]. split; [exact Hr|]. split; [exact Hp|].
  split; [constructor; [apply calm_merge, Hf|constructor]|].
  split; [exact Ho|]. split; [exact Hv|]. split; [exact Hc|]. exact Ht.
Qed.

Ltac shape_side :=
  try reflexivity; try apply changed_items_refl;
  try (intros ?; reflexivity);
  try (simpl; lia);
  try (intros H; split; [exact H|reflexivity]).

Lemma ArrowDown_shape (this : Autocomplete) :
  shape this (ArrowDown this) /\ quiet (ArrowDown this).
Proof.
  unfold ArrowDown.
  pose proof (changed_items_sorted (props this)) as C.
  destruct (getFilteredItems (props this)) as [items p']. cbn [snd] in C.
  destruct (len items =? 0); [apply shape_done; shape_side; exact C|].
  cbv zeta.
  destruct ((_ >? -1) && _).
  - split; [apply shape_setState; shape_side; exact C|reflexivity].
  - apply shape_done; shape_side; exact C.
Qed.

Lemma ArrowUp_shape (this : Autocomplete) :
  shape this (ArrowUp this) /\ quiet (ArrowUp this).
Proof.
  unfold ArrowUp.
  pose proof (changed_items_sorted (props this)) as C.
  destruct (getFilteredItems (props this)) as [items p']. cbn [snd] in C.
  destruct (len items =? 0); [apply shape_done; shape_side; exact C|].
  cbv zeta.
  destruct (negb _).
  - split; [apply shape_setState; shape_side; exact C|reflexivity].
  - apply shape_done; shape_side; exact C.
Qed.

Lemma Enter_shape (keyCode : Z) (this : Autocomplete) :
  shape this (Enter keyCode this)
  /\ (keyCode <> 13 -> quiet (Enter keyCode this)).
Proof.
  unfold Enter. destruct (Z.eqb_spec keyCode 13) as [E|E]; cbn [negb].
  - split; [|contradiction]. cbv zeta.
    destruct (negb (isOpen (setIgnoreBlur false this))).
    + apply shape_done; shape_side.
    + cbn [state setIgnoreBlur].
      destruct (State.highlightedIndex (state this)).
      * pose proof (changed_items_sorted (props this)) as C.
        cbn [props setIgnoreBlur].
        destruct (getFilteredItems (props this)) as [items p']. cbn [snd] in C.
        apply shape_setState; shape_side. exact C.
      * apply shape_setState; shape_side.
  - split; [apply shape_done; shape_side|intros _; reflexivity].
Qed.

Lemma Escape_shape (this : Autocomplete) :
  shape this (Escape this) /\ quiet (Escape this).
Proof.
  unfold Escape. split; [apply shape_setState; shape_side|reflexivity].
Qed.

Lemma Tab_shape (this : Autocomplete) :
  shape this (Tab this) /\ quiet (Tab this).
Proof. unfold Tab. apply shape_done; shape_side. Qed.

Lemma handleKeyDown_shape (key : string) (keyCode : Z) (this : Autocomplete) :
  shape this (handleKeyDown key keyCode this)
  /\ (selects (KeyDown key keyCode) = false ->
      quiet (handleKeyDown key keyCode this)).
Proof.
  unfold handleKeyDown, selects.
  destruct (key =? "ArrowDown")%string eqn:K1.
  { apply String.eqb_eq in K1. subst key. cbn.
    split; [|intros _]; apply ArrowDown_shape. }
  destruct (key =? "ArrowUp")%string eqn:K2.
  { apply String.eqb_eq in K2. subst key. cbn.
    split; [|intros _]; apply ArrowUp_shape. }
  destruct (key =? "Enter")%string eqn:K3.
  { cbn [andb]. split; [apply Enter_shape|].
    intros N. apply Z.eqb_neq in N. apply Enter_shape, N. }
  cbn [andb].
  destruct (key =? "Escape")%string.
  { split; [|intros _]; apply Escape_shape. }
  destruct (key =? "Tab")%string.
  { split; [|intros _]; apply Tab_shape. }
  destruct (negb (isOpen this)).
  - split; [apply shape_setState; shape_side|reflexivity].
  - split; [apply shape_done; shape_side|intros _; reflexivity].
Qed.

Lemma handleInputFocus_shape (this : Autocomplete) :
  shape this (handleInputFocus this) /\ quiet (handleInputFocus this).
Proof.
  unfold handleInputFocus. destruct (_ignoreFocus this) eqn:F.
  - cbv zeta. cbn [_scrollOffset with_ignoreFocus].
    destruct (_scrollOffset this) as [[x y]|] eqn:O.
    + apply shape_done; shape_side.
      intros _. split; [|reflexivity]. intros H. discriminate H.
    + apply shape_done; shape_side.
      intros H. exfalso. apply (H F). exact O.
  - destruct (Props.inputProps_onFocus (props this));
      (split; [apply shape_setState; shape_side|reflexivity]).
Qed.

Lemma handleInputBlur_shape (dom : Dom) (this : Autocomplete) :
  shape this (handleInputBlur dom this).
Proof.
  unfold handleInputBlur. destruct (_ignoreBlur this).
  - apply shape_done; shape_side.
    intros _. split; [|reflexivity]. intros _. discriminate.
  - cbv zeta.
    destruct (State.highlightedIndex (state this)).
    + destruct (Props.selectOnBlur (props this)).
      * pose proof (changed_items_sorted (props this)) as C.
        destruct (getFilteredItems (props this)) as [items p']. cbn [snd] in C.
        cbn [props with_props].
        pose proof (changed_items_open _ _ C) as _.
        assert (B : Props.inputProps_onBlur p'
                    = Props.inputProps_onBlur (props this))
          by (destruct C as [E _]; rewrite E; reflexivity).
        rewrite B.
        destruct (Props.inputProps_onBlur (props this));
          apply shape_setState; shape_side; exact C.
      * destruct (Props.inputProps_onBlur (props this));
          apply shape_setState; shape_side.
    + destruct (Props.inputProps_onBlur (props this));
        apply shape_setState; shape_side.
Qed.

Lemma handleInputClick_shape (dom : Dom) (this : Autocomplete) :
  shape this (handleInputClick dom this) /\ quiet (handleInputClick dom this).
Proof.
  unfold handleInputClick. destruct (inputIsFocused dom && negb (isOpen this)).
  - split; [apply shape_setState; shape_side|reflexivity].
  - apply shape_done; shape_side.
Qed.

Lemma scrollTimerCallback_shape (this : Autocomplete) :
  shape this (scrollTimerCallback this) /\ quiet (scrollTimerCallback this).
Proof.
  unfold scrollTimerCallback.
  destruct (_scrollTimer this) as [[x y]|]; apply shape_done; shape_side.
Qed.

(** Every event but a change of props runs one handler of the shape above. *)
Lemma step_cases (dom : Dom) (e : Event) (this : Autocomplete) :
  (forall nextProps, e <> ReceiveProps nextProps) ->
  exists o, step dom e this = run dom o
            /\ shape this o
            /\ (selects e = false -> quiet o).
Proof.
  intros NR. destruct e; cbn [step].
  - exfalso. apply (NR nextProps). reflexivity.
  - eexists. split; [reflexivity|]. apply handleKeyDown_shape.
  - eexists. split; [reflexivity|]. split; [|intros _]; apply handleInputFocus_shape.
  - eexists. split; [reflexivity|]. split; [apply handleInputBlur_shape|].
    discriminate.
  - exists (handleChange v this). split; [reflexivity|].
    unfold handleChange. split; [apply shape_done; shape_side|intros _; reflexivity].
  - eexists. split; [reflexivity|].
    split; [|intros _]; apply handleInputClick_shape.
  - destruct (refs_menu this) eqn:R.
    + exists (done (setIgnoreBlur true this) []). split; [reflexivity|].
      split; [apply shape_done; shape_side|intros _; reflexivity].
    + exists (done this []). split; [reflexivity|].
      split; [apply shape_done; shape_side|intros _; reflexivity].
  - destruct (refs_menu this) eqn:R.
    + exists (done (setIgnoreBlur true this) []). split; [reflexivity|].
      split; [apply shape_done; shape_side|intros _; reflexivity].
    + exists (done this []). split; [reflexivity|].
      split; [apply shape_done; shape_side|intros _; reflexivity].
  - destruct (refs_menu this) eqn:R.
    + exists (done (setIgnoreBlur false this) []). split; [reflexivity|].
      split; [apply shape_done; shape_side|intros _; reflexivity].
    + exists (done this []). split; [reflexivity|].
      split; [apply shape_done; shape_side|intros _; reflexivity].
  - destruct (refs_menu this) as [items|] eqn:R.
    + destruct (in_range index items && _).
      * eexists. split; [reflexivity|]. unfold highlightItemFromMouse.
        split; [apply shape_setState; shape_side|intros _; reflexivity].
      * exists (done this []). split; [reflexivity|].
        split; [apply shape_done; shape_side|intros _; reflexivity].
    + exists (done this []). split; [reflexivity|].
      split; [apply shape_done; shape_side|intros _; reflexivity].
  - destruct (refs_menu this) as [items|] eqn:R.
    + destruct (in_range index items && _).
      * eexists. split; [reflexivity|]. unfold selectItemFromMouse.
        split; [apply shape_setState; shape_side|discriminate].
      * exists (done this []). split; [reflexivity|].
        split; [|discriminate]. apply shape_done; shape_side.
    + exists (done this []). split; [reflexivity|].
      split; [|discriminate]. apply shape_done; shape_side.
  - eexists. split; [reflexivity|].
    split; [|intros _]; apply scrollTimerCallback_shape.
Qed.

(** An update adds only scrolling of the menu and the visibility callback
    to the calls of the completion callbacks. *)
Lemma update_filter (P : Effect -> bool) (dom : Dom) (prevProps : Props.t)
  (q : list Update) (this : Autocomplete) :
  (forall h, P (ScrollItemIntoView h) = false) ->
  (forall b, P (OnMenuVisibilityChange b) = false) ->
  filter P (snd (update dom prevProps q this)) = filter P (flat_map callback q).
Proof.
  intros Hs Hv. unfold update.
  destruct (applyQueue q (state this) (props this)) as [s p].
  set (this1 := render (with_state s (with_props p this))).
  assert (S : forall t, filter P (maybeScrollItemIntoView t) = []).
  { intros t. unfold maybeScrollItemIntoView. destruct (isOpen t); [|reflexivity].
    destruct (State.highlightedIndex (state t)); [|reflexivity].
    simpl. rewrite Hs. reflexivity. }
  assert (V : forall b b' : bool,
             filter P (if Bool.eqb b b' then [] else [OnMenuVisibilityChange b'])
             = []).
  { intros b b'. destruct (Bool.eqb b b'); [reflexivity|].
    simpl. rewrite Hv. reflexivity. }
  destruct ((State.isOpen (state this1) && negb (State.isOpen (state this)))
            || open_forced_now prevProps (props this1)); cbn [fst snd];
    rewrite ?filter_app, ?S, ?V, ?app_nil_r; reflexivity.
Qed.

Lemma run_filter (P : Effect -> bool) (dom : Dom) (o : Outcome) :
  (forall h, P (ScrollItemIntoView h) = false) ->
  (forall b, P (OnMenuVisibilityChange b) = false) ->
  filter P (snd (run dom o)) = filter P (effects o ++ flat_map callback (queue o)).
Proof.
  intros Hs Hv. unfold run. destruct (queue o) as [|u q] eqn:E.
  - cbn [flat_map]. rewrite app_nil_r. reflexivity.
  - pose proof (update_filter P dom (props (self o)) (u :: q) (self o) Hs Hv) as H.
    destruct (update dom (props (self o)) (u :: q) (self o)) as [t effs].
    cbn [snd] in *. rewrite !filter_app, H. reflexivity.
Qed.

Lemma componentWillReceiveProps_calm (nextProps : Props.t) (this : Autocomplete) :
  Forall calm (queue (componentWillReceiveProps nextProps this))
  /\ flat_map callback (queue (componentWillReceiveProps nextProps this)) = [].
Proof.
  unfold componentWillReceiveProps; cbn [queue].
  destruct (State.highlightedIndex (state this));
    destruct (Props.autoHighlight nextProps && _); cbn [app flat_map callback];
    split; try reflexivity;
    repeat constructor;
    try apply calm_ensureHighlightedIndex; try apply calm_maybeAutoCompleteText.
Qed.

(** A change of props is one update on the new props. *)
Lemma step_ReceiveProps (dom : Dom) (nextProps : Props.t) (this : Autocomplete) :
  step dom (ReceiveProps nextProps) this
  = update dom (props this) (queue (componentWillReceiveProps nextProps this))
      (with_props nextProps this).
Proof.
  cbn [step].
  change (self (componentWillReceiveProps nextProps this)) with this.
  change (effects (componentWillReceiveProps nextProps this)) with (@nil Effect).
  destruct (update dom (props this) _ (with_props nextProps this)). reflexivity.
Qed.

Lemma open_forced_now_same (p p' : Props.t) :
  Props.open p' = Props.open p -> open_forced_now p p' = false.
Proof.
  intros E. unfold open_forced_now. rewrite E.
  destruct (Props.open p) as [[|]|]; reflexivity.
Qed.

(** ** Properties of every event *)

(** [onMenuVisibilityChange] is called exactly when the state field
    [isOpen] has changed, once, with the new value; this holds for every
    event, a change of props included. *)
Theorem visibility_reported_on_change (dom : Dom) (e : Event)
  (this : Autocomplete) :
  let r := step dom e this in
  filter is_visibility (snd r) =
    if Bool.eqb (State.isOpen (state this)) (State.isOpen (state (fst r)))
    then [] else [OnMenuVisibilityChange (State.isOpen (state (fst r)))].
Proof.
  cbv zeta.
  assert (RP : (exists np, e = ReceiveProps np)
               \/ forall np, e <> ReceiveProps np).
  { destruct e; try (right; discriminate). left. eexists. reflexivity. }
  destruct RP as [[np ->]|NR].
  - rewrite step_ReceiveProps.
    pose proof (update_visibility dom (props this)
                  (queue (componentWillReceiveProps np this))
                  (with_props np this)) as H.
    cbv zeta in H. rewrite H.
    rewrite (proj2 (componentWillReceiveProps_calm np this)).
    rewrite app_nil_r. reflexivity.
  - destruct (step_cases dom e this NR) as (o & -> & Sh & _).
    destruct Sh as (Hs & _ & _ & _ & _ & Hv & _).
    unfold run. destruct (queue o) as [|u q] eqn:Q.
    + cbn [fst snd]. rewrite Hs, Bool.eqb_reflx.
      cbn [flat_map] in Hv. rewrite app_nil_r in Hv. exact Hv.
    + pose proof (update_visibility dom (props (self o)) (u :: q) (self o)) as H.
      cbv zeta in H.
      destruct (update dom (props (self o)) (u :: q) (self o)) as [t effs].
      cbn [fst snd] in *. rewrite filter_app in Hv. rewrite filter_app.
      apply app_eq_nil in Hv. destruct Hv as [Hv1 Hv2].
      rewrite Hv1, H, Hv2, Hs, app_nil_r. reflexivity.
Qed.

(** The menu geometry after any event: it is the one measured on the input
    element when the event turned the state field [isOpen] from false to
    true or the caller's [open] prop from not true to true, and it is left
    as it was otherwise. *)
Theorem geometry_measured_on_opening (dom : Dom) (e : Event)
  (this : Autocomplete) :
  let this' := fst (step dom e this) in
  geometry (state this') =
    if (State.isOpen (state this') && negb (State.isOpen (state this)))
       || open_forced_now (props this) (props this')
    then measured dom else geometry (state this).
Proof.
  cbv zeta.
  assert (RP : (exists np, e = ReceiveProps np)
               \/ forall np, e <> ReceiveProps np).
  { destruct e; try (right; discriminate). left. eexists. reflexivity. }
  destruct RP as [[np ->]|NR].
  - rewrite step_ReceiveProps.
    apply (update_geometry dom (props this) _ (with_props np this)).
    apply componentWillReceiveProps_calm.
  - destruct (step_cases dom e this NR) as (o & -> & Sh & _).
    destruct Sh as (Hs & _ & Hp & Hq & _).
    unfold run. destruct (queue o) as [|u q] eqn:Q.
    + cbn [fst]. rewrite Hs.
      rewrite (open_forced_now_same _ _ (changed_items_open _ _ Hp)).
      destruct (State.isOpen (state this)); reflexivity.
    + pose proof (update_geometry dom (props (self o)) (u :: q) (self o) Hq) as G.
      pose proof (update_props dom (props (self o)) (u :: q) (self o) Hq) as C.
      cbv zeta in G.
      destruct (update dom (props (self o)) (u :: q) (self o)) as [t effs].
      cbn [fst] in *.
      rewrite (open_forced_now_same _ _ (changed_items_open _ _ C)) in G.
      rewrite (open_forced_now_same (props this) (props t)).
      * rewrite <- Hs. exact G.
      * rewrite (changed_items_open _ _ C). apply changed_items_open, Hp.
Qed.

Lemma step_changed_items (dom : Dom) (e : Event) (this : Autocomplete) :
  changed_items (base_props e this) (props (fst (step dom e this))).
Proof.
  assert (RP : (exists np, e = ReceiveProps np)
               \/ forall np, e <> ReceiveProps np).
  { destruct e; try (right; discriminate). left. eexists. reflexivity. }
  destruct RP as [[np ->]|NR].
  - rewrite step_ReceiveProps. cbn [base_props].
    apply (update_props dom (props this) _ (with_props np this)).
    apply componentWillReceiveProps_calm.
  - replace (base_props e this) with (props this)
      by (destruct e; try reflexivity; exfalso; eapply NR; reflexivity).
    destruct (step_cases dom e this NR) as (o & -> & Sh & _).
    destruct Sh as (_ & _ & Hp & Hq & _).
    unfold run. destruct (queue o) as [|u q] eqn:Q.
    + exact Hp.
    + pose proof (update_props dom (props (self o)) (u :: q) (self o) Hq) as C.
      destruct (update dom (props (self o)) (u :: q) (self o)) as [t effs].
      eapply changed_items_trans; eassumption.
Qed.

(** Whatever the event, the props the component holds afterwards are the
    ones it was given (the new ones for a change of props) except that
    [items] may be reordered: no item is added, dropped or replaced and no
    other prop is touched.  With [shouldItemRender] supplied, or without
    [sortItems], they are the given props exactly. *)
Theorem props_only_reordered (dom : Dom) (e : Event) (this : Autocomplete) :
  let given := base_props e this in
  let p' := props (fst (step dom e this)) in
  p' = Props.with_items (Props.items p') given
  /\ Permutation (Props.items given) (Props.items p')
  /\ (Props.shouldItemRender given <> None \/ Props.sortItems given = None ->
      p' = given).
Proof. apply step_changed_items. Qed.

(** When the caller supplies [open], no event other than a change of props
    changes whether the menu is shown. *)
Theorem open_prop_decides (dom : Dom) (e : Event) (this : Autocomplete)
  (b : bool) :
  Props.open (props this) = Some b ->
  (forall nextProps, e <> ReceiveProps nextProps) ->
  isOpen (fst (step dom e this)) = b.
Proof.
  intros Ho NR.
  pose proof (step_changed_items dom e this) as C.
  replace (base_props e this) with (props this) in C
    by (destruct e; try reflexivity; exfalso; eapply NR; reflexivity).
  unfold isOpen. rewrite (changed_items_open _ _ C), Ho. reflexivity.
Qed.

Lemma run_OnSelect (dom : Dom) (o : Outcome) :
  filter is_OnSelect (snd (run dom o))
  = filter is_OnSelect (effects o ++ flat_map callback (queue o)).
Proof. apply run_filter; reflexivity. Qed.

(** [onSelect] is called at most once per event, and only by the Enter key
    with key code 13, a click on a menu item or a blur. *)
Theorem onSelect_rare (dom : Dom) (e : Event) (this : Autocomplete) :
  (List.length (filter is_OnSelect (snd (step dom e this))) <= 1)%nat
  /\ (selects e = false -> filter is_OnSelect (snd (step dom e this)) = []).
Proof.
  assert (RP : (exists np, e = ReceiveProps np)
               \/ forall np, e <> ReceiveProps np).
  { destruct e; try (right; discriminate). left. eexists. reflexivity. }
  destruct RP as [[np ->]|NR].
  - rewrite ReceiveProps_no_OnSelect. split; [simpl; lia|reflexivity].
  - destruct (step_cases dom e this NR) as (o & -> & Sh & Q).
    destruct Sh as (_ & _ & _ & _ & Ho & _).
    rewrite run_OnSelect. split; [exact Ho|exact Q].
Qed.

Lemma mount_rendered (dom : Dom) (p : Props.t) :
  rendered_iff_open (fst (mount dom p)).
Proof.
  unfold mount. cbv zeta.
  set (this0 := Build_Autocomplete _ _ _ _ _ _ _).
  destruct (isOpen (render this0)); cbn [fst]; apply render_rendered_iff_open.
Qed.

Lemma step_rendered (dom : Dom) (e : Event) (this : Autocomplete) :
  rendered_iff_open this -> rendered_iff_open (fst (step dom e this)).
Proof.
  intros R.
  assert (RP : (exists np, e = ReceiveProps np)
               \/ forall np, e <> ReceiveProps np).
  { destruct e; try (right; discriminate). left. eexists. reflexivity. }
  destruct RP as [[np ->]|NR].
  - rewrite step_ReceiveProps. apply update_rendered.
  - destruct (step_cases dom e this NR) as (o & -> & Sh & _).
    destruct Sh as (Hs & Hr & Hp & _).
    unfold run. destruct (queue o) as [|u q] eqn:Q.
    + cbn [fst]. unfold rendered_iff_open, isOpen in *.
      rewrite Hs, Hr, (changed_items_open _ _ Hp). exact R.
    + pose proof (update_rendered dom (props (self o)) (u :: q) (self o)) as U.
      destruct (update dom (props (self o)) (u :: q) (self o)). exact U.
Qed.

(** In every reachable instance the menu is rendered exactly when
    [isOpen ()] holds, and a rendered menu has as many items as the current
    view, so the index of a rendered item is an index into the view. *)
Theorem menu_rendered_iff_open (this : Autocomplete) :
  reachable this ->
  match refs_menu this with
  | Some m => isOpen this = true /\ len m = len (view this)
  | None => isOpen this = false
  end.
Proof.
  intros Hr.
  assert (R : rendered_iff_open this).
  { induction Hr as [dom p|dom e this _ IH].
    - apply mount_rendered.
    - apply step_rendered, IH. }
  destruct (reachable_Inv this Hr) as [_ M].
  unfold rendered_iff_open in R. unfold menu_matches in M.
  destruct (refs_menu this); [split|]; assumption.
Qed.

Lemma step_scroll_recorded (dom : Dom) (e : Event) (this : Autocomplete) :
  scroll_recorded this ->
  scroll_recorded (fst (step dom e this))
  /\ filter is_throw (snd (step dom e this)) = [].
Proof.
  intros J.
  assert (RP : (exists np, e = ReceiveProps np)
               \/ forall np, e <> ReceiveProps np).
  { destruct e; try (right; discriminate). left. eexists. reflexivity. }
  destruct RP as [[np ->]|NR].
  - rewrite step_ReceiveProps.
    destruct (update_fields dom (props this)
                (queue (componentWillReceiveProps np this)) (with_props np this))
      as (_ & F & O).
    rewrite update_throw, (proj2 (componentWillReceiveProps_calm np this)).
    split; [|reflexivity].
    unfold scroll_recorded. rewrite F, O. exact J.
  - destruct (step_cases dom e this NR) as (o & -> & Sh & _).
    destruct Sh as (_ & _ & _ & _ & _ & _ & Hc & Ht).
    destruct (Ht J) as [J' T].
    unfold run. destruct (queue o) as [|u q] eqn:Q.
    + split; assumption.
    + destruct (update_fields dom (props (self o)) (u :: q) (self o))
        as (_ & F & O).
      pose proof (update_throw dom (props (self o)) (u :: q) (self o)) as U.
      destruct (update dom (props (self o)) (u :: q) (self o)) as [t effs].
      cbn [fst snd] in *. split.
      * unfold scroll_recorded. rewrite F, O. exact J'.
      * rewrite filter_app, T, U, Hc. reflexivity.
Qed.

(** In every reachable instance a scroll offset is on record whenever the
    next focus is to be ignored, so the destructuring of [_scrollOffset] in
    [handleInputFocus] never meets null: no event raises the TypeError. *)
Theorem focus_never_throws (this : Autocomplete) :
  reachable this ->
  (_ignoreFocus this = true -> _scrollOffset this <> None)
  /\ (forall dom e, ~ In ThrowTypeError (snd (step dom e this))).
Proof.
  intros Hr.
  assert (J : scroll_recorded this).
  { induction Hr as [dom p|dom e this _ IH].
    - unfold mount. cbv zeta.
      set (this0 := Build_Autocomplete _ _ _ _ _ _ _).
      destruct (isOpen (render this0)); cbn [fst]; intros F; exfalso;
        match type of F with
        | _ignoreFocus (render ?t) = true =>
            destruct (render_fields t) as (_ & F' & _);
            rewrite F' in F; cbn in F;
            try (destruct (render_fields this0) as (_ & F0 & _);
                 rewrite F0 in F);
            discriminate F
        end.
    - apply step_scroll_recorded, IH. }
  split; [exact J|].
  intros dom e Hin.
  destruct (step_scroll_recorded dom e this J) as [_ T].
  assert (Hf : In ThrowTypeError (filter is_throw (snd (step dom e this))))
    by (apply filter_In; split; [exact Hin|reflexivity]).
  rewrite T in Hf. exact Hf.
Qed.

(** ** Blur, focus and the keys that are not navigation keys *)

(** The calls of an update whose single [setState] closes the menu and
    clears the highlight. *)
Lemma run_closing (dom : Dom) (f : State.t -> State.t) (cb effs : list Effect)
  (this : Autocomplete) :
  State.isOpen (f (state this)) = false ->
  State.highlightedIndex (f (state this)) = None ->
  snd (run dom (setState f cb this effs))
  = effs ++ (if State.isOpen (state this)
             then [OnMenuVisibilityChange false] else []) ++ cb.
Proof.
  intros Ho Hh. unfold run, setState; cbn [queue self effects].
  unfold update. cbn [applyQueue fold_left updater merge fst snd].
  set (this1 := render (with_state (f (state this)) (with_props (props this) this))).
  assert (E1 : state this1 = f (state this))
    by (unfold this1; rewrite render_state; reflexivity).
  assert (S1 : maybeScrollItemIntoView this1 = []).
  { unfold maybeScrollItemIntoView. rewrite E1, Hh.
    destruct (isOpen this1); reflexivity. }
  assert (F : open_forced_now (props this) (props this1) = false).
  { apply open_forced_now_same. apply changed_items_open.
    apply (render_changed_items
             (with_state (f (state this)) (with_props (props this) this))). }
  rewrite F, E1, Ho. cbn [andb orb snd]. rewrite S1.
  cbn [flat_map callback app]. rewrite app_nil_r.
  destruct (State.isOpen (state this)); reflexivity.
Qed.

(** A blur that is not ignored closes the menu and clears the highlight.
    The calls it makes are, in order: the caller's [onBlur] if supplied,
    [onMenuVisibilityChange(false)] if the state field [isOpen] was true,
    and [onSelect] for the highlighted item of the view if [selectOnBlur]
    is set and there is a highlight. *)
Theorem blur_closes (dom : Dom) (this : Autocomplete) :
  _ignoreBlur this = false ->
  let r := step dom Blur this in
  State.isOpen (state (fst r)) = false
  /\ State.highlightedIndex (state (fst r)) = None
  /\ snd r =
       (if Props.inputProps_onBlur (props this) then [InputOnBlur] else [])
       ++ (if State.isOpen (state this)
           then [OnMenuVisibilityChange false] else [])
       ++ match State.highlightedIndex (state this) with
          | Some h =>
              if Props.selectOnBlur (props this)
              then [OnSelect
                      (Props.getItemValue (props this) (item_at (view this) h))
                      (item_at (view this) h)]
              else []
          | None => []
          end.
Proof.
  intros Hb. cbv zeta. cbn [step]. unfold handleInputBlur. rewrite Hb.
  cbv zeta. unfold view.
  destruct (State.highlightedIndex (state this)) as [h|].
  - destruct (Props.selectOnBlur (props this)).
    + pose proof (changed_items_sorted (props this)) as C.
      destruct (getFilteredItems (props this)) as [items p'].
      cbn [fst snd props with_props] in *.
      assert (B : Props.inputProps_onBlur p'
                  = Props.inputProps_onBlur (props this))
        by (destruct C as [E _]; rewrite E; reflexivity).
      assert (G : Props.getItemValue p' = Props.getItemValue (props this))
        by (destruct C as [E _]; rewrite E; reflexivity).
      rewrite B, G.
      match goal with
      | |- context [run dom (setState ?f ?cb ?t ?e)] =>
          destruct (run_setState dom f cb e t) as (HO & HH & _ & _);
          pose proof (run_closing dom f cb e t eq_refl eq_refl) as HE
      end.
      rewrite HO, HH, HE. repeat split.
    + match goal with
      | |- context [run dom (setState ?f ?cb ?t ?e)] =>
          destruct (run_setState dom f cb e t) as (HO & HH & _ & _);
          pose proof (run_closing dom f cb e t eq_refl eq_refl) as HE
      end.
      rewrite HO, HH, HE. repeat split.
  - match goal with
    | |- context [run dom (setState ?f ?cb ?t ?e)] =>
        destruct (run_setState dom f cb e t) as (HO & HH & _ & _);
        pose proof (run_closing dom f cb e t eq_refl eq_refl) as HE
    end.
    rewrite HO, HH, HE. repeat split.
Qed.

(** The calls to the caller made by a handler with a single [setState]. *)
Lemma run_callbacks (dom : Dom) (f : State.t -> State.t) (cb effs : list Effect)
  (this : Autocomplete) :
  filter is_caller_callback (snd (run dom (setState f cb this effs)))
  = filter is_caller_callback effs
    ++ (if Bool.eqb (State.isOpen (state this)) (State.isOpen (f (state this)))
        then [] else [OnMenuVisibilityChange (State.isOpen (f (state this)))])
    ++ filter is_caller_callback cb.
Proof.
  unfold run, setState; cbn [queue self effects].
  unfold update. cbn [applyQueue fold_left updater merge fst snd].
  set (this1 := render (with_state (f (state this)) (with_props (props this) this))).
  assert (E1 : state this1 = f (state this))
    by (unfold this1; rewrite render_state; reflexivity).
  assert (S : forall t, filter is_caller_callback (maybeScrollItemIntoView t) = []).
  { intros t. unfold maybeScrollItemIntoView. destruct (isOpen t); [|reflexivity].
    destruct (State.highlightedIndex (state t)); reflexivity. }
  rewrite E1.
  destruct ((State.isOpen (f (state this)) && negb (State.isOpen (state this)))
            || open_forced_now (props this) (props this1)); cbn [snd];
    rewrite ?filter_app, ?S; cbn [flat_map callback app];
    rewrite ?app_nil_r;
    destruct (Bool.eqb (State.isOpen (state this)) (State.isOpen (f (state this))));
    reflexivity.
Qed.

(** The calls of a handler with a single [setState] that the caller's
    composed handler follows. *)
Lemma compose_setState (f : State.t -> State.t) (cb effs : list Effect)
  (this' : Autocomplete) (o : Outcome) (external : option Effect) :
  o = setState f cb this' effs ->
  {| self := self o; queue := queue o;
     effects := effects o ++ match external with
                             | Some call => [call]
                             | None => []
                             end |}
  = setState f cb this'
      (effs ++ match external with Some call => [call] | None => [] end).
Proof. intros E. subst o. reflexivity. Qed.

Lemma composeEventHandlers_outcome (internal : Autocomplete -> Outcome)
  (external : option Effect) (this : Autocomplete) :
  composeEventHandlers internal external this
  = {| self := self (internal this); queue := queue (internal this);
       effects := effects (internal this)
                  ++ match external with
                     | Some call => [call]
                     | None => []
                     end |}.
Proof.
  destruct external as [call|]; [reflexivity|]. cbn [composeEventHandlers].
  rewrite app_nil_r. destruct (internal this); reflexivity.
Qed.

(** The Enter key (key code 13) on an open menu, call by call.  With a
    highlight: [preventDefault], the caller's [onKeyDown] if supplied,
    [onMenuVisibilityChange(false)] if the state field [isOpen] was true,
    then the caret is put at the end of the selected display value, counted
    in UTF-16 code units, and [onSelect] is called.  Without a highlight:
    the caller's [onKeyDown] if supplied, the visibility callback if due,
    then [select()] on the input. *)
Theorem enter_calls_in_order (dom : Dom) (this : Autocomplete) :
  isOpen this = true ->
  snd (fire dom (KeyDown "Enter" 13) this) =
    let caller :=
      if Props.inputProps_onKeyDown (props this)
      then [InputOnKeyDown] else [] in
    match State.highlightedIndex (state this) with
    | Some h =>
        let item := item_at (view this) h in
        let value := Props.getItemValue (props this) item in
        let n := utf16_length value in
        [PreventDefault]
        ++ caller
        ++ (if State.isOpen (state this)
            then [OnMenuVisibilityChange false] else [])
        ++ [InputSetSelectionRange n n; OnSelect value item]
    | None =>
        caller
        ++ (if State.isOpen (state this)
            then [OnMenuVisibilityChange false] else [])
        ++ [InputSelect]
    end.
Proof.
  intros Ho. cbn [fire handler]. rewrite composeEventHandlers_outcome.
  change (handleKeyDown "Enter" 13 this) with (Enter 13 this).
  unfold Enter. cbn [Z.eqb Pos.eqb negb]. cbv zeta.
  change (isOpen (setIgnoreBlur false this)) with (isOpen this).
  rewrite Ho. cbn [negb state setIgnoreBlur props]. unfold view.
  destruct (State.highlightedIndex (state this)) as [h|] eqn:Eh.
  - pose proof (changed_items_sorted (props this)) as C.
    destruct (getFilteredItems (props this)) as [items p'].
    cbn [fst snd props with_props] in *.
    assert (G : Props.getItemValue p' = Props.getItemValue (props this))
      by (destruct C as [E _]; rewrite E; reflexivity).
    rewrite G. erewrite compose_setState by reflexivity.
    rewrite run_closing by reflexivity.
    destruct (Props.inputProps_onKeyDown (props this)); reflexivity.
  - erewrite compose_setState by reflexivity.
    rewrite run_closing by (cbn; auto).
    destruct (Props.inputProps_onKeyDown (props this)); reflexivity.
Qed.

(** A focus that is not to be ignored sets the state field [isOpen] and
    keeps the highlight.  The calls to the caller are [onFocus] if supplied
    and [onMenuVisibilityChange(true)] if [isOpen] was false; [onSelect] is
    not among them. *)
Theorem focus_opens (dom : Dom) (this : Autocomplete) :
  _ignoreFocus this = false ->
  let r := step dom Focus this in
  State.isOpen (state (fst r)) = true
  /\ State.highlightedIndex (state (fst r)) = State.highlightedIndex (state this)
  /\ filter is_caller_callback (snd r) =
       (if Props.inputProps_onFocus (props this) then [InputOnFocus] else [])
       ++ (if State.isOpen (state this)
           then [] else [OnMenuVisibilityChange true]).
Proof.
  intros Hf. cbv zeta. cbn [step]. unfold handleInputFocus. rewrite Hf.
  match goal with
  | |- context [run dom (setState ?f ?cb ?t ?e)] =>
      destruct (run_setState dom f cb e t) as (HO & HH & _ & _);
      pose proof (run_callbacks dom f cb e t) as HC
  end.
  rewrite HO, HH, HC. cbn [State.isOpen State.set_isOpen State.highlightedIndex].
  repeat split.
  destruct (Props.inputProps_onFocus (props this));
    destruct (State.isOpen (state this)); reflexivity.
Qed.

(** The scroll workaround, end to end: a blur while the ignore-blur flag is
    set, the focus that follows and the deferred callback after it scroll
    the window twice to the offset read at the blur; the state and the
    props are as before the blur, the ignore-focus flag is back to false
    and neither an offset nor a timer is left. *)
Theorem ignored_blur_restores_scroll (dom dom' dom'' : Dom)
  (this : Autocomplete) :
  _ignoreBlur this = true ->
  let r1 := step dom Blur this in
  let r2 := step dom' Focus (fst r1) in
  let r3 := step dom'' ScrollTimer (fst r2) in
  snd r2 = [ScrollTo (pageXOffset dom) (pageYOffset dom); ClearTimeout; SetTimeout]
  /\ snd r3 = [ScrollTo (pageXOffset dom) (pageYOffset dom)]
  /\ fst r3
     = with_scrollTimer None (with_scrollOffset None (with_ignoreFocus false this)).
Proof.
  intros Hb. cbv zeta. cbn [step]. unfold handleInputBlur. rewrite Hb.
  cbn. repeat split.
Qed.

(** A key for which the lookup in [keyDownHandlers] is empty.  With the
    menu shown it changes nothing, and all that is called is the caller's
    [onKeyDown], if supplied.  Otherwise it sets the state field [isOpen]
    and keeps the highlight, and the calls to the caller are [onKeyDown] if
    supplied, then [onMenuVisibilityChange(true)] if the field was false. *)
Theorem other_key_opens (dom : Dom) (key : string) (keyCode : Z)
  (this : Autocomplete) :
  is_handled_key key = false ->
  is_inherited_name key = false ->
  let r := fire dom (KeyDown key keyCode) this in
  let caller :=
    if Props.inputProps_onKeyDown (props this)
    then [InputOnKeyDown] else [] in
  if isOpen this then r = (this, caller)
  else State.isOpen (state (fst r)) = true
       /\ State.highlightedIndex (state (fst r))
          = State.highlightedIndex (state this)
       /\ filter is_caller_callback (snd r) =
            caller
            ++ (if State.isOpen (state this)
                then [] else [OnMenuVisibilityChange true]).
Proof.
  unfold is_handled_key. intros Hk _.
  repeat (apply orb_false_iff in Hk; destruct Hk as [Hk ?]).
  cbv zeta. cbn [fire handler]. rewrite composeEventHandlers_outcome.
  unfold handleKeyDown.
  rewrite Hk, H, H0, H1, H2.
  destruct (isOpen this); cbn [negb].
  { unfold run; cbn [done self queue effects app].
    destruct (Props.inputProps_onKeyDown (props this)); reflexivity. }
  erewrite compose_setState by reflexivity.
  match goal with
  | |- context [run dom (setState ?f ?cb ?t ?e)] =>
      destruct (run_setState dom f cb e t) as (HO & HH & _ & _);
      pose proof (run_callbacks dom f cb e t) as HC
  end.
  rewrite HO, HH, HC. cbn [State.isOpen State.set_isOpen State.highlightedIndex].
  repeat split.
  destruct (Props.inputProps_onKeyDown (props this));
    destruct (State.isOpen (state this)); reflexivity.
Qed.

(** A click on the input opens the menu only if the input has the focus and
    the menu is not shown: the state field [isOpen] is set, the highlight
    is kept, and the calls to the caller are [onClick] if supplied, then
    [onMenuVisibilityChange(true)] if the field was false.  Otherwise
    nothing changes, and all that is called is the caller's [onClick], if
    supplied. *)
Theorem input_click_opens (dom : Dom) (this : Autocomplete) :
  let r := fire dom Click this in
  let caller :=
    if Props.inputProps_onClick (props this) then [InputOnClick] else [] in
  if inputIsFocused dom && negb (isOpen this)
  then State.isOpen (state (fst r)) = true
       /\ State.highlightedIndex (state (fst r))
          = State.highlightedIndex (state this)
       /\ filter is_caller_callback (snd r) =
            caller
            ++ (if State.isOpen (state this)
                then [] else [OnMenuVisibilityChange true])
  else r = (this, caller).
Proof.
  cbv zeta. cbn [fire handler]. rewrite composeEventHandlers_outcome.
  unfold handleInputClick.
  destruct (inputIsFocused dom && negb (isOpen this)).
  2:{ unfold run; cbn [done self queue effects app].
      destruct (Props.inputProps_onClick (props this)); reflexivity. }
  erewrite compose_setState by reflexivity.
  match goal with
  | |- context [run dom (setState ?f ?cb ?t ?e)] =>
      destruct (run_setState dom f cb e t) as (HO & HH & _ & _);
      pose proof (run_callbacks dom f cb e t) as HC
  end.
  rewrite HO, HH, HC. cbn [State.isOpen State.set_isOpen State.highlightedIndex].
  repeat split.
  destruct (Props.inputProps_onClick (props this));
    destruct (State.isOpen (state this)); reflexivity.
Qed.

(** The pointer over a menu item highlights it only if the menu is rendered
    and the item is one of it and selectable, and then nothing else of the
    state changes and the caller is not called; a click or a pointer-enter
    on any other item does nothing at all. *)
Theorem mouse_reaches_selectable_only (dom : Dom) (index : Z)
  (this : Autocomplete) :
  let enter := step dom (ItemMouseEnter index) this in
  let click := step dom (ItemClick index) this in
  match refs_menu this with
  | Some items =>
      if in_range index items
         && Props.isItemSelectable (props this) (item_at items index)
      then State.highlightedIndex (state (fst enter)) = Some index
           /\ State.isOpen (state (fst enter)) = State.isOpen (state this)
           /\ geometry (state (fst enter)) = geometry (state this)
           /\ filter is_caller_callback (snd enter) = []
      else enter = (this, []) /\ click = (this, [])
  | None => enter = (this, []) /\ click = (this, [])
  end.
Proof.
  cbv zeta. cbn [step].
  destruct (refs_menu this) as [items|]; [|split; reflexivity].
  destruct (in_range index items && _); [|split; reflexivity].
  unfold highlightItemFromMouse.
  match goal with
  | |- context [run dom (setState ?f ?cb ?t ?e)] =>
      destruct (run_setState dom f cb e t) as (HO & HH & _ & _);
      pose proof (run_callbacks dom f cb e t) as HC;
      pose proof (update_geometry dom (props t)
                    [{| updater := merge f; callback := cb |}] t) as HG
  end.
  rewrite HO, HH, HC.
  cbn [State.isOpen State.set_highlightedIndex State.highlightedIndex].
  rewrite Bool.eqb_reflx. repeat split.
  unfold run, setState; cbn [queue self effects].
  cbv zeta in HG.
  assert (Q : Forall calm
                [{| updater := merge (State.set_highlightedIndex (Some index));
                    callback := [] |}]).
  { constructor; [apply calm_merge; reflexivity|constructor]. }
  specialize (HG Q).
  pose proof (update_props dom (props this) _ this Q) as C.
  pose proof (update_state dom (props this)
                [{| updater := merge (State.set_highlightedIndex (Some index));
                    callback := [] |}] this) as [US _].
  destruct (update dom (props this) _ this) as [t effs]. cbn [fst] in *.
  rewrite (open_forced_now_same _ _ (changed_items_open _ _ C)) in HG.
  cbn in US. rewrite US in HG.
  destruct (State.isOpen (state this)); exact HG.
Qed.

(** A change of props with auto-highlight off, or with the value unchanged
    while a highlight exists, keeps the highlight if it still indexes the
    new view and drops it otherwise; the state field [isOpen] is kept. *)
Theorem props_change_keeps_valid_highlight (dom : Dom) (nextProps : Props.t)
  (this : Autocomplete) :
  Props.autoHighlight nextProps = false
  \/ (Props.value (props this) = Props.value nextProps
      /\ State.highlightedIndex (state this) <> None) ->
  let this' := fst (step dom (ReceiveProps nextProps) this) in
  State.highlightedIndex (state this') =
    match State.highlightedIndex (state this) with
    | Some h =>
        if h >=? len (fst (getFilteredItems nextProps)) then None else Some h
    | None => None
    end
  /\ State.isOpen (state this') = State.isOpen (state this).
Proof.
  intros Hc. cbv zeta. rewrite step_ReceiveProps.
  destruct (update_state dom (props this)
              (queue (componentWillReceiveProps nextProps this))
              (with_props nextProps this)) as [UO UH].
  rewrite UO, UH. cbn [state props with_props].
  unfold componentWillReceiveProps; cbn [queue].
  assert (Cond : Props.autoHighlight nextProps
                 && (negb (Props.value (props this) =? Props.value nextProps)%string
                     || match State.highlightedIndex (state this) with
                        | None => true | Some _ => false end) = false).
  { destruct Hc as [A|[V N]].
    - rewrite A. reflexivity.
    - rewrite V, String.eqb_refl.
      destruct (State.highlightedIndex (state this)); [|congruence].
      apply andb_false_r. }
  rewrite Cond, app_nil_r.
  destruct (State.highlightedIndex (state this)) as [h|] eqn:Eh.
  - cbn [applyQueue fold_left updater fst snd].
    unfold ensureHighlightedIndex.
    destruct (getFilteredItems nextProps) as [items p']. cbn [fst].
    rewrite Eh. cbn [to_number].
    destruct (h >=? len items); cbn [fst]; rewrite ?Eh; split; reflexivity.
  - cbn [applyQueue fold_left fst]. rewrite Eh. split; reflexivity.
Qed.

(** ** The arrow keys from a highlight *)

Lemma arrowDown_loop_search (sel : ItemT -> bool) (items : list ItemT) (n : nat) :
  forall index i,
    (exists k, i <= k < i + Z.of_nat n
       /\ sel (item_at items (Z.rem (index + k + 1) (len items))) = true
       /\ (forall j, i <= j < k ->
             sel (item_at items (Z.rem (index + j + 1) (len items))) = false)
       /\ arrowDown_loop sel items index i n = Z.rem (index + k + 1) (len items))
    \/ ((forall j, i <= j < i + Z.of_nat n ->
           sel (item_at items (Z.rem (index + j + 1) (len items))) = false)
        /\ arrowDown_loop sel items index i n = index).
Proof.
  induction n as [|n IH]; intros index i; cbn [arrowDown_loop]; cbv zeta.
  - right. split; [intros j Hj; lia|reflexivity].
  - destruct (sel (item_at items (Z.rem (index + i + 1) (len items)))) eqn:S.
    + left. exists i. repeat split; try lia; try assumption.
    + destruct (IH index (i + 1)) as [(k & Hk & Hy & Hn & Hl)|[Hn Hl]].
      * left. exists k. repeat split; try lia; try assumption.
        intros j Hj. destruct (Z.eq_dec j i) as [->|Ne]; [exact S|].
        apply Hn. lia.
      * right. split; [|exact Hl].
        intros j Hj. destruct (Z.eq_dec j i) as [->|Ne]; [exact S|].
        apply Hn. lia.
Qed.

Lemma arrowUp_loop_search (sel : ItemT -> bool) (items : list ItemT) (n : nat) :
  forall index i,
    (exists k, i <= k < i + Z.of_nat n
       /\ sel (item_at items (Z.rem (index - (1 + k) + len items) (len items)))
          = true
       /\ (forall j, i <= j < k ->
             sel (item_at items (Z.rem (index - (1 + j) + len items) (len items)))
             = false)
       /\ arrowUp_loop sel items index i n
          = Z.rem (index - (1 + k) + len items) (len items))
    \/ ((forall j, i <= j < i + Z.of_nat n ->
           sel (item_at items (Z.rem (index - (1 + j) + len items) (len items)))
           = false)
        /\ arrowUp_loop sel items index i n = index).
Proof.
  induction n as [|n IH]; intros index i; cbn [arrowUp_loop]; cbv zeta.
  - right. split; [intros j Hj; lia|reflexivity].
  - destruct (sel (item_at items
                     (Z.rem (index - (1 + i) + len items) (len items)))) eqn:S.
    + left. exists i. repeat split; try lia; try assumption.
    + destruct (IH index (i + 1)) as [(k & Hk & Hy & Hn & Hl)|[Hn Hl]].
      * left. exists k. repeat split; try lia; try assumption.
        intros j Hj. destruct (Z.eq_dec j i) as [->|Ne]; [exact S|].
        apply Hn. lia.
      * right. split; [|exact Hl].
        intros j Hj. destruct (Z.eq_dec j i) as [->|Ne]; [exact S|].
        apply Hn. lia.
Qed.

(** The position [ArrowUp] tries in round [j], from a highlight [h]. *)
Lemma arrowUp_position_from (items : list ItemT) (h j : Z) :
  0 <= h -> 0 <= j < len items ->
  Z.rem (h - (1 + j) + len items) (len items) = (h - 1 - j) mod len items.
Proof.
  intros Hh Hj. rewrite Z.rem_mod_nonneg by lia.
  replace (h - (1 + j) + len items) with (h - 1 - j + 1 * len items) by lia.
  apply Z.mod_add. lia.
Qed.

Lemma ArrowDown_highlight (dom : Dom) (this : Autocomplete) (k : Z) :
  highlight_in_view this ->
  let s := match State.highlightedIndex (state this) with
           | None => -1 | Some h => h end in
  0 <= k < len (view this) ->
  Props.isItemSelectable (props this)
    (item_at (view this) ((s + 1 + k) mod len (view this))) = true ->
  (forall j, 0 <= j < k ->
     Props.isItemSelectable (props this)
       (item_at (view this) ((s + 1 + j) mod len (view this))) = false) ->
  State.highlightedIndex (state (fst (run dom (ArrowDown this))))
  = Some ((s + 1 + k) mod len (view this)).
Proof.
  intros Hh s Hk Hyes Hno.
  assert (Hs : -1 <= s).
  { unfold s. unfold highlight_in_view in Hh.
    destruct (State.highlightedIndex (state this)); lia. }
  assert (R : forall j, 0 <= j ->
            Z.rem (s + j + 1) (len (view this)) = (s + 1 + j) mod len (view this)).
  { intros j Hj. rewrite Z.rem_mod_nonneg by lia. f_equal. lia. }
  assert (L : arrowDown_loop (Props.isItemSelectable (props this)) (view this)
                s 0 (List.length (view this))
              = (s + 1 + k) mod len (view this)).
  { rewrite <- R by lia. apply arrowDown_loop_first.
    - unfold len in Hk. lia.
    - rewrite R by lia. exact Hyes.
    - intros j Hj. rewrite R by lia. apply Hno. lia. }
  assert (B : 0 <= (s + 1 + k) mod len (view this)).
  { apply Z.mod_pos_bound. lia. }
  rewrite ArrowDown_unfold. cbv zeta. fold s. rewrite L.
  destruct (Z.eqb_spec (len (view this)) 0) as [Hz|Hz]; [lia|].
  replace ((s + 1 + k) mod len (view this) >? -1) with true
    by (symmetry; apply Z.gtb_lt; lia).
  cbn [andb].
  destruct (same_index ((s + 1 + k) mod len (view this))
              (State.highlightedIndex (state this))) eqn:T; cbn [negb].
  - cbn [run done queue self fst state with_props].
    destruct (State.highlightedIndex (state this)) as [h|]; [|discriminate T].
    cbn [same_index] in T. apply Z.eqb_eq in T. rewrite T. reflexivity.
  - match goal with
    | |- context [run dom (setState ?f ?cb ?t ?e)] =>
        destruct (run_setState dom f cb e t) as (_ & HH & _ & _)
    end.
    rewrite HH. reflexivity.
Qed.

Lemma ArrowUp_highlight (dom : Dom) (this : Autocomplete) (h k : Z) :
  highlight_in_view this ->
  State.highlightedIndex (state this) = Some h ->
  0 <= k < len (view this) ->
  Props.isItemSelectable (props this)
    (item_at (view this) ((h - 1 - k) mod len (view this))) = true ->
  (forall j, 0 <= j < k ->
     Props.isItemSelectable (props this)
       (item_at (view this) ((h - 1 - j) mod len (view this))) = false) ->
  State.highlightedIndex (state (fst (run dom (ArrowUp this))))
  = Some ((h - 1 - k) mod len (view this))
  /\ State.isOpen (state (fst (run dom (ArrowUp this)))) = true.
Proof.
  intros Hh Eh Hk Hyes Hno.
  unfold highlight_in_view in Hh. rewrite Eh in Hh.
  assert (L : arrowUp_loop (Props.isItemSelectable (props this)) (view this)
                h 0 (List.length (view this))
              = (h - 1 - k) mod len (view this)).
  { rewrite <- arrowUp_position_from by lia. apply arrowUp_loop_first.
    - unfold len in Hk. lia.
    - rewrite arrowUp_position_from by lia. exact Hyes.
    - intros j Hj. rewrite arrowUp_position_from by lia. apply Hno. lia. }
  assert (B : 0 <= (h - 1 - k) mod len (view this) < len (view this)).
  { apply Z.mod_pos_bound. lia. }
  rewrite ArrowUp_unfold. cbv zeta. rewrite Eh, L.
  destruct (Z.eqb_spec (len (view this)) 0) as [Hz|Hz]; [lia|].
  replace ((h - 1 - k) mod len (view this) =? len (view this)) with false
    by (symmetry; apply Z.eqb_neq; lia).
  cbn [negb].
  match goal with
  | |- context [run dom (setState ?f ?cb ?t ?e)] =>
      destruct (run_setState dom f cb e t) as (HO & HH & _ & _)
  end.
  rewrite HO, HH. split; reflexivity.
Qed.

(** The ArrowUp key with a highlight at [h]: the menu is opened in every
    case.  Counting positions circularly backwards from the one before
    [h], the highlight becomes the first selectable position met, which is
    [h] itself when no other item is selectable; when no item at all is
    selectable the highlight stays at [h]. *)
Theorem ArrowUp_previous_selectable (dom : Dom) (keyCode : Z)
  (this : Autocomplete) (h : Z) :
  highlight_in_view this ->
  State.highlightedIndex (state this) = Some h ->
  let items := view this in
  let sel := Props.isItemSelectable (props this) in
  let this' := fst (step dom (KeyDown "ArrowUp" keyCode) this) in
  State.isOpen (state this') = true
  /\ ((forall x, In x items -> sel x = false) ->
      State.highlightedIndex (state this') = Some h)
  /\ (forall k, 0 <= k < len items ->
        sel (item_at items ((h - 1 - k) mod len items)) = true ->
        (forall j, 0 <= j < k ->
           sel (item_at items ((h - 1 - j) mod len items)) = false) ->
        State.highlightedIndex (state this') = Some ((h - 1 - k) mod len items)).
Proof.
  intros Hh Eh. cbv zeta.
  change (step dom (KeyDown "ArrowUp" keyCode) this) with (run dom (ArrowUp this)).
  assert (Hr : 0 <= h < len (view this))
    by (unfold highlight_in_view in Hh; rewrite Eh in Hh; exact Hh).
  assert (Hn : 0 + Z.of_nat (List.length (view this)) <= len (view this))
    by (unfold len; lia).
  assert (Hpos : 0 < len (view this)) by lia.
  pose proof (arrowUp_loop_range (Props.isItemSelectable (props this)) (view this)
                (List.length (view this)) h 0 Hpos (proj1 Hr) (Z.le_refl 0) Hn)
    as Range.
  split; [|split].
  - rewrite ArrowUp_unfold. cbv zeta. rewrite Eh.
    destruct (Z.eqb_spec (len (view this)) 0) as [Hz|Hz]; [lia|].
    replace (arrowUp_loop (Props.isItemSelectable (props this)) (view this) h 0
               (List.length (view this)) =? len (view this)) with false
      by (symmetry; apply Z.eqb_neq; lia).
    cbn [negb].
    match goal with
    | |- context [run dom (setState ?f ?cb ?t ?e)] =>
        destruct (run_setState dom f cb e t) as (HO & _ & _ & _)
    end.
    rewrite HO. reflexivity.
  - intros Hno.
    rewrite ArrowUp_unfold. cbv zeta. rewrite Eh.
    destruct (Z.eqb_spec (len (view this)) 0) as [Hz|Hz]; [lia|].
    rewrite arrowUp_loop_none.
    + replace (h =? len (view this)) with false
        by (symmetry; apply Z.eqb_neq; lia).
      cbn [negb].
      match goal with
      | |- context [run dom (setState ?f ?cb ?t ?e)] =>
          destruct (run_setState dom f cb e t) as (_ & HH & _ & _)
      end.
      rewrite HH. reflexivity.
    + intros j Hj. apply Hno, item_at_In.
      rewrite arrowUp_position_from by (unfold len in *; lia).
      apply Z.mod_pos_bound. lia.
  - intros k Hk Hyes Hno.
    apply (ArrowUp_highlight dom this h k); assumption.
Qed.

(** An arrow key never moves the highlight onto an item that is not
    selectable: after ArrowDown or ArrowUp the highlight is the one before
    or a position of the view whose item is selectable. *)
Theorem arrows_land_on_selectable (dom : Dom) (keyCode : Z)
  (this : Autocomplete) :
  highlight_in_view this ->
  let items := view this in
  let sel := Props.isItemSelectable (props this) in
  let landed (this' : Autocomplete) :=
    State.highlightedIndex (state this') = State.highlightedIndex (state this)
    \/ exists p, State.highlightedIndex (state this') = Some p
                 /\ 0 <= p < len items /\ sel (item_at items p) = true in
  landed (fst (step dom (KeyDown "ArrowDown" keyCode) this))
  /\ landed (fst (step dom (KeyDown "ArrowUp" keyCode) this)).
Proof.
  intros Hh. cbv zeta.
  change (step dom (KeyDown "ArrowDown" keyCode) this)
    with (run dom (ArrowDown this)).
  change (step dom (KeyDown "ArrowUp" keyCode) this) with (run dom (ArrowUp this)).
  pose proof (len_nonneg (view this)) as Hl.
  split.
  - rewrite ArrowDown_unfold. cbv zeta.
    destruct (Z.eqb_spec (len (view this)) 0) as [Hz|Hz]; [left; reflexivity|].
    set (s := match State.highlightedIndex (state this) with
              | None => -1 | Some h => h end).
    set (r := arrowDown_loop _ (view this) s 0 _).
    destruct ((r >? -1) && negb (same_index r (State.highlightedIndex (state this))))
      eqn:T; [|left; reflexivity].
    apply andb_true_iff in T. destruct T as [T1 T2]. apply negb_true_iff in T2.
    assert (Hs : -1 <= s).
    { unfold s. unfold highlight_in_view in Hh.
      destruct (State.highlightedIndex (state this)); lia. }
    right. exists r.
    match goal with
    | |- context [run dom (setState ?f ?cb ?t ?e)] =>
        destruct (run_setState dom f cb e t) as (_ & HH & _ & _)
    end.
    rewrite HH. split; [reflexivity|].
    destruct (arrowDown_loop_search (Props.isItemSelectable (props this))
                (view this) (List.length (view this)) s 0)
      as [(k & Hk & Hy & _ & Hr)|[_ Hr]]; fold r in Hr.
    + rewrite Hr. split; [apply Z.rem_bound_pos; lia|exact Hy].
    + exfalso. unfold s in Hr.
      destruct (State.highlightedIndex (state this)) as [h|].
      * cbn [same_index] in T2. rewrite Hr, Z.eqb_refl in T2. discriminate.
      * rewrite Hr in T1. discriminate.
  - rewrite ArrowUp_unfold. cbv zeta.
    destruct (Z.eqb_spec (len (view this)) 0) as [Hz|Hz]; [left; reflexivity|].
    set (s := match State.highlightedIndex (state this) with
              | None => len (view this) | Some h => h end).
    set (r := arrowUp_loop _ (view this) s 0 _).
    destruct (negb (r =? len (view this))) eqn:T; [|left; reflexivity].
    apply negb_true_iff in T. apply Z.eqb_neq in T.
    match goal with
    | |- context [run dom (setState ?f ?cb ?t ?e)] =>
        destruct (run_setState dom f cb e t) as (_ & HH & _ & _)
    end.
    rewrite HH. cbn [State.highlightedIndex State.set_isOpen State.set_highlightedIndex].
    assert (Hs : 0 <= s <= len (view this)).
    { unfold s. unfold highlight_in_view in Hh.
      destruct (State.highlightedIndex (state this)); lia. }
    destruct (arrowUp_loop_search (Props.isItemSelectable (props this))
                (view this) (List.length (view this)) s 0)
      as [(k & Hk & Hy & _ & Hr)|[_ Hr]]; fold r in Hr.
    + right. exists r. split; [reflexivity|].
      rewrite Hr. split; [|exact Hy].
      apply Z.rem_bound_pos; unfold len in *; lia.
    + left. rewrite Hr. unfold s in *.
      destruct (State.highlightedIndex (state this)) as [h|]; [reflexivity|].
      exfalso. apply T. exact Hr.
Qed.

(** ArrowDown from a selectable highlighted item and then ArrowUp bring the
    highlight back to that item, when [getFilteredItems] leaves
    [props.items] alone. *)
Theorem ArrowDown_then_ArrowUp (dom dom' : Dom) (keyCode keyCode' : Z)
  (this : Autocomplete) (h : Z) :
  highlight_in_view this ->
  State.highlightedIndex (state this) = Some h ->
  Props.isItemSelectable (props this) (item_at (view this) h) = true ->
  Props.shouldItemRender (props this) <> None
  \/ Props.sortItems (props this) = None ->
  State.highlightedIndex
    (state (fst (step dom' (KeyDown "ArrowUp" keyCode')
                   (fst (step dom (KeyDown "ArrowDown" keyCode) this)))))
  = Some h.
Proof.
  intros Hh Eh Hsel Fr.
  assert (Hr : 0 <= h < len (view this))
    by (unfold highlight_in_view in Hh; rewrite Eh in Hh; exact Hh).
  set (n := len (view this)) in *.
  assert (R : forall j, 0 <= j ->
            Z.rem (h + j + 1) n = (h + 1 + j) mod n).
  { intros j Hj. rewrite Z.rem_mod_nonneg by lia. f_equal. lia. }
  destruct (arrowDown_loop_search (Props.isItemSelectable (props this))
              (view this) (List.length (view this)) h 0)
    as [(k & Hk & Hy & Hn & _)|[Hn _]].
  2:{ exfalso. specialize (Hn (n - 1)). fold n in Hn.
      rewrite R in Hn by lia.
      replace (h + 1 + (n - 1)) with (h + 1 * n) in Hn by lia.
      rewrite Z.mod_add, Z.mod_small in Hn by lia.
      rewrite Hn in Hsel; [discriminate|unfold n, len in *; lia]. }
  fold n in Hy, Hn. rewrite R in Hy by lia.
  assert (Hk' : 0 <= k < n) by (unfold n, len in *; lia).
  assert (Hn' : forall j, 0 <= j < k ->
            Props.isItemSelectable (props this)
              (item_at (view this) ((h + 1 + j) mod n)) = false).
  { intros j Hj. rewrite <- R by lia. apply Hn. lia. }
  set (p := (h + 1 + k) mod n) in *.
  set (t := fst (step dom (KeyDown "ArrowDown" keyCode) this)).
  assert (Ht : State.highlightedIndex (state t) = Some p).
  { pose proof (ArrowDown_highlight dom this k Hh) as D. cbv zeta in D.
    rewrite Eh in D. fold n in D. apply D; assumption. }
  assert (Pt : props t = props this).
  { destruct (step_changed_items dom (KeyDown "ArrowDown" keyCode) this)
      as (_ & _ & F). apply F, Fr. }
  assert (Vt : view t = view this) by (unfold view; rewrite Pt; reflexivity).
  assert (Bp : 0 <= p < n) by (apply Z.mod_pos_bound; lia).
  assert (Hht : highlight_in_view t).
  { unfold highlight_in_view. rewrite Ht, Vt. exact Bp. }
  assert (Back : forall j, (p - 1 - j) mod n = (h + k - j) mod n).
  { intros j. unfold p.
    replace ((h + 1 + k) mod n - 1 - j) with ((h + 1 + k) mod n - (1 + j)) by lia.
    rewrite Zminus_mod_idemp_l. f_equal. lia. }
  change (step dom' (KeyDown "ArrowUp" keyCode') t) with (run dom' (ArrowUp t)).
  destruct (ArrowUp_highlight dom' t p k Hht Ht) as [U _].
  - rewrite Vt. exact Hk'.
  - rewrite Vt, Pt. fold n. rewrite Back.
    replace (h + k - k) with h by lia. rewrite Z.mod_small by lia. exact Hsel.
  - intros j Hj. rewrite Vt, Pt. fold n. rewrite Back.
    replace (h + k - j) with (h + 1 + (k - 1 - j)) by lia.
    apply Hn'. lia.
  - rewrite U, Vt. fold n. rewrite Back.
    replace (h + k - k) with h by lia. rewrite Z.mod_small by lia. reflexivity.
Qed.

(** ** The item passed to [onSelect] *)

Lemma OnSelect_of_Enter (dom : Dom) (this : Autocomplete) :
  filter is_OnSelect (snd (step dom (KeyDown "Enter" 13) this)) =
    if isOpen this then
      match State.highlightedIndex (state this) with
      | Some h =>
          [OnSelect (Props.getItemValue (props this) (item_at (view this) h))
             (item_at (view this) h)]
      | None => []
      end
    else [].
Proof.
  change (step dom (KeyDown "Enter" 13) this) with (run dom (Enter 13 this)).
  rewrite run_OnSelect. unfold Enter. cbn [Z.eqb Pos.eqb negb]. cbv zeta.
  change (isOpen (setIgnoreBlur false this)) with (isOpen this).
  destruct (isOpen this); cbn [negb]; [|reflexivity].
  cbn [state setIgnoreBlur props]. unfold view.
  destruct (State.highlightedIndex (state this)) as [h|]; [|reflexivity].
  pose proof (changed_items_sorted (props this)) as C.
  destruct (getFilteredItems (props this)) as [items p'].
  cbn [fst snd props with_props] in *.
  assert (G : Props.getItemValue p' = Props.getItemValue (props this))
    by (destruct C as [E _]; rewrite E; reflexivity).
  rewrite G. reflexivity.
Qed.

Lemma OnSelect_of_Blur (dom : Dom) (this : Autocomplete) :
  filter is_OnSelect (snd (step dom Blur this)) =
    if _ignoreBlur this then []
    else match State.highlightedIndex (state this) with
         | Some h =>
             if Props.selectOnBlur (props this)
             then [OnSelect
                     (Props.getItemValue (props this) (item_at (view this) h))
                     (item_at (view this) h)]
             else []
         | None => []
         end.
Proof.
  cbn [step]. rewrite run_OnSelect. unfold handleInputBlur.
  destruct (_ignoreBlur this); [reflexivity|]. cbv zeta. unfold view.
  destruct (State.highlightedIndex (state this)) as [h|].
  - destruct (Props.selectOnBlur (props this)).
    + pose proof (changed_items_sorted (props this)) as C.
      destruct (getFilteredItems (props this)) as [items p'].
      cbn [fst snd props with_props] in *.
      assert (G : Props.getItemValue p' = Props.getItemValue (props this))
        by (destruct C as [E _]; rewrite E; reflexivity).
      rewrite G.
      destruct (Props.inputProps_onBlur p'); reflexivity.
    + destruct (Props.inputProps_onBlur (props this)); reflexivity.
  - destruct (Props.inputProps_onBlur (props this)); reflexivity.
Qed.

(** In a state whose highlight indexes the view, the item that the Enter
    key or a blur passes to [onSelect] is the highlighted item of the view,
    a member of the view and never [undefined] read past its end, and the
    value passed is its display value. *)
Theorem selected_item_is_highlighted (dom : Dom) (this : Autocomplete)
  (v : string) (item : ItemT) :
  highlight_in_view this ->
  In (OnSelect v item) (snd (step dom (KeyDown "Enter" 13) this))
  \/ In (OnSelect v item) (snd (step dom Blur this)) ->
  exists h, State.highlightedIndex (state this) = Some h
            /\ item = item_at (view this) h
            /\ In item (view this)
            /\ v = Props.getItemValue (props this) item.
Proof.
  intros Hh Hin.
  assert (F : In (OnSelect v item)
                (match State.highlightedIndex (state this) with
                 | Some h =>
                     [OnSelect
                        (Props.getItemValue (props this) (item_at (view this) h))
                        (item_at (view this) h)]
                 | None => []
                 end)).
  { destruct Hin as [Hin|Hin].
    - assert (Hf : In (OnSelect v item)
                     (filter is_OnSelect
                        (snd (step dom (KeyDown "Enter" 13) this))))
        by (apply filter_In; split; [exact Hin|reflexivity]).
      rewrite OnSelect_of_Enter in Hf.
      destruct (isOpen this); [exact Hf|destruct Hf].
    - assert (Hf : In (OnSelect v item)
                     (filter is_OnSelect (snd (step dom Blur this))))
        by (apply filter_In; split; [exact Hin|reflexivity]).
      rewrite OnSelect_of_Blur in Hf.
      destruct (_ignoreBlur this); [destruct Hf|].
      destruct (State.highlightedIndex (state this)); [|destruct Hf].
      destruct (Props.selectOnBlur (props this)); [exact Hf|destruct Hf]. }
  unfold highlight_in_view in Hh.
  destruct (State.highlightedIndex (state this)) as [h|]; [|destruct F].
  destruct F as [F|[]]. inversion F; subst.
  exists h. repeat split. apply item_at_In, Hh.
Qed.

(** ** The pointer, Tab and the blur that follows *)

Lemma Blur_state (dom : Dom) (this : Autocomplete) :
  _ignoreBlur this = false ->
  State.isOpen (state (fst (step dom Blur this))) = false
  /\ State.highlightedIndex (state (fst (step dom Blur this))) = None.
Proof.
  intros Hb. cbn [step]. unfold handleInputBlur. rewrite Hb. cbv zeta.
  destruct (State.highlightedIndex (state this)) as [h|];
    [destruct (Props.selectOnBlur (props this));
     [destruct (getFilteredItems (props this)) as [items p']|]|];
    match goal with
    | |- context [run dom (setState ?f ?cb ?t ?e)] =>
        destruct (run_setState dom f cb e t) as (HO & HH & _ & _)
    end;
    rewrite HO, HH; split; reflexivity.
Qed.

(** While the pointer or a touch is on the rendered menu a blur is ignored:
    state, props and menu stay and the input is focused again.  Once the
    pointer has left, the blur closes the menu and clears the highlight. *)
Theorem pointer_guards_blur (dom dom' : Dom) (this : Autocomplete)
  (m : list ItemT) :
  refs_menu this = Some m ->
  let ignored (e : Event) :=
    let r := step dom' Blur (fst (step dom e this)) in
    state (fst r) = state this /\ props (fst r) = props this
    /\ refs_menu (fst r) = Some m /\ snd r = [InputFocus] in
  let left := fst (step dom' Blur (fst (step dom MenuMouseLeave this))) in
  ignored MenuMouseEnter /\ ignored MenuTouchStart
  /\ State.isOpen (state left) = false
  /\ State.highlightedIndex (state left) = None.
Proof.
  intros Hm. cbv zeta. split; [|split].
  - cbn [step]. rewrite Hm. cbn. rewrite Hm. repeat split.
  - cbn [step]. rewrite Hm. cbn. rewrite Hm. repeat split.
  - apply Blur_state. cbn [step]. rewrite Hm. reflexivity.
Qed.

(** The Tab key changes neither state nor props, and all that is called is
    the caller's [onKeyDown], if supplied; but the blur that follows it is
    never ignored: it closes the menu and clears the highlight even if the
    pointer was on the menu. *)
Theorem tab_then_blur_closes (dom dom' : Dom) (keyCode : Z)
  (this : Autocomplete) :
  let r := fire dom (KeyDown "Tab" keyCode) this in
  let r' := fire dom' Blur (fst r) in
  snd r = (if Props.inputProps_onKeyDown (props this)
           then [InputOnKeyDown] else [])
  /\ state (fst r) = state this
  /\ props (fst r) = props this
  /\ State.isOpen (state (fst r')) = false
  /\ State.highlightedIndex (state (fst r')) = None.
Proof.
  cbv zeta. rewrite !fire_fst.
  split; [|split; [reflexivity|]; split; [reflexivity|];
           apply Blur_state; reflexivity].
  cbn [fire handler]. rewrite composeEventHandlers_outcome.
  destruct (Props.inputProps_onKeyDown (props this)); reflexivity.
Qed.

(** ** The view under [sortItems] *)

Lemma filter_all (f : ItemT -> bool) (l : list ItemT) :
  Forall (fun x => f x = true) l -> filter f l = l.
Proof.
  induction 1 as [|x l Hx _ IH]; simpl; [reflexivity|].
  rewrite Hx, IH. reflexivity.
Qed.

Lemma filter_none (f : ItemT -> bool) (l : list ItemT) :
  Forall (fun x => f x = false) l -> filter f l = [].
Proof.
  induction 1 as [|x l Hx _ IH]; simpl; [reflexivity|].
  rewrite Hx, IH. reflexivity.
Qed.

Lemma filter_Forall (f : ItemT -> bool) (l : list ItemT) :
  Forall (fun x => f x = true) (filter f l).
Proof.
  induction l as [|x l IH]; simpl; [constructor|].
  destruct (f x) eqn:E; [constructor; assumption|assumption].
Qed.

(** The view holds the kept items, each as often as [props.items] does,
    whether or not a comparator reorders them. *)
Theorem view_permutation_of_kept (p : Props.t) :
  Permutation (filter (keeps p) (Props.items p)) (fst (getFilteredItems p)).
Proof.
  unfold getFilteredItems, keeps.
  destruct (Props.shouldItemRender p) as [f|];
    destruct (Props.sortItems p) as [cmp|]; cbn [fst];
    rewrite ?(filter_all (fun _ => true)) by (apply Forall_forall; reflexivity);
    try apply Permutation_refl; apply js_sort_perm.
Qed.

Lemma consistent_total (cmp : ItemT -> ItemT -> Z) :
  consistent cmp -> total cmp.
Proof.
  intros (R & _ & _ & _ & G) a b Hab.
  destruct (Z.le_gt_cases (cmp b a) 0) as [H|H]; [exact H|].
  pose proof (G a b a Hab H) as Haa. rewrite R in Haa. lia.
Qed.

Lemma sort_insert_ordered (cmp : ItemT -> ItemT -> Z) (x : ItemT)
  (l : list ItemT) :
  total cmp -> ordered cmp l = true -> ordered cmp (sort_insert cmp x l) = true.
Proof.
  intros T. induction l as [|y t IH]; intros O; cbn [sort_insert].
  - reflexivity.
  - destruct (Z.leb_spec (cmp x y) 0) as [Hle|Hgt].
    + cbn [ordered]. apply andb_true_iff. split; [apply Z.leb_le, Hle|exact O].
    + assert (Ot : ordered cmp t = true).
      { destruct t; [reflexivity|]. cbn [ordered] in O.
        apply andb_true_iff in O. tauto. }
      specialize (IH Ot).
      destruct t as [|z t']; cbn [sort_insert] in *.
      * cbn [ordered]. rewrite andb_true_r. apply Z.leb_le, T, Hgt.
      * cbn [ordered] in O. apply andb_true_iff in O. destruct O as [Oyz _].
        destruct (cmp x z <=? 0); cbn [ordered];
          apply andb_true_iff; split; try exact IH.
        -- apply Z.leb_le, T, Hgt.
        -- exact Oyz.
Qed.

Lemma stable_sort_ordered (cmp : ItemT -> ItemT -> Z) (l : list ItemT) :
  total cmp -> ordered cmp (stable_sort cmp l) = true.
Proof.
  intros T. induction l as [|x t IH]; cbn [stable_sort]; [reflexivity|].
  apply sort_insert_ordered; assumption.
Qed.

Lemma stable_sort_fixed (cmp : ItemT -> ItemT -> Z) (l : list ItemT) :
  ordered cmp l = true -> stable_sort cmp l = l.
Proof.
  induction l as [|x t IH]; intros O; cbn [stable_sort]; [reflexivity|].
  destruct t as [|y t'].
  - reflexivity.
  - cbn [ordered] in O. apply andb_true_iff in O. destruct O as [Oxy Ot].
    rewrite (IH Ot). cbn [sort_insert]. rewrite Oxy. reflexivity.
Qed.

Lemma js_sort_parts (cmp : ItemT -> ItemT -> Z) (l : list ItemT) :
  Forall (fun x => negb (is_undefined x) = true)
    (stable_sort cmp (filter (fun v => negb (is_undefined v)) l))
  /\ Forall (fun x => is_undefined x = true) (filter is_undefined l).
Proof.
  split; [|apply filter_Forall].
  eapply Permutation_Forall; [apply stable_sort_perm|].
  apply (filter_Forall (fun v => negb (is_undefined v))).
Qed.

Lemma js_sort_fixed (cmp : ItemT -> ItemT -> Z) (l : list ItemT) :
  total cmp -> js_sort cmp (js_sort cmp l) = js_sort cmp l.
Proof.
  intros T. unfold js_sort at 1.
  destruct (js_sort_parts cmp l) as [D U]. unfold js_sort.
  set (S := stable_sort cmp (filter (fun v => negb (is_undefined v)) l)) in *.
  set (V := filter is_undefined l) in *.
  rewrite !filter_app.
  rewrite (filter_all (fun v => negb (is_undefined v)) S D).
  rewrite (filter_none (fun v => negb (is_undefined v)) V).
  2:{ eapply Forall_impl; [|exact U]. intros a Ha. cbv beta in *.
      rewrite Ha. reflexivity. }
  rewrite (filter_none is_undefined S).
  2:{ eapply Forall_impl; [|exact D]. intros a Ha. cbv beta in *.
      apply negb_true_iff in Ha. exact Ha. }
  rewrite (filter_all is_undefined V U).
  rewrite app_nil_r. cbn [app].
  rewrite stable_sort_fixed; [reflexivity|].
  apply stable_sort_ordered, T.
Qed.

(** With a [sortItems] comparator that is a consistent ordering at the
    current value, the view is an ordered run of defined items, each at or
    before its successor by the comparator, followed by the [undefined]
    items. *)
Theorem view_is_ordered (p : Props.t) (cmp : ItemT -> ItemT -> string -> Z) :
  Props.sortItems p = Some cmp ->
  consistent (fun a b => cmp a b (Props.value p)) ->
  exists defined undefineds,
    fst (getFilteredItems p) = defined ++ undefineds
    /\ ordered (fun a b => cmp a b (Props.value p)) defined = true
    /\ Forall (fun x => x <> IUndefined) defined
    /\ Forall (fun x => x = IUndefined) undefineds.
Proof.
  intros Hs C. pose proof (consistent_total _ C) as T.
  unfold getFilteredItems. rewrite Hs.
  assert (G : forall l,
            exists defined undefineds,
              js_sort (fun a b => cmp a b (Props.value p)) l
              = defined ++ undefineds
              /\ ordered (fun a b => cmp a b (Props.value p)) defined = true
              /\ Forall (fun x => x <> IUndefined) defined
              /\ Forall (fun x => x = IUndefined) undefineds).
  { intros l. destruct (js_sort_parts (fun a b => cmp a b (Props.value p)) l)
      as [D U].
    eexists. eexists. split; [reflexivity|]. split; [|split].
    - apply stable_sort_ordered, T.
    - eapply Forall_impl; [|exact D]. intros a Ha E. subst a. discriminate Ha.
    - eapply Forall_impl; [|exact U]. intros a Ha. destruct a; try discriminate.
      reflexivity. }
  destruct (Props.shouldItemRender p); cbn [fst]; apply G.
Qed.

(** Calling [getFilteredItems] again on the props it left gives the same
    view and leaves the props as they are, provided the comparator, if
    any, is a consistent ordering at the current value: the render and the
    key handlers of one state see the same items at the same indexes. *)
Theorem view_stable_across_calls (p : Props.t) :
  (forall cmp, Props.sortItems p = Some cmp ->
               consistent (fun a b => cmp a b (Props.value p))) ->
  getFilteredItems (snd (getFilteredItems p))
  = (fst (getFilteredItems p), snd (getFilteredItems p)).
Proof.
  intros T. unfold getFilteredItems.
  destruct p as [its v sh sel so gv ah sb op ob ofc okd ocl]; cbn -[js_sort] in *.
  destruct sh as [f|]; destruct so as [cmp|]; cbn -[js_sort]; try reflexivity.
  rewrite js_sort_fixed by (apply consistent_total, (T cmp); reflexivity).
  reflexivity.
Qed.

End Component.

(** ** Examples on the ASCII engine *)

#[local] Existing Instance ascii_engine.

(** ** The theorems at concrete inputs *)


(** Without auto-highlight and without a highlight, an ArrowDown key during
    which the caller empties the items: [componentWillReceiveProps] reads
    the null highlight from before the key and queues nothing, the
    handler's [setState] applies, and index 0 is highlighted on an empty
    view.  With an update of its own for each, the same key and the same
    props leave no highlight. *)
Example batched_props_change_strands_highlight :
  let this := fst (mount dom0 (manual_props fruits "")) in
  let this' :=
    fst (fire_batched dom0 (KeyDown "ArrowDown" 40) (manual_props [] "") this) in
  reaches this'
  /\ State.highlightedIndex (state this') = Some 0
  /\ view this' = []
  /\ ~ highlight_in_view this'
  /\ State.highlightedIndex
       (state (fst (fire dom0 (ReceiveProps (manual_props [] ""))
                      (fst (fire dom0 (KeyDown "ArrowDown" 40) this)))))
     = None.
Proof.
  cbv zeta. split; [apply reaches_batched, reaches_mount|].
  split; [reflexivity|]. split; [reflexivity|]. split; [|reflexivity].
  vm_compute. intros [_ H]. discriminate H.
Qed.


(** Typing "b" keeps "banana" only. *)
Lemma C2_witness :
  Props.sortItems (filtering_props "b") = None
  /\ fst (getFilteredItems (filtering_props "b")) = [fruit "banana"]
  /\ Kept (keeps (filtering_props "b")) fruits
       (fst (getFilteredItems (filtering_props "b"))).
Proof.
  split; [reflexivity|]. split; [reflexivity|].
  apply (C2_getFilteredItems_keeps_in_order (filtering_props "b")).
  reflexivity.
Defined.

(** Focus, two ArrowDown keys, Enter: "banana" is selected. *)
Lemma C4_witness :
  isOpen (after dom0 (fruit_props fruits "" None)
            [Focus; KeyDown "ArrowDown" 40; KeyDown "ArrowDown" 40]) = true
  /\ filter is_OnSelect
       (snd (step dom0 (KeyDown "Enter" 13)
               (after dom0 (fruit_props fruits "" None)
                  [Focus; KeyDown "ArrowDown" 40; KeyDown "ArrowDown" 40])))
     = [OnSelect "banana" (fruit "banana")]
  /\ State.isOpen
       (state (fst (step dom0 (KeyDown "Enter" 13)
                      (after dom0 (fruit_props fruits "" None)
                         [Focus; KeyDown "ArrowDown" 40; KeyDown "ArrowDown" 40]))))
     = false
  /\ State.highlightedIndex
       (state (fst (step dom0 (KeyDown "Enter" 13)
                      (after dom0 (fruit_props fruits "" None)
                         [Focus; KeyDown "ArrowDown" 40; KeyDown "ArrowDown" 40]))))
     = None.
Proof.
  split; [reflexivity|].
  pose proof (C4_Enter dom0 13
                (after dom0 (fruit_props fruits "" None)
                   [Focus; KeyDown "ArrowDown" 40; KeyDown "ArrowDown" 40])) as H.
  cbv zeta in H. destruct H as (_ & _ & _ & H).
  specialize (H eq_refl eq_refl 1 eq_refl).
  vm_compute in H. vm_compute. exact H.
Defined.

(** The caller forces the menu open, the pointer enters it, the caller
    closes it: Enter on the closed menu releases the ignore-blur flag. *)
Lemma C4_counterexample :
  ~ (forall (dom : Dom) (this : Autocomplete),
       reachable this -> isOpen this = false ->
       fst (step dom (KeyDown "Enter" 13) this) = this).
Proof.
  intros H.
  specialize (H dom0
                (after dom0 (fruit_props fruits "" (Some true))
                   [MenuMouseEnter;
                    ReceiveProps (fruit_props fruits "" (Some false))])
                (after_reachable _ _ _) eq_refl).
  apply (f_equal _ignoreBlur) in H. vm_compute in H. discriminate.
Qed.

(** Highlight on "apple", "banana" not selectable: ArrowDown goes to
    "cherry". *)
Lemma C5_witness :
  highlight_in_view (after dom0 (picky_props fruits) [KeyDown "ArrowDown" 40])
  /\ State.highlightedIndex
       (state (after dom0 (picky_props fruits) [KeyDown "ArrowDown" 40]))
     = Some 0
  /\ State.highlightedIndex
       (state (fst (step dom0 (KeyDown "ArrowDown" 40)
                      (after dom0 (picky_props fruits) [KeyDown "ArrowDown" 40]))))
     = Some 2
  /\ State.isOpen
       (state (fst (step dom0 (KeyDown "ArrowDown" 40)
                      (after dom0 (picky_props fruits) [KeyDown "ArrowDown" 40]))))
     = true.
Proof.
  assert (Hv : highlight_in_view
                 (after dom0 (picky_props fruits) [KeyDown "ArrowDown" 40])).
  { vm_compute. split; [discriminate|reflexivity]. }
  split; [exact Hv|]. split; [reflexivity|].
  pose proof (C5_ArrowDown_next_selectable dom0 40
                (after dom0 (picky_props fruits) [KeyDown "ArrowDown" 40]) Hv)
    as H.
  cbv zeta in H. destruct H as (_ & _ & H & _).
  specialize (H 1).
  assert (R : 0 <= 1 < len (view (after dom0 (picky_props fruits)
                                    [KeyDown "ArrowDown" 40])))
    by (vm_compute; split; [discriminate|reflexivity]).
  specialize (H R eq_refl).
  destruct H as [_ H].
  - intros j Hj. assert (j = 0) by lia. subst j. reflexivity.
  - apply H. discriminate.
Defined.

(** The value "AP" against "apple": index 0 is highlighted. *)
Example auto_highlight_folds_case :
  State.highlightedIndex
    (fst (maybeAutoCompleteText (State.mk false None None None None)
            (fruit_props fruits "AP" None)))
  = Some 0.
Proof. reflexivity. Qed.

(** The menu is open and the pointer is over it: a click on "banana". *)
Lemma C7_witness :
  refs_menu (after dom0 (fruit_props fruits "" None) [Focus; MenuMouseEnter])
  = Some fruits
  /\ filter is_OnSelect
       (snd (step dom0 (ItemClick 1)
               (after dom0 (fruit_props fruits "" None) [Focus; MenuMouseEnter])))
     = [OnSelect "banana" (fruit "banana")]
  /\ State.isOpen
       (state (fst (step dom0 (ItemClick 1)
                      (after dom0 (fruit_props fruits "" None)
                         [Focus; MenuMouseEnter]))))
     = false
  /\ State.highlightedIndex
       (state (fst (step dom0 (ItemClick 1)
                      (after dom0 (fruit_props fruits "" None)
                         [Focus; MenuMouseEnter]))))
     = None
  /\ _ignoreBlur
       (fst (step dom0 (ItemClick 1)
               (after dom0 (fruit_props fruits "" None) [Focus; MenuMouseEnter])))
     = false.
Proof.
  split; [reflexivity|].
  apply (C7_click_selects_item dom0
           (after dom0 (fruit_props fruits "" None) [Focus; MenuMouseEnter])
           fruits 1); reflexivity.
Defined.

(** The pointer is over the open menu when the input loses focus. *)
Lemma C8_witness :
  _ignoreBlur (after dom0 (fruit_props fruits "" None) [Focus; MenuMouseEnter])
  = true
  /\ State.isOpen
       (state (fst (step dom0 Blur
                      (after dom0 (fruit_props fruits "" None)
                         [Focus; MenuMouseEnter]))))
     = true
  /\ snd (step dom0 Blur
            (after dom0 (fruit_props fruits "" None) [Focus; MenuMouseEnter]))
     = [InputFocus]
  /\ _scrollOffset
       (fst (step dom0 Blur
               (after dom0 (fruit_props fruits "" None) [Focus; MenuMouseEnter])))
     = Some (0, 120).
Proof.
  destruct (C8_blur_ignored dom0
              (after dom0 (fruit_props fruits "" None) [Focus; MenuMouseEnter])
              eq_refl) as (Hs & _ & _ & _ & He & _ & Ho & _).
  split; [reflexivity|]. split; [rewrite Hs; reflexivity|].
  split; [exact He|exact Ho].
Defined.

(** No highlight, "banana" last and not selectable: ArrowUp goes to
    "cherry" at index 1. *)
Lemma C10_witness :
  State.highlightedIndex
    (state (after dom0
              (picky_props [fruit "apple"; fruit "cherry"; fruit "banana"]) []))
  = None
  /\ State.highlightedIndex
       (state (fst (step dom0 (KeyDown "ArrowUp" 38)
                      (after dom0
                         (picky_props
                            [fruit "apple"; fruit "cherry"; fruit "banana"]) []))))
     = Some 1
  /\ State.isOpen
       (state (fst (step dom0 (KeyDown "ArrowUp" 38)
                      (after dom0
                         (picky_props
                            [fruit "apple"; fruit "cherry"; fruit "banana"]) []))))
     = true.
Proof.
  split; [reflexivity|].
  pose proof (C10_ArrowUp_from_no_highlight dom0 38
                (after dom0
                   (picky_props [fruit "apple"; fruit "cherry"; fruit "banana"])
                   [])
                eq_refl) as H.
  cbv zeta in H. destruct H as (_ & _ & H).
  apply (H 1).
  - vm_compute. split; [discriminate|reflexivity].
  - reflexivity.
  - intros j Hj.
    assert (E : j = 2).
    { assert (Hl : len (view (after dom0
                (picky_props [fruit "apple"; fruit "cherry"; fruit "banana"]) []))
                   = 3) by reflexivity.
      rewrite Hl in Hj. lia. }
    subst j. reflexivity.
Defined.

(** With a highlight and nothing selectable [ArrowUp] keeps the index and
    still sets [isOpen]: here the highlight comes from auto-highlight while
    the menu is closed, then the caller makes every item non-selectable. *)
Example ArrowUp_with_highlight_opens :
  let closed :=
    after dom0 (fruit_props fruits "" None)
      [ReceiveProps (fruit_props fruits "ap" None);
       ReceiveProps (Props.mk fruits "ap" None (fun _ => false) None item_v
                       true false None false false false false)] in
  state closed = State.mk false (Some 0) None None None
  /\ state (fst (step dom0 (KeyDown "ArrowUp" 38) closed))
     = State.mk true (Some 0) (Some 40) (Some 8) (Some 200).
Proof. vm_compute. split; reflexivity. Qed.

(** ** The properties above at concrete inputs *)

(** The caller forces the menu open; Escape does not hide it. *)
Lemma open_prop_decides_witness :
  Props.open (props (after dom0 (fruit_props fruits "" (Some true)) []))
  = Some true
  /\ isOpen (fst (step dom0 (KeyDown "Escape" 27)
                    (after dom0 (fruit_props fruits "" (Some true)) [])))
     = true.
Proof.
  split; [reflexivity|].
  apply (open_prop_decides dom0 (KeyDown "Escape" 27)
           (after dom0 (fruit_props fruits "" (Some true)) []) true).
  - reflexivity.
  - intros nextProps. discriminate.
Defined.

(** After a focus the menu is rendered with the three fruits. *)
Lemma menu_rendered_iff_open_witness :
  reachable (after dom0 (fruit_props fruits "" None) [Focus])
  /\ match refs_menu (after dom0 (fruit_props fruits "" None) [Focus]) with
     | Some m =>
         isOpen (after dom0 (fruit_props fruits "" None) [Focus]) = true
         /\ len m = len (view (after dom0 (fruit_props fruits "" None) [Focus]))
     | None => isOpen (after dom0 (fruit_props fruits "" None) [Focus]) = false
     end.
Proof.
  split; [apply after_reachable|].
  exact (menu_rendered_iff_open
           (after dom0 (fruit_props fruits "" None) [Focus])
           (after_reachable dom0 (fruit_props fruits "" None) [Focus])).
Defined.

(** The pointer is on the menu and the input has lost the focus: the focus
    that follows finds the offset. *)
Lemma focus_never_throws_witness :
  reachable (after dom0 (fruit_props fruits "" None) [Focus; MenuMouseEnter; Blur])
  /\ _ignoreFocus
       (after dom0 (fruit_props fruits "" None) [Focus; MenuMouseEnter; Blur])
     = true
  /\ ~ In ThrowTypeError
         (snd (step dom0 Focus
                 (after dom0 (fruit_props fruits "" None)
                    [Focus; MenuMouseEnter; Blur]))).
Proof.
  split; [apply after_reachable|]. split; [reflexivity|].
  apply (focus_never_throws
           (after dom0 (fruit_props fruits "" None) [Focus; MenuMouseEnter; Blur])
           (after_reachable _ _ _)).
Defined.

(** "apple" is highlighted when the input loses the focus. *)
Lemma blur_closes_witness :
  _ignoreBlur (after dom0 blur_props [Focus; KeyDown "ArrowDown" 40]) = false
  /\ snd (step dom0 Blur (after dom0 blur_props [Focus; KeyDown "ArrowDown" 40]))
     = [InputOnBlur; OnMenuVisibilityChange false;
        OnSelect "apple" (fruit "apple")].
Proof.
  split; [reflexivity|].
  pose proof (blur_closes dom0
                (after dom0 blur_props [Focus; KeyDown "ArrowDown" 40]) eq_refl)
    as H.
  cbv zeta in H. destruct H as (_ & _ & H).
  vm_compute in H. vm_compute. exact H.
Defined.

(** "apple" is highlighted when Enter is pressed. *)
Lemma enter_calls_in_order_witness :
  isOpen (after dom0 (fruit_props fruits "" None)
            [Focus; KeyDown "ArrowDown" 40]) = true
  /\ snd (fire dom0 (KeyDown "Enter" 13)
            (after dom0 (fruit_props fruits "" None)
               [Focus; KeyDown "ArrowDown" 40]))
     = [PreventDefault; OnMenuVisibilityChange false;
        InputSetSelectionRange 5 5; OnSelect "apple" (fruit "apple")].
Proof.
  split; [reflexivity|].
  pose proof (enter_calls_in_order dom0
                (after dom0 (fruit_props fruits "" None)
                   [Focus; KeyDown "ArrowDown" 40]) eq_refl) as H.
  vm_compute in H. vm_compute. exact H.
Defined.

(** The item [cafe], five bytes and four UTF-16 code units, with a caller
    listening to [onKeyDown]: the caret goes to position 4, and the
    caller's handler is called after [preventDefault] and before the
    update. *)
Example enter_counts_code_units :
  String.length cafe = 5%nat
  /\ utf16_length cafe = 4
  /\ snd (fire dom0 (KeyDown "Enter" 13)
            (after dom0 (manual_props [fruit cafe] "")
               [Focus; KeyDown "ArrowDown" 40]))
     = [PreventDefault; InputOnKeyDown; OnMenuVisibilityChange false;
        InputSetSelectionRange 4 4; OnSelect cafe (fruit cafe)].
Proof. split; [|split]; reflexivity. Qed.

(** The first focus after mounting. *)
Lemma focus_opens_witness :
  _ignoreFocus (after dom0 (fruit_props fruits "" None) []) = false
  /\ State.isOpen
       (state (fst (step dom0 Focus (after dom0 (fruit_props fruits "" None) []))))
     = true
  /\ filter is_caller_callback
       (snd (step dom0 Focus (after dom0 (fruit_props fruits "" None) [])))
     = [OnMenuVisibilityChange true].
Proof.
  split; [reflexivity|].
  pose proof (focus_opens dom0 (after dom0 (fruit_props fruits "" None) [])
                eq_refl) as H.
  cbv zeta in H. destruct H as (H1 & _ & H2). split; [exact H1|].
  vm_compute in H2. vm_compute. exact H2.
Defined.

(** The page is scrolled to 120 when the blur is ignored. *)
Lemma ignored_blur_restores_scroll_witness :
  _ignoreBlur (after dom0 (fruit_props fruits "" None) [Focus; MenuMouseEnter])
  = true
  /\ snd (step dom0 ScrollTimer
            (fst (step dom0 Focus
                    (fst (step dom0 Blur
                            (after dom0 (fruit_props fruits "" None)
                               [Focus; MenuMouseEnter]))))))
     = [ScrollTo 0 120].
Proof.
  split; [reflexivity|].
  apply (ignored_blur_restores_scroll dom0 dom0 dom0
           (after dom0 (fruit_props fruits "" None) [Focus; MenuMouseEnter])
           eq_refl).
Defined.

(** The letter "a" typed into the closed input. *)
Lemma other_key_opens_witness :
  is_handled_key "a" = false
  /\ is_inherited_name "a" = false
  /\ State.isOpen
       (state (fst (fire dom0 (KeyDown "a" 65)
                      (after dom0 (manual_props fruits "") []))))
     = true
  /\ filter is_caller_callback
       (snd (fire dom0 (KeyDown "a" 65)
               (after dom0 (manual_props fruits "") [])))
     = [InputOnKeyDown; OnMenuVisibilityChange true].
Proof.
  split; [reflexivity|]. split; [reflexivity|].
  pose proof (other_key_opens dom0 "a" 65
                (after dom0 (manual_props fruits "") []) eq_refl eq_refl)
    as H.
  cbv zeta in H.
  change (isOpen (after dom0 (manual_props fruits "") [])) with false in H.
  destruct H as (H1 & _ & H2). split; [exact H1|].
  vm_compute in H2. vm_compute. exact H2.
Defined.

(** Highlight on "cherry"; the caller then passes two items and the same
    value. *)
Lemma props_change_keeps_valid_highlight_witness :
  State.highlightedIndex
    (state (after dom0 (fruit_props fruits "" None)
              [KeyDown "ArrowDown" 40; KeyDown "ArrowDown" 40;
               KeyDown "ArrowDown" 40]))
  = Some 2
  /\ State.highlightedIndex
       (state (fst (step dom0
                      (ReceiveProps
                         (fruit_props [fruit "apple"; fruit "banana"] "" None))
                      (after dom0 (fruit_props fruits "" None)
                         [KeyDown "ArrowDown" 40; KeyDown "ArrowDown" 40;
                          KeyDown "ArrowDown" 40]))))
     = None.
Proof.
  split; [reflexivity|].
  pose proof (props_change_keeps_valid_highlight dom0
                (fruit_props [fruit "apple"; fruit "banana"] "" None)
                (after dom0 (fruit_props fruits "" None)
                   [KeyDown "ArrowDown" 40; KeyDown "ArrowDown" 40;
                    KeyDown "ArrowDown" 40])) as H.
  cbv zeta in H. destruct H as [H _].
  - right. split; [reflexivity|]. vm_compute. discriminate.
  - rewrite H. reflexivity.
Defined.

(** Highlight on "cherry", "banana" not selectable: ArrowUp goes to
    "apple". *)
Lemma ArrowUp_previous_selectable_witness :
  highlight_in_view
    (after dom0 (picky_props fruits)
       [KeyDown "ArrowDown" 40; KeyDown "ArrowDown" 40])
  /\ State.highlightedIndex
       (state (after dom0 (picky_props fruits)
                 [KeyDown "ArrowDown" 40; KeyDown "ArrowDown" 40]))
     = Some 2
  /\ State.highlightedIndex
       (state (fst (step dom0 (KeyDown "ArrowUp" 38)
                      (after dom0 (picky_props fruits)
                         [KeyDown "ArrowDown" 40; KeyDown "ArrowDown" 40]))))
     = Some 0.
Proof.
  assert (Hv : highlight_in_view
                 (after dom0 (picky_props fruits)
                    [KeyDown "ArrowDown" 40; KeyDown "ArrowDown" 40])).
  { vm_compute. split; [discriminate|reflexivity]. }
  split; [exact Hv|]. split; [reflexivity|].
  pose proof (ArrowUp_previous_selectable dom0 38
                (after dom0 (picky_props fruits)
                   [KeyDown "ArrowDown" 40; KeyDown "ArrowDown" 40])
                2 Hv eq_refl) as H.
  cbv zeta in H. destruct H as (_ & _ & H).
  apply (H 1).
  - vm_compute. split; [discriminate|reflexivity].
  - reflexivity.
  - intros j Hj. assert (j = 0) by lia. subst j. reflexivity.
Defined.

(** Highlight on "apple", "banana" not selectable. *)
Lemma arrows_land_on_selectable_witness :
  highlight_in_view (after dom0 (picky_props fruits) [KeyDown "ArrowDown" 40])
  /\ exists p,
       State.highlightedIndex
         (state (fst (step dom0 (KeyDown "ArrowDown" 40)
                        (after dom0 (picky_props fruits)
                           [KeyDown "ArrowDown" 40]))))
       = Some p
       /\ not_banana (item_at fruits p) = true.
Proof.
  assert (Hv : highlight_in_view
                 (after dom0 (picky_props fruits) [KeyDown "ArrowDown" 40])).
  { vm_compute. split; [discriminate|reflexivity]. }
  split; [exact Hv|].
  pose proof (arrows_land_on_selectable dom0 40
                (after dom0 (picky_props fruits) [KeyDown "ArrowDown" 40]) Hv)
    as H.
  cbv zeta in H. destruct H as [[H|(p & Hp & _ & Hs)] _].
  - exfalso. vm_compute in H. discriminate H.
  - exists p. split; [exact Hp|exact Hs].
Defined.

(** From "apple" down to "cherry" and back up to "apple", over the
    non-selectable "banana". *)
Lemma ArrowDown_then_ArrowUp_witness :
  highlight_in_view (after dom0 (picky_props fruits) [KeyDown "ArrowDown" 40])
  /\ State.highlightedIndex
       (state (fst (step dom0 (KeyDown "ArrowDown" 40)
                      (after dom0 (picky_props fruits) [KeyDown "ArrowDown" 40]))))
     = Some 2
  /\ State.highlightedIndex
       (state (fst (step dom0 (KeyDown "ArrowUp" 38)
                      (fst (step dom0 (KeyDown "ArrowDown" 40)
                              (after dom0 (picky_props fruits)
                                 [KeyDown "ArrowDown" 40]))))))
     = Some 0.
Proof.
  assert (Hv : highlight_in_view
                 (after dom0 (picky_props fruits) [KeyDown "ArrowDown" 40])).
  { vm_compute. split; [discriminate|reflexivity]. }
  split; [exact Hv|]. split; [reflexivity|].
  apply (ArrowDown_then_ArrowUp dom0 dom0 40 38
           (after dom0 (picky_props fruits) [KeyDown "ArrowDown" 40]) 0 Hv).
  - reflexivity.
  - reflexivity.
  - right. reflexivity.
Defined.

(** Enter on the highlighted "apple". *)
Lemma selected_item_is_highlighted_witness :
  highlight_in_view
    (after dom0 (fruit_props fruits "" None) [Focus; KeyDown "ArrowDown" 40])
  /\ In (OnSelect "apple" (fruit "apple"))
       (snd (step dom0 (KeyDown "Enter" 13)
               (after dom0 (fruit_props fruits "" None)
                  [Focus; KeyDown "ArrowDown" 40])))
  /\ exists h,
       State.highlightedIndex
         (state (after dom0 (fruit_props fruits "" None)
                   [Focus; KeyDown "ArrowDown" 40])) = Some h
       /\ In (fruit "apple")
            (view (after dom0 (fruit_props fruits "" None)
                     [Focus; KeyDown "ArrowDown" 40])).
Proof.
  assert (Hv : highlight_in_view
                 (after dom0 (fruit_props fruits "" None)
                    [Focus; KeyDown "ArrowDown" 40])).
  { vm_compute. split; [discriminate|reflexivity]. }
  assert (Hi : In (OnSelect "apple" (fruit "apple"))
                 (snd (step dom0 (KeyDown "Enter" 13)
                         (after dom0 (fruit_props fruits "" None)
                            [Focus; KeyDown "ArrowDown" 40])))).
  { vm_compute. do 3 right. left. reflexivity. }
  split; [exact Hv|]. split; [exact Hi|].
  destruct (selected_item_is_highlighted dom0
              (after dom0 (fruit_props fruits "" None)
                 [Focus; KeyDown "ArrowDown" 40])
              "apple" (fruit "apple") Hv (or_introl Hi))
    as (h & Eh & _ & Hin & _).
  exists h. split; assumption.
Defined.

(** The open fruit menu. *)
Lemma pointer_guards_blur_witness :
  refs_menu (after dom0 (fruit_props fruits "" None) [Focus]) = Some fruits
  /\ snd (step dom0 Blur
            (fst (step dom0 MenuMouseEnter
                    (after dom0 (fruit_props fruits "" None) [Focus]))))
     = [InputFocus]
  /\ State.isOpen
       (state (fst (step dom0 Blur
                      (fst (step dom0 MenuMouseLeave
                              (after dom0 (fruit_props fruits "" None) [Focus]))))))
     = false.
Proof.
  split; [reflexivity|].
  pose proof (pointer_guards_blur dom0 dom0
                (after dom0 (fruit_props fruits "" None) [Focus]) fruits eq_refl)
    as H.
  cbv zeta in H. destruct H as ((_ & _ & _ & H1) & _ & H2 & _).
  split; [exact H1|exact H2].
Defined.

Lemma ascending_consistent (value : string) :
  consistent (fun a b => ascending a b value).
Proof. unfold consistent, ascending. repeat split; intros; lia. Qed.

(** The numbers 2 and 1 around an [undefined] item. *)
Lemma view_is_ordered_witness :
  Props.sortItems
    (number_props [INum 2; IUndefined; INum 1] "" (Some ascending))
  = Some ascending
  /\ fst (getFilteredItems
            (number_props [INum 2; IUndefined; INum 1] "" (Some ascending)))
     = [INum 1; INum 2; IUndefined]
  /\ exists defined undefineds,
       fst (getFilteredItems
              (number_props [INum 2; IUndefined; INum 1] "" (Some ascending)))
       = defined ++ undefineds
       /\ ordered (fun a b => ascending a b "") defined = true
       /\ Forall (fun x => x <> IUndefined) defined
       /\ Forall (fun x => x = IUndefined) undefineds.
Proof.
  split; [reflexivity|]. split; [reflexivity|].
  exact (view_is_ordered
           (number_props [INum 2; IUndefined; INum 1] "" (Some ascending))
           ascending eq_refl (ascending_consistent "")).
Defined.

Lemma view_stable_across_calls_witness :
  getFilteredItems
    (snd (getFilteredItems
            (number_props [INum 2; IUndefined; INum 1] "" (Some ascending))))
  = (fst (getFilteredItems
            (number_props [INum 2; IUndefined; INum 1] "" (Some ascending))),
     snd (getFilteredItems
            (number_props [INum 2; IUndefined; INum 1] "" (Some ascending)))).
Proof.
  apply (view_stable_across_calls
           (number_props [INum 2; IUndefined; INum 1] "" (Some ascending))).
  intros cmp E. cbn in E. inversion E; subst. apply ascending_consistent.
Defined.
